(** * KernGovPodcast: the scraper, the processor, the generator and the run

  A shallow embedding of [scraper/kern_scraper.py], [scraper/ai_processor.py],
  [scraper/notebooklm_generator.py] and [scraper/main.py], with the
  properties of the specification stated over it.

  A Python text is held as the [string] of the bytes of its UTF-8 encoding,
  Python integers as [Z], dictionaries as association lists in insertion
  order. Everything the interpreter reaches outside the process (the wall
  clock, the HTTP session, the completion endpoint) is read from a [host]
  record, one interaction per tick of a counter, so that two reads of the
  clock are two different readings, as they are in the code. *)

From Stdlib Require Import ZArith List String Ascii Bool Lia.
Import ListNotations.

Set Warnings "-register-all".

Local Open Scope string_scope.
Local Open Scope Z_scope.

(** ** The string methods the code calls

    White space is what [str.isspace] says it is, in its UTF-8 bytes: the
    ASCII characters TAB to CR, FS to US and the space, and U+0085, U+00A0,
    U+1680, U+2000 to U+200A, U+2028, U+2029, U+202F, U+205F and U+3000. *)
Module PyStr.

Definition code (c : ascii) : Z := Z.of_nat (nat_of_ascii c).

(** [str.isspace] on one ASCII character: TAB..CR, FS..US and the space. *)
Definition is_space (c : ascii) : bool :=
  ((9 <=? code c) && (code c <=? 13)) || ((28 <=? code c) && (code c <=? 32)).

(** The white-space characters of two bytes: U+0085 and U+00A0. *)
Definition is_space2 (a b : ascii) : bool :=
  (code a =? 194) && ((code b =? 133) || (code b =? 160)).

(** The white-space characters of three bytes: U+1680, U+2000 to U+200A,
    U+2028, U+2029, U+202F, U+205F and U+3000. *)
Definition is_space3 (a b c : ascii) : bool :=
  ((code a =? 225) && (code b =? 154) && (code c =? 128))
  || ((code a =? 226) && (code b =? 128)
      && (((128 <=? code c) && (code c <=? 138))
          || (code c =? 168) || (code c =? 169) || (code c =? 175)))
  || ((code a =? 226) && (code b =? 129) && (code c =? 159))
  || ((code a =? 227) && (code b =? 128) && (code c =? 128)).

(** The text after the white-space character at the head of [s], when
    there is one. *)
Definition space_at (s : string) : option string :=
  match s with
  | EmptyString => None
  | String a r1 =>
      if is_space a then Some r1
      else
        match r1 with
        | EmptyString => None
        | String b r2 =>
            if is_space2 a b then Some r2
            else
              match r2 with
              | EmptyString => None
              | String c r3 => if is_space3 a b c then Some r3 else None
              end
        end
  end.

Definition is_digit (c : ascii) : bool :=
  (48 <=? code c) && (code c <=? 57).

Definition digit_val (c : ascii) : Z := code c - 48.

(** [s.lstrip()] *)
Fixpoint lstrip (s : string) : string :=
  match s with
  | EmptyString => EmptyString
  | String a r1 =>
      if is_space a then lstrip r1
      else
        match r1 with
        | EmptyString => s
        | String b r2 =>
            if is_space2 a b then lstrip r2
            else
              match r2 with
              | EmptyString => s
              | String c r3 => if is_space3 a b c then lstrip r3 else s
              end
        end
  end.

(** [s.isspace()], or [s] is empty. *)
Definition blank (s : string) : bool :=
  match lstrip s with
  | EmptyString => true
  | String _ _ => false
  end.

(** [s.rstrip()]: the text up to the white space that ends it. *)
Fixpoint rstrip (s : string) : string :=
  match s with
  | EmptyString => EmptyString
  | String c s' => if blank s then EmptyString else String c (rstrip s')
  end.

(** [s.strip()] *)
Definition strip (s : string) : string := rstrip (lstrip s).

(** [s.replace(c, by)] for a one-character [c]: every occurrence. *)
Fixpoint replace_char (c : ascii) (by_ : string) (s : string) : string :=
  match s with
  | EmptyString => EmptyString
  | String a s' =>
      if Ascii.eqb a c then by_ ++ replace_char c by_ s'
      else String a (replace_char c by_ s')
  end.

Fixpoint starts_with (p s : string) : bool :=
  match p, s with
  | EmptyString, _ => true
  | String _ _, EmptyString => false
  | String a p', String b s' => Ascii.eqb a b && starts_with p' s'
  end.

(** [p in s] *)
Fixpoint contains (p s : string) : bool :=
  starts_with p s ||
  match s with
  | EmptyString => false
  | String _ s' => contains p s'
  end.

Definition lower_char (c : ascii) : ascii :=
  if (65 <=? code c) && (code c <=? 90)
  then ascii_of_nat (nat_of_ascii c + 32) else c.

Fixpoint lower (s : string) : string :=
  match s with
  | EmptyString => EmptyString
  | String c s' => String (lower_char c) (lower s')
  end.

(** The text as a case-insensitive pattern of ASCII characters compares
    it: an ASCII capital is its small letter, and the four characters that
    such a pattern takes for a letter are that letter (U+0130 and U+0131
    for [i], U+017F for [s], U+212A for [k]). *)
Fixpoint fold (s : string) : string :=
  match s with
  | EmptyString => EmptyString
  | String a r1 =>
      match r1 with
      | EmptyString => String (lower_char a) EmptyString
      | String b r2 =>
          if (code a =? 196) && ((code b =? 176) || (code b =? 177))
          then String "i" (fold r2)
          else if (code a =? 197) && (code b =? 191)
          then String "s" (fold r2)
          else
            match r2 with
            | EmptyString => String (lower_char a) (fold r1)
            | String c r3 =>
                if (code a =? 226) && (code b =? 132) && (code c =? 170)
                then String "k" (fold r3)
                else String (lower_char a) (fold r1)
            end
      end
  end.


Definition digit_char (d : Z) : ascii := ascii_of_nat (Z.to_nat (48 + d mod 10)).

(** ["%0wd" % n] for [0 <= n < 10^w]. *)
Fixpoint zpad (w : nat) (n : Z) : string :=
  match w with
  | O => EmptyString
  | S w' => zpad w' (n / 10) ++ String (digit_char n) EmptyString
  end.

(** Reads exactly [n] decimal digits at the head of [s]. *)
Fixpoint take_digits (n : nat) (acc : Z) (s : string) : option (Z * string) :=
  match n with
  | O => Some (acc, s)
  | S n' =>
      match s with
      | String c s' =>
          if is_digit c then take_digits n' (10 * acc + digit_val c) s' else None
      | EmptyString => None
      end
  end.

Definition expect (c : ascii) (s : string) : option string :=
  match s with
  | String a s' => if Ascii.eqb a c then Some s' else None
  | EmptyString => None
  end.

Fixpoint drop (n : nat) (s : string) : string :=
  match n, s with
  | S n', String _ r => drop n' r
  | _, _ => s
  end.

(** The text after the first character of [s]: the character takes one
    byte, or as many as its first byte says. *)
Definition after_char (s : string) : string :=
  match s with
  | EmptyString => EmptyString
  | String a r =>
      if code a <? 128 then r
      else if code a <? 224 then drop 1 r
      else if code a <? 240 then drop 2 r
      else drop 3 r
  end.

(** [d] is [s] after its leading white-space characters are removed, one
    after the other, until the head is not one. *)
Inductive lstripped : string -> string -> Prop :=
| lstripped_done (s : string) : space_at s = None -> lstripped s s
| lstripped_step (s r d : string) :
    space_at s = Some r -> lstripped r d -> lstripped s d.

(** The text ends with a white-space character. *)
Fixpoint ends_with_space (s : string) : bool :=
  match s with
  | EmptyString => false
  | String _ s' =>
      match space_at s with
      | Some EmptyString => true
      | _ => ends_with_space s'
      end
  end.

(** [d] is [s] without the white space at its head and at its end: what
    is left of [s] after its leading white space is [d] followed by white
    space only, and [d] does not end with white space. *)
Definition trimmed (s d : string) : Prop :=
  exists m r,
    lstripped s m /\ m = d ++ r /\ lstripped r EmptyString
    /\ ends_with_space d = false.

End PyStr.

(** ** Regular expressions of the scraper

  The three case-insensitive patterns are alternatives of literals of
  ASCII letters; the date pattern is matched anywhere in the text
  ([search], as BeautifulSoup applies a compiled pattern). The digits of
  the date pattern are the ASCII ones: on a text with a decimal digit of
  another script the pattern of the interpreter matches more, and the
  statements about dates are made for texts that are [plain]. *)
Module Re.
Import PyStr.

(** [re.compile(p1|p2|..., re.I).search(s)] for literal alternatives. *)
Definition search_ci (alts : list string) (s : string) : bool :=
  existsb (fun p => contains (lower p) (fold s)) alts.

(** One or two digits: the remainders after each way of matching [\d{1,2}],
    the greedy one first. *)
Definition digits_1_2 (s : string) : list string :=
  match s with
  | String a (String b r) =>
      if is_digit a
      then (if is_digit b then [r] else []) ++ [String b r]
      else []
  | String a EmptyString => if is_digit a then [EmptyString] else []
  | EmptyString => []
  end.

Definition slash (s : string) : list string :=
  match expect "/" s with Some r => [r] | None => [] end.

Definition digits_4 (s : string) : list string :=
  match take_digits 4 0 s with Some (_, r) => [r] | None => [] end.

(** [\d{1,2}/\d{1,2}/\d{4}] matched at the head of [s]. *)
Definition date_pattern_at (s : string) : bool :=
  match flat_map digits_4 (flat_map slash (flat_map digits_1_2
          (flat_map slash (digits_1_2 s)))) with
  | [] => false
  | _ :: _ => true
  end.

(** [re.compile(r'\d{1,2}/\d{1,2}/\d{4}').search(s)] as a truth value. *)
Fixpoint date_pattern_search (s : string) : bool :=
  date_pattern_at s ||
  match s with
  | EmptyString => false
  | String _ s' => date_pattern_search s'
  end.

End Re.

(** ** Python values, dictionaries and exceptions *)
Module Py.

Inductive exn : Type :=
| KeyError | TypeError | ValueError | AttributeError | IndexError
| OverflowError | ConnectionError | HTTPError | APIError | ParserRejectedMarkup.

(** The outcome of an expression that may raise. *)
Definition result (A : Type) : Type := (exn + A)%type.

Definition ok {A : Type} (a : A) : result A := inr a.
Definition raise {A : Type} (e : exn) : result A := inl e.

Definition rbind {A B : Type} (r : result A) (k : A -> result B) : result B :=
  match r with
  | inl e => inl e
  | inr a => k a
  end.

(** The values a meeting dictionary holds. *)
Inductive value : Type :=
| VNone
| VStr (s : string)
| VInt (n : Z).

(** A [dict] with string keys, in insertion order. *)
Definition dict : Type := list (string * value).

Fixpoint lookup (k : string) (d : dict) : option value :=
  match d with
  | [] => None
  | (k', v) :: d' => if String.eqb k k' then Some v else lookup k d'
  end.

(** [d[k]] *)
Definition getitem (d : dict) (k : string) : result value :=
  match lookup k d with
  | Some v => ok v
  | None => raise KeyError
  end.

(** [d.get(k, default)] *)
Definition get (d : dict) (k : string) (default : value) : value :=
  match lookup k d with
  | Some v => v
  | None => default
  end.

Fixpoint nat_digits (fuel : nat) (n : Z) : string :=
  match fuel with
  | O => EmptyString
  | S f =>
      if n <? 10 then String (PyStr.digit_char n) EmptyString
      else nat_digits f (n / 10) ++ String (PyStr.digit_char n) EmptyString
  end.

(** [str(v)], what an f-string puts for [{v}]. *)
Definition str_of (v : value) : string :=
  match v with
  | VNone => "None"
  | VStr s => s
  | VInt n =>
      if n <? 0 then "-" ++ nat_digits (S (Z.to_nat (- n))) (- n)
      else nat_digits (S (Z.to_nat n)) n
  end.

(** Truth value of [if x:] for an optional dictionary or string. *)
Definition truthy_dict (m : option dict) : bool :=
  match m with
  | Some (_ :: _) => true
  | _ => false
  end.

End Py.

(** ** [datetime]

  A [datetime] holds the wall-clock fields and an optional UTC offset (in
  microseconds); [None] is a naive value, as [datetime.now()] and
  [strptime] return. Calendar arithmetic follows the proleptic Gregorian
  ordinal of the standard library ([toordinal] and [fromordinal]). *)
Module Datetime.
Import PyStr Py.

Record civil : Type := mkcivil {
  year : Z; month : Z; day : Z;
  hour : Z; minute : Z; second : Z; microsecond : Z
}.

Record datetime : Type := mkdt {
  wall : civil;
  utcoffset : option Z
}.

Definition naive (c : civil) : datetime := mkdt c None.

Definition MAXORDINAL : Z := 3652059.

Definition is_leap (y : Z) : bool :=
  (y mod 4 =? 0) && (negb (y mod 100 =? 0) || (y mod 400 =? 0)).

Definition days_before_year (y : Z) : Z :=
  let p := y - 1 in p * 365 + p / 4 - p / 100 + p / 400.

Definition days_in_month (y m : Z) : Z :=
  if m =? 2 then (if is_leap y then 29 else 28)
  else if (m =? 4) || (m =? 6) || (m =? 9) || (m =? 11) then 30
  else 31.

Definition DAYS_BEFORE_MONTH : list Z :=
  [0; 0; 31; 59; 90; 120; 151; 181; 212; 243; 273; 304; 334].

Definition DAYS_IN_MONTH : list Z :=
  [0; 31; 28; 31; 30; 31; 30; 31; 31; 30; 31; 30; 31].

Definition days_before_month (y m : Z) : Z :=
  nth (Z.to_nat m) DAYS_BEFORE_MONTH 0
  + (if (2 <? m) && is_leap y then 1 else 0).

Definition ymd2ord (y m d : Z) : Z :=
  days_before_year y + days_before_month y m + d.

(** [date.fromordinal]: the year, month and day of ordinal [n0]. *)
Definition ord2ymd (n0 : Z) : Z * Z * Z :=
  let n := n0 - 1 in
  let n400 := n / 146097 in
  let n := n mod 146097 in
  let n100 := n / 36524 in
  let n := n mod 36524 in
  let n4 := n / 1461 in
  let n := n mod 1461 in
  let n1 := n / 365 in
  let n := n mod 365 in
  let y := n400 * 400 + 1 + n100 * 100 + n4 * 4 + n1 in
  if (n1 =? 4) || (n100 =? 4) then (y - 1, 12, 31)
  else
    let leapyear := (n1 =? 3) && (negb (n4 =? 24) || (n100 =? 3)) in
    let m := Z.shiftr (n + 50) 5 in
    let preceding :=
      nth (Z.to_nat m) DAYS_BEFORE_MONTH 0
      + (if (2 <? m) && leapyear then 1 else 0) in
    if n <? preceding then
      let m' := m - 1 in
      let preceding' :=
        preceding - (nth (Z.to_nat m') DAYS_IN_MONTH 0
                     + (if (m' =? 2) && leapyear then 1 else 0)) in
      (y, m', n - preceding' + 1)
    else (y, m, n - preceding + 1).

Definition toordinal (c : civil) : Z := ymd2ord (year c) (month c) (day c).

(** [d.weekday()]: Monday is 0, Sunday is 6. *)
Definition weekday (d : datetime) : Z := (toordinal (wall d) + 6) mod 7.

(** [d + timedelta(days=k)]: the date moves, the time of day stays. *)
Definition add_days (d : datetime) (k : Z) : result datetime :=
  let o := toordinal (wall d) + k in
  if (1 <=? o) && (o <=? MAXORDINAL) then
    let '(y, m, dd) := ord2ymd o in
    let c := wall d in
    ok (mkdt (mkcivil y m dd (hour c) (minute c) (second c) (microsecond c))
             (utcoffset d))
  else raise OverflowError.

Definition fields (c : civil) : list Z :=
  [year c; month c; day c; hour c; minute c; second c; microsecond c].

Fixpoint lex (a b : list Z) : comparison :=
  match a, b with
  | [], [] => Eq
  | [], _ :: _ => Lt
  | _ :: _, [] => Gt
  | x :: a', y :: b' =>
      match x ?= y with
      | Eq => lex a' b'
      | c => c
      end
  end.

(** Microseconds since ordinal 0 of the same instant in UTC. *)
Definition utc_micros (c : civil) (off : Z) : Z :=
  ((toordinal c * 86400 + hour c * 3600 + minute c * 60 + second c) * 1000000
   + microsecond c) - off.

(** The ordering comparisons [<], [<=], [>], [>=] of two datetimes: a naive
    and an aware value do not compare. *)
Definition dt_compare (a b : datetime) : result comparison :=
  match utcoffset a, utcoffset b with
  | None, None => ok (lex (fields (wall a)) (fields (wall b)))
  | Some oa, Some ob => ok (utc_micros (wall a) oa ?= utc_micros (wall b) ob)
  | _, _ => raise TypeError
  end.

Definition dt_le (a b : datetime) : result bool :=
  rbind (dt_compare a b)
        (fun c => ok match c with Gt => false | _ => true end).

Definition dt_gt (a b : datetime) : result bool :=
  rbind (dt_compare a b)
        (fun c => ok match c with Gt => true | _ => false end).

(** What the [datetime] constructor accepts. *)
Definition valid_date (y m d : Z) : bool :=
  (1 <=? y) && (y <=? 9999) && (1 <=? m) && (m <=? 12)
  && (1 <=? d) && (d <=? days_in_month y m).

Definition valid_time (h mi s us : Z) : bool :=
  (0 <=? h) && (h <=? 23) && (0 <=? mi) && (mi <=? 59)
  && (0 <=? s) && (s <=? 59) && (0 <=? us) && (us <=? 999999).

Definition format_offset (off : Z) : string :=
  let a := Z.abs off in
  let us := a mod 1000000 in
  let s := a / 1000000 in
  (if off <? 0 then "-" else "+")
  ++ zpad 2 (s / 3600) ++ ":" ++ zpad 2 ((s / 60) mod 60)
  ++ (if (s mod 60 =? 0) && (us =? 0) then EmptyString
      else ":" ++ zpad 2 (s mod 60)
           ++ (if us =? 0 then EmptyString else "." ++ zpad 6 us)).

(** [d.isoformat()] *)
Definition isoformat (d : datetime) : string :=
  let c := wall d in
  zpad 4 (year c) ++ "-" ++ zpad 2 (month c) ++ "-" ++ zpad 2 (day c)
  ++ "T" ++ zpad 2 (hour c) ++ ":" ++ zpad 2 (minute c) ++ ":" ++ zpad 2 (second c)
  ++ (if microsecond c =? 0 then EmptyString else "." ++ zpad 6 (microsecond c))
  ++ match utcoffset d with
     | None => EmptyString
     | Some off => format_offset off
     end.

(** *** [datetime.strptime(s, '%m/%d/%Y')]

    The format compiles to the regular expression
    [(1[0-2]|0[1-9]|[1-9])/(3[0-1]|[1-2]\d|0[1-9]|[1-9]| [1-9])/(\d\d\d\d)],
    matched at the head of the text; text left over after the match and a
    day that the month does not have are [ValueError]s. Each function
    lists the ways its directive matches, first alternative first. The
    class [\d] is taken over the ASCII digits, which is what it holds on
    a text that is [plain]. *)
Definition in_range (lo hi : Z) (c : ascii) : bool :=
  (lo <=? digit_val c) && (digit_val c <=? hi) && is_digit c.

Definition month_alts (s : string) : list (Z * string) :=
  match s with
  | EmptyString => []
  | String a r =>
      match r with
      | String b r' =>
          (if Ascii.eqb a "1" && in_range 0 2 b then [(10 + digit_val b, r')] else [])
          ++ (if Ascii.eqb a "0" && in_range 1 9 b then [(digit_val b, r')] else [])
      | EmptyString => []
      end
      ++ (if in_range 1 9 a then [(digit_val a, r)] else [])
  end.

Definition day_alts (s : string) : list (Z * string) :=
  match s with
  | EmptyString => []
  | String a r =>
      match r with
      | String b r' =>
          (if Ascii.eqb a "3" && in_range 0 1 b then [(30 + digit_val b, r')] else [])
          ++ (if in_range 1 2 a && is_digit b
              then [(10 * digit_val a + digit_val b, r')] else [])
          ++ (if Ascii.eqb a "0" && in_range 1 9 b then [(digit_val b, r')] else [])
      | EmptyString => []
      end
      ++ (if in_range 1 9 a then [(digit_val a, r)] else [])
      ++ match r with
         | String b r' =>
             if Ascii.eqb a " " && in_range 1 9 b then [(digit_val b, r')] else []
         | EmptyString => []
         end
  end.

Definition year_alts (s : string) : list (Z * string) :=
  match take_digits 4 0 s with
  | Some p => [p]
  | None => []
  end.

Definition after_slash {A : Type} (p : A * string) : list (A * string) :=
  match expect "/" (snd p) with
  | Some r => [(fst p, r)]
  | None => []
  end.

(** Every way the whole format matches at the head of [s]: month, day,
    year and the text left over. *)
Definition mdY_matches (s : string) : list (Z * Z * Z * string) :=
  flat_map (fun mr : Z * string =>
    flat_map (fun dr : Z * string =>
      flat_map (fun yr : Z * string => [(fst mr, fst dr, fst yr, snd yr)])
               (flat_map year_alts (map snd (after_slash dr))))
      (flat_map day_alts (map snd (after_slash mr))))
    (month_alts s).

Definition strptime_mdY (s : string) : result datetime :=
  match mdY_matches s with
  | [] => raise ValueError
  | (m, d, y, rest) :: _ =>
      match rest with
      | String _ _ => raise ValueError
      | EmptyString =>
          if valid_date y m d
          then ok (naive (mkcivil y m d 0 0 0 0))
          else raise ValueError
      end
  end.

(** *** [datetime.fromisoformat]

    The grammar of Python 3.7 to 3.10, the interpreters for which the code
    rewrites a trailing [Z]:
    [YYYY-MM-DD[*HH[:MM[:SS[.fff[fff]]]][+HH:MM[:SS[.ffffff]]]]], every
    number written with ASCII digits, the separator [*] being any one
    character, and a date followed by the separator alone being refused.
    From Python 3.11 on the method reads more texts (a trailing [Z], the
    format without separators, a fraction of any length). On what
    [isoformat] writes, and on such a text with [+00:00] after it, all of
    them read the same; the statements that go through this definition
    are about those texts, or take "a text that [fromisoformat] reads" as
    their condition. *)
Definition obind {A B : Type} (o : option A) (k : A -> option B) : option B :=
  match o with
  | Some a => k a
  | None => None
  end.

(** The fraction after the seconds: nothing, or a dot and 3 or 6 digits. *)
Definition parse_fraction (s : string) : option Z :=
  match s with
  | EmptyString => Some 0
  | String c r =>
      if Ascii.eqb c "." then
        match String.length r with
        | 3%nat => obind (take_digits 3 0 r) (fun p => Some (fst p * 1000))
        | 6%nat => obind (take_digits 6 0 r) (fun p => Some (fst p))
        | _ => None
        end
      else None
  end.

(** [HH[:MM[:SS[.fff[fff]]]]] *)
Definition parse_hh_mm_ss_ff (s : string) : option (Z * Z * Z * Z) :=
  obind (take_digits 2 0 s) (fun '(h, r1) =>
    match r1 with
    | EmptyString => Some (h, 0, 0, 0)
    | String c1 r1' =>
        if Ascii.eqb c1 ":" then
          obind (take_digits 2 0 r1') (fun '(mi, r2) =>
            match r2 with
            | EmptyString => Some (h, mi, 0, 0)
            | String c2 r2' =>
                if Ascii.eqb c2 ":" then
                  obind (take_digits 2 0 r2') (fun '(sec, r3) =>
                    obind (parse_fraction r3) (fun us => Some (h, mi, sec, us)))
                else None
            end)
        else None
    end).

(** The text before the first [c] and the text after it. *)
Fixpoint split_at (c : ascii) (s : string) : option (string * string) :=
  match s with
  | EmptyString => None
  | String a s' =>
      if Ascii.eqb a c then Some (EmptyString, s')
      else obind (split_at c s') (fun '(l, r) => Some (String a l, r))
  end.

(** The time text and, where there is one, the sign and text of the
    offset: the split is at the first [-], else at the first [+]. *)
Definition split_offset (t : string) : string * option (Z * string) :=
  match split_at "-" t with
  | Some (l, r) => (l, Some (-1, r))
  | None =>
      match split_at "+" t with
      | Some (l, r) => (l, Some (1, r))
      | None => (t, None)
      end
  end.

Definition DAY_MICROS : Z := 86400000000.

(** The offset in microseconds; it has 5, 8 or 15 characters and lies
    strictly within a day. *)
Definition parse_offset (sign : Z) (s : string) : option Z :=
  match String.length s with
  | 5%nat | 8%nat | 15%nat =>
      obind (parse_hh_mm_ss_ff s) (fun '(h, mi, sec, us) =>
        let off := sign * (((h * 3600 + mi * 60 + sec) * 1000000) + us) in
        if (- DAY_MICROS <? off) && (off <? DAY_MICROS) then Some off else None)
  | _ => None
  end.

Definition parse_isoformat_time (t : string) : option (Z * Z * Z * Z * option Z) :=
  if (String.length t <? 2)%nat then None
  else
    let '(timestr, tz) := split_offset t in
    obind (parse_hh_mm_ss_ff timestr) (fun '(h, mi, sec, us) =>
      match tz with
      | None => Some (h, mi, sec, us, None)
      | Some (sign, tzstr) =>
          obind (parse_offset sign tzstr) (fun off => Some (h, mi, sec, us, Some off))
      end).

Definition parse_isoformat (s : string) : option datetime :=
  obind (take_digits 4 0 s) (fun '(y, r1) =>
  obind (expect "-" r1) (fun r2 =>
  obind (take_digits 2 0 r2) (fun '(m, r3) =>
  obind (expect "-" r3) (fun r4 =>
  obind (take_digits 2 0 r4) (fun '(d, r5) =>
  obind (match r5 with
         | EmptyString => Some (0, 0, 0, 0, None)
         | String _ _ => parse_isoformat_time (after_char r5)
         end) (fun '(h, mi, sec, us, off) =>
    if valid_date y m d && valid_time h mi sec us
    then Some (mkdt (mkcivil y m d h mi sec us) off)
    else None)))))).

Definition fromisoformat (s : string) : result datetime :=
  match parse_isoformat s with
  | Some d => ok d
  | None => raise ValueError
  end.

End Datetime.

(** ** The parse tree BeautifulSoup hands to the scraper *)
Module Soup.

(** A string of the page text, a string that is not page text (a comment,
    a declaration, or what the parser sets apart as script or style sheet),
    or a tag with its attributes and children. The [class] attribute is
    held as written in the markup. *)
Inductive node : Type :=
| Text (s : string)
| Special (s : string)
| Tag (name : string) (attrs : list (string * string)) (children : list node).

(** The nodes below [n], in document order. *)
Fixpoint descendants (n : node) : list node :=
  match n with
  | Text _ | Special _ => []
  | Tag _ _ cs => flat_map (fun c => c :: descendants c) cs
  end.

Fixpoint assoc (k : string) (l : list (string * string)) : option string :=
  match l with
  | [] => None
  | (k', v) :: l' => if String.eqb k k' then Some v else assoc k l'
  end.

(** [element.get(k)] *)
Definition attr (k : string) (n : node) : option string :=
  match n with
  | Text _ | Special _ => None
  | Tag _ attrs _ => assoc k attrs
  end.

(** [element[k]] *)
Definition getattr (n : node) (k : string) : Py.result string :=
  match attr k n with
  | Some v => Py.ok v
  | None => Py.raise Py.KeyError
  end.

(** The string a node is, of either kind. *)
Definition string_of (n : node) : option string :=
  match n with
  | Text s | Special s => Some s
  | Tag _ _ _ => None
  end.

Definition text_matching (p : string -> bool) (n : node) : option string :=
  match string_of n with
  | Some s => if p s then Some s else None
  | None => None
  end.

Fixpoint first_some {A B : Type} (f : A -> option B) (l : list A) : option B :=
  match l with
  | [] => None
  | x :: l' =>
      match f x with
      | Some y => Some y
      | None => first_some f l'
      end
  end.

(** [element.find(text=pattern)]: the first string below the element,
    of either kind, that the pattern matches. *)
Definition find_text (p : string -> bool) (n : node) : option string :=
  first_some (text_matching p) (descendants n).


(** A tag named one of [names] whose attribute [k] is present and matches. *)
Definition tag_matches (names : list string) (k : string) (p : string -> bool)
           (n : node) : bool :=
  match n with
  | Text _ | Special _ => false
  | Tag nm _ _ =>
      existsb (String.eqb nm) names
      && match attr k n with
         | Some v => p v
         | None => false
         end
  end.

(** [element.find_all(names, k=pattern)] *)
Definition find_all (names : list string) (k : string) (p : string -> bool)
           (n : node) : list node :=
  filter (tag_matches names k p) (descendants n).

(** [element.find(name, k=pattern)] *)
Definition find (names : list string) (k : string) (p : string -> bool)
           (n : node) : option node :=
  List.find (tag_matches names k p) (descendants n).

Fixpoint all_text (n : node) : string :=
  match n with
  | Text s => s
  | Special _ => EmptyString
  | Tag _ _ cs => fold_right (fun c acc => all_text c ++ acc) EmptyString cs
  end.

(** [element.get_text()]: the page text below the element. *)
Definition get_text (n : node) : string := all_text n.

End Soup.

(** ** What [json.loads] returns *)
Module Json.

Inductive json : Type :=
| JNull
| JBool (b : bool)
| JNum (lexeme : string)
| JStr (s : string)
| JArr (items : list json)
| JObj (members : list (string * json)).

End Json.

(** ** The host: clock, network, completion endpoint and library functions

    Each interaction with the outside consumes one tick; the host says
    what the interaction at that tick observes. Log lines are not modelled:
    nothing in the program reads them back. *)
Module Host.
Import Py.

Record response : Type := mkresponse {
  status_code : Z;
  content : string
}.

(** The arguments of [client.chat.completions.create]. *)
Record request : Type := mkrequest {
  model : string;
  user_content : string;
  max_tokens : Z;
  temperature : string
}.

Record host : Type := mkhost {
  (** [datetime.now()] read at a tick *)
  clock : nat -> Datetime.civil;
  (** [session.get(url, timeout=30)]: a response, or the transport error *)
  http_get : nat -> string -> result response;
  (** the completion call: the [message.content] of each choice, or the error *)
  chat : nat -> request -> result (list (option string));
  (** [BeautifulSoup(content, 'html.parser')]: the tree, or the parser's error *)
  soup_of : string -> result Soup.node;
  (** [str(element)] *)
  markup : Soup.node -> string;
  (** [json.loads]; [None] when the text is not valid JSON *)
  json_loads : string -> option Json.json
}.

(** A computation that interacts with the host: from the tick it starts at
    to its outcome and the tick it ends at. *)
Definition M (A : Type) : Type := nat -> result A * nat.

Definition ret {A : Type} (a : A) : M A := fun t => (ok a, t).

Definition bind {A B : Type} (m : M A) (k : A -> M B) : M B :=
  fun t =>
    match m t with
    | (inl e, t') => (inl e, t')
    | (inr a, t') => k a t'
    end.

Definition lift {A : Type} (r : result A) : M A := fun t => (r, t).

(** [try: m  except Exception: h] *)
Definition try_except {A : Type} (m : M A) (h : exn -> M A) : M A :=
  fun t =>
    match m t with
    | (inl e, t') => h e t'
    | (inr a, t') => (ok a, t')
    end.

Definition now (H : host) : M Datetime.datetime :=
  fun t => (ok (Datetime.naive (clock H t)), S t).

Definition session_get (H : host) (url : string) : M response :=
  fun t => (http_get H t url, S t).

Definition completions_create (H : host) (r : request) : M (list (option string)) :=
  fun t => (chat H t r, S t).

(** [response.raise_for_status()] *)
Definition raise_for_status (r : response) : result unit :=
  if (400 <=? status_code r) && (status_code r <? 600)
  then raise HTTPError else ok tt.

End Host.

Declare Scope host_scope.
Delimit Scope host_scope with host.
Notation "x <- m ;; k" := (Host.bind m (fun x => k))
  (at level 61, m at next level, right associativity) : host_scope.
Notation "' p <- m ;; k" := (Host.bind m (fun p => k))
  (at level 61, p pattern, m at next level, right associativity) : host_scope.

(** ** [kern_scraper.py] *)
Module KernCountyScraper.
Import Py PyStr Datetime Soup Host.
Local Open Scope host_scope.

Record source_config : Type := mkconfig {
  base_url : string;
  meetings_path : string;
  name : string
}.

(** [self.sources], in the order the dictionary is written. *)
Definition sources : list (string * source_config) :=
  [ ("county_supervisors",
     mkconfig "https://kernco.granicus.com" "/ViewPublished.php?view_id=2"
              "Kern County Board of Supervisors");
    ("bakersfield_council",
     mkconfig "https://bakersfield.legistar.com" "/Calendar.aspx"
              "Bakersfield City Council");
    ("planning_commission",
     mkconfig "https://kernco.granicus.com" "/ViewPublished.php?view_id=3"
              "Kern County Planning Commission") ].

(** [week_start <= meeting_date <= week_end]: the second comparison is
    made only when the first holds. *)
Definition in_week (week_start meeting_date week_end : datetime) : result bool :=
  rbind (dt_le week_start meeting_date) (fun b =>
    if b then dt_le meeting_date week_end else ok false).

(** The body of the [try] of [_parse_granicus_meeting]. *)
Definition parse_granicus_body (H : host) (element : node) (config : source_config)
           (week_start week_end : datetime) : result (option dict) :=
  match find_text Re.date_pattern_search element with
  | None => ok None
  | Some date_text =>
      rbind (strptime_mdY (strip date_text)) (fun meeting_date =>
      rbind (in_week week_start meeting_date week_end) (fun inside =>
        if negb inside then ok None
        else
          let agenda_link := find ["a"] "href" (Re.search_ci ["agenda"; "pdf"]) element in
          rbind (match agenda_link with
                 | Some l => rbind (getattr l "href") (fun h => ok (VStr h))
                 | None => ok VNone
                 end) (fun agenda_url =>
          ok (Some [ ("agency", VStr (name config));
                     ("date", VStr (isoformat meeting_date));
                     ("type", VStr "Regular Meeting");
                     ("agenda_url", agenda_url);
                     ("raw_content", VStr (markup H element));
                     ("source", VStr "granicus") ]))))
  end.

Definition _parse_granicus_meeting (H : host) (element : node) (config : source_config)
           (week_start week_end : datetime) : M (option dict) :=
  try_except (lift (parse_granicus_body H element config week_start week_end))
             (fun _ => ret None).

Definition _parse_legistar_meeting (H : host) (element : node) (config : source_config)
           (week_start week_end : datetime) : M (option dict) :=
  try_except
    (meeting_url <- lift (getattr element "href") ;;
     let meeting_title := strip (get_text element) in
     today <- now H ;;
     ret (Some [ ("agency", VStr (name config));
                 ("date", VStr (isoformat today));
                 ("type", VStr "Regular Meeting");
                 ("agenda_url", VStr (base_url config ++ meeting_url));
                 ("title", VStr meeting_title);
                 ("source", VStr "legistar") ]))
    (fun _ => ret None).

(** [session.get], [raise_for_status] and the parse of the page: the part
    of the [try] that runs before the loop. *)
Definition fetch_soup (H : host) (config : source_config) : M node :=
  let url := base_url config ++ meetings_path config in
  response <- session_get H url ;;
  _ <- lift (raise_for_status response) ;;
  lift (soup_of H (content response)).

(** The loop [for row in rows: m = parse(row); if m: meetings.append(m)]
    inside its [try]: an exception leaves the loop and [meetings] stays as
    it was built so far. *)
Fixpoint collect (parse : node -> M (option dict)) (rows : list node)
         (meetings : list dict) : M (list dict) :=
  match rows with
  | [] => ret meetings
  | row :: rest =>
      fun t =>
        match parse row t with
        | (inl _, t') => (ok meetings, t')
        | (inr m, t') =>
            collect parse rest
                    (if truthy_dict m
                     then meetings ++ match m with Some d => [d] | None => [] end
                     else meetings) t'
        end
  end.

Definition _scrape_granicus (H : host) (config : source_config)
           (week_start week_end : datetime) : M (list dict) :=
  fun t =>
    match fetch_soup H config t with
    | (inl _, t') => (ok [], t')
    | (inr soup, t') =>
        collect (fun row => _parse_granicus_meeting H row config week_start week_end)
                (find_all ["tr"; "div"] "class" (Re.search_ci ["meeting"; "agenda"]) soup)
                [] t'
    end.

Definition _scrape_legistar (H : host) (config : source_config)
           (week_start week_end : datetime) : M (list dict) :=
  fun t =>
    match fetch_soup H config t with
    | (inl _, t') => (ok [], t')
    | (inr soup, t') =>
        collect (fun link => _parse_legistar_meeting H link config week_start week_end)
                (find_all ["a"] "href" (Re.search_ci ["MeetingDetail"]) soup)
                [] t'
    end.

Definition _scrape_source (H : host) (source_key : string) (config : source_config)
           (week_start week_end : datetime) : M (list dict) :=
  if contains "granicus" (base_url config)
  then _scrape_granicus H config week_start week_end
  else if contains "legistar" (base_url config)
  then _scrape_legistar H config week_start week_end
  else ret [].

(** The loop of [scrape_weekly_meetings] over the sources still to visit. *)
Fixpoint scrape_each (H : host) (srcs : list (string * source_config))
         (week_start week_end : datetime) (all_meetings : list dict) : M (list dict) :=
  match srcs with
  | [] => ret all_meetings
  | (source_key, config) :: rest =>
      fun t =>
        match _scrape_source H source_key config week_start week_end t with
        | (inl _, t') => scrape_each H rest week_start week_end all_meetings t'
        | (inr meetings, t') =>
            scrape_each H rest week_start week_end (all_meetings ++ meetings) t'
        end
  end.

(** What each source in turn adds to [all_meetings], from the tick at which
    the loop reaches it. *)
Fixpoint source_yields (H : host) (srcs : list (string * source_config))
         (week_start week_end : datetime) (t : nat) : list (list dict) :=
  match srcs with
  | [] => []
  | (source_key, config) :: rest =>
      match _scrape_source H source_key config week_start week_end t with
      | (inl _, t') => [] :: source_yields H rest week_start week_end t'
      | (inr meetings, t') => meetings :: source_yields H rest week_start week_end t'
      end
  end.

(** [scrape_weekly_meetings], over the sources [self.sources] holds. *)
Definition scrape_weekly_meetings (H : host) (srcs : list (string * source_config))
           (week_start week_end : datetime) : M (list dict) :=
  scrape_each H srcs week_start week_end [].

End KernCountyScraper.

(** ** [ai_processor.py] *)
Module AIProcessor.
Import Py PyStr Datetime Host Json.
Local Open Scope host_scope.

Record bundle : Type := mkbundle {
  upcoming_meetings : list dict;
  recent_minutes : list dict;
  themes : json;
  total_meetings : Z
}.

(** [meeting['date'].replace('Z', '+00:00')]: only a string has [replace]. *)
Definition date_text (meeting : dict) : result string :=
  rbind (getitem meeting "date") (fun date =>
    match date with
    | VStr s => ok (replace_char "Z" "+00:00" s)
    | _ => raise AttributeError
    end).

Definition _is_upcoming (H : host) (meeting : dict) : M bool :=
  try_except
    (text <- lift (date_text meeting) ;;
     meeting_date <- lift (fromisoformat text) ;;
     today <- now H ;;
     lift (dt_gt meeting_date today))
    (fun _ => ret false).

(** [[m for m in l if p(m)]] *)
Fixpoint comprehension (p : dict -> M bool) (l : list dict) : M (list dict) :=
  match l with
  | [] => ret []
  | m :: l' =>
      keep <- p m ;;
      rest <- comprehension p l' ;;
      ret (if keep then m :: rest else rest)
  end.

Definition agenda_prompt (meeting : dict) : result string :=
  rbind (getitem meeting "agency") (fun agency =>
  rbind (getitem meeting "date") (fun date =>
  ok ("
        Summarize this government meeting agenda in a conversational, podcast-friendly way:
        
        Agency: "
      ++ str_of agency ++ "
        Date: "
      ++ str_of date ++ "
        Raw content: "
      ++ str_of (get meeting "raw_content" (VStr "No content available")) ++ "
        
        Focus on:
        - What decisions will be made
        - How they affect local residents
        - Why people should care
        - Keep it under 100 words
        - Use everyday language
        "))).

Definition minutes_prompt (meeting : dict) : result string :=
  rbind (getitem meeting "agency") (fun agency =>
  rbind (getitem meeting "date") (fun date =>
  ok ("
        Summarize what happened in this government meeting in a podcast-friendly way:
        
        Agency: "
      ++ str_of agency ++ "
        Date: "
      ++ str_of date ++ "
        Content: "
      ++ str_of (get meeting "raw_content" (VStr "No content available")) ++ "
        
        Focus on:
        - What decisions were made
        - Key votes and outcomes
        - Impact on residents
        - Keep it under 100 words
        - Use past tense
        "))).

(** [response.choices[0].message.content.strip()] *)
Definition first_content (choices : list (option string)) : result string :=
  match choices with
  | [] => raise IndexError
  | None :: _ => raise AttributeError
  | Some c :: _ => ok (strip c)
  end.

Definition AGENDA_FALLBACK : string :=
  "Summary unavailable - please check the agenda directly.".

Definition MINUTES_FALLBACK : string := "Summary unavailable.".

Definition _summarize_agenda (H : host) (meeting : dict) : M string :=
  prompt <- lift (agenda_prompt meeting) ;;
  try_except
    (choices <- completions_create H (mkrequest "gpt-4o-mini" prompt 200 "0.7") ;;
     lift (first_content choices))
    (fun _ => ret AGENDA_FALLBACK).

Definition _summarize_minutes (H : host) (meeting : dict) : M string :=
  prompt <- lift (minutes_prompt meeting) ;;
  try_except
    (choices <- completions_create H (mkrequest "gpt-4o-mini" prompt 200 "0.7") ;;
     lift (first_content choices))
    (fun _ => ret MINUTES_FALLBACK).

(** The body of the [try] in the loop of [_process_upcoming_meetings]. *)
Definition upcoming_entry (H : host) (meeting : dict) : M dict :=
  summary <- _summarize_agenda H meeting ;;
  agency <- lift (getitem meeting "agency") ;;
  date <- lift (getitem meeting "date") ;;
  ret [ ("agency", agency);
        ("date", date);
        ("type", get meeting "type" (VStr "Regular Meeting"));
        ("summary", VStr summary);
        ("agenda_url", get meeting "agenda_url" VNone) ].

Definition recent_entry (H : host) (meeting : dict) : M dict :=
  summary <- _summarize_minutes H meeting ;;
  agency <- lift (getitem meeting "agency") ;;
  date <- lift (getitem meeting "date") ;;
  ret [ ("agency", agency);
        ("date", date);
        ("type", get meeting "type" (VStr "Regular Meeting"));
        ("summary", VStr summary) ].

(** [for meeting in meetings: try: processed.append(entry(meeting))
    except Exception: log]: a meeting whose entry raises adds nothing. *)
Fixpoint process_each (entry : dict -> M dict) (meetings : list dict)
         (processed : list dict) : M (list dict) :=
  match meetings with
  | [] => ret processed
  | meeting :: rest =>
      fun t =>
        match entry meeting t with
        | (inl _, t') => process_each entry rest processed t'
        | (inr d, t') => process_each entry rest (processed ++ [d]) t'
        end
  end.

Definition _process_upcoming_meetings (H : host) (meetings : list dict) : M (list dict) :=
  process_each (upcoming_entry H) meetings [].

Definition _process_recent_meetings (H : host) (meetings : list dict) : M (list dict) :=
  process_each (recent_entry H) meetings [].

Definition NL : string := String "010"%char EmptyString.

(** [sep.join(l)] *)
Fixpoint join (sep : string) (l : list string) : string :=
  match l with
  | [] => EmptyString
  | [s] => s
  | s :: l' => s ++ sep ++ join sep l'
  end.

(** [[f"{m['agency']}: {m.get('raw_content', '')}" for m in meetings_data]] *)
Fixpoint content_lines (meetings_data : list dict) : result (list string) :=
  match meetings_data with
  | [] => ok []
  | m :: rest =>
      rbind (getitem m "agency") (fun agency =>
      rbind (content_lines rest) (fun lines =>
        ok ((str_of agency ++ ": " ++ str_of (get m "raw_content" (VStr EmptyString)))
            :: lines)))
  end.

Definition themes_prompt (meetings_data : list dict) : result string :=
  rbind (content_lines meetings_data) (fun lines =>
    ok ("
        Analyze these government meetings and identify 2-3 major themes that connect across multiple agencies:
        
        "
        ++ join (NL ++ NL) lines ++ "
        
        For each theme, provide:
        - Theme name
        - Brief description
        - Which meetings/agencies are involved
        - Why it matters to residents
        
        Format as JSON array.
        ")).

(** The theme list built when the reply is not JSON. *)
Definition fallback_themes (content : string) : json :=
  JArr [ JObj [ ("theme", JStr "Multi-Agency Coordination");
                ("description", JStr content) ] ].

Definition _find_common_themes (H : host) (meetings_data : list dict) : M json :=
  prompt <- lift (themes_prompt meetings_data) ;;
  try_except
    (choices <- completions_create H (mkrequest "gpt-4o-mini" prompt 500 "0.7") ;;
     content <- lift (first_content choices) ;;
     ret match json_loads H content with
         | Some parsed => parsed
         | None => fallback_themes content
         end)
    (fun _ => ret (JArr [])).

Definition process_meetings (H : host) (meetings_data : list dict) : M bundle :=
  upcoming <- comprehension (_is_upcoming H) meetings_data ;;
  recent <- comprehension (fun m => b <- _is_upcoming H m ;; ret (negb b)) meetings_data ;;
  processed_upcoming <- _process_upcoming_meetings H upcoming ;;
  processed_recent <- _process_recent_meetings H recent ;;
  found <- _find_common_themes H meetings_data ;;
  ret (mkbundle processed_upcoming processed_recent found
                (Z.of_nat (List.length meetings_data))).

End AIProcessor.

(** ** [main.py]: the week of the run *)
Module Main.
Import Py Datetime Host.
Local Open Scope host_scope.

(** [today = datetime.now()], [week_start = today - timedelta(days=today.weekday())],
    [week_end = week_start + timedelta(days=6)]. *)
Definition week_window (H : host) : M (datetime * datetime) :=
  today <- now H ;;
  week_start <- lift (add_days today (- weekday today)) ;;
  week_end <- lift (add_days week_start 6) ;;
  ret (week_start, week_end).

(** The run up to the scrape: the window, then the sources. *)
Definition main_scrape (H : host) : M (list dict) :=
  ' (week_start, week_end) <- week_window H ;;
  KernCountyScraper.scrape_weekly_meetings H KernCountyScraper.sources week_start week_end.

End Main.

(** ** A JSON decoder, to run the program on concrete replies

    The theorems hold for every [json_loads] the host may carry; the
    examples run with this decoder of the JSON grammar (numbers are kept as
    written; a [\u] escape stands for the UTF-8 bytes of its code point). *)
Module JsonDecode.
Import PyStr Json.

Definition QUOTE : ascii := "034"%char.
Definition BACKSLASH : ascii := "092"%char.

Definition is_json_space (c : ascii) : bool :=
  (code c =? 32) || (code c =? 9) || (code c =? 10) || (code c =? 13).

Fixpoint skip_ws (s : string) : string :=
  match s with
  | EmptyString => EmptyString
  | String c s' => if is_json_space c then skip_ws s' else s
  end.

Fixpoint take_while (p : ascii -> bool) (s : string) : string * string :=
  match s with
  | EmptyString => (EmptyString, EmptyString)
  | String c s' =>
      if p c then let '(l, r) := take_while p s' in (String c l, r)
      else (EmptyString, s)
  end.

Definition hex_val (c : ascii) : option Z :=
  if is_digit c then Some (code c - 48)
  else if (97 <=? code c) && (code c <=? 102) then Some (code c - 87)
  else if (65 <=? code c) && (code c <=? 70) then Some (code c - 55)
  else None.

Fixpoint take_hex (n : nat) (acc : Z) (s : string) : option (Z * string) :=
  match n with
  | O => Some (acc, s)
  | S n' =>
      match s with
      | String c s' =>
          match hex_val c with
          | Some v => take_hex n' (16 * acc + v) s'
          | None => None
          end
      | EmptyString => None
      end
  end.

Definition byte (z : Z) : string := String (ascii_of_nat (Z.to_nat z)) EmptyString.

(** The UTF-8 bytes of the code point [n]; a surrogate that stands alone
    is written like the code points around its range. *)
Definition utf8 (n : Z) : string :=
  if n <? 128 then byte n
  else if n <? 2048 then byte (192 + n / 64) ++ byte (128 + n mod 64)
  else if n <? 65536
  then byte (224 + n / 4096) ++ byte (128 + (n / 64) mod 64) ++ byte (128 + n mod 64)
  else byte (240 + n / 262144) ++ byte (128 + (n / 4096) mod 64)
       ++ byte (128 + (n / 64) mod 64) ++ byte (128 + n mod 64).

(** The code point after [\u]: four hexadecimal digits, or the two halves
    of a surrogate pair. *)
Definition code_point (r : string) : option (Z * string) :=
  match take_hex 4 0 r with
  | Some (v, r') =>
      if (55296 <=? v) && (v <? 56320) then
        match r' with
        | String c1 (String c2 r2) =>
            if Ascii.eqb c1 BACKSLASH && Ascii.eqb c2 "u" then
              match take_hex 4 0 r2 with
              | Some (w, r3) =>
                  if (56320 <=? w) && (w <? 57344)
                  then Some (65536 + (v - 55296) * 1024 + (w - 56320), r3)
                  else Some (v, r')
              | None => Some (v, r')
              end
            else Some (v, r')
        | _ => Some (v, r')
        end
      else Some (v, r')
  | None => None
  end.

(** The text an escape stands for, and the text after the escape. *)
Definition unescape (s : string) : option (string * string) :=
  match s with
  | EmptyString => None
  | String c r =>
      if Ascii.eqb c QUOTE then Some (String QUOTE EmptyString, r)
      else if Ascii.eqb c BACKSLASH then Some (String BACKSLASH EmptyString, r)
      else if Ascii.eqb c "/" then Some ("/", r)
      else if Ascii.eqb c "b" then Some (byte 8, r)
      else if Ascii.eqb c "f" then Some (byte 12, r)
      else if Ascii.eqb c "n" then Some (byte 10, r)
      else if Ascii.eqb c "r" then Some (byte 13, r)
      else if Ascii.eqb c "t" then Some (byte 9, r)
      else if Ascii.eqb c "u" then
        match code_point r with
        | Some (n, r') => Some (utf8 n, r')
        | None => None
        end
      else None
  end.

(** The text of a string literal after its opening quote, and what follows
    the closing quote. *)
Fixpoint string_body (fuel : nat) (s : string) : option (string * string) :=
  match fuel with
  | O => None
  | S f =>
      match s with
      | EmptyString => None
      | String c r =>
          if Ascii.eqb c QUOTE then Some (EmptyString, r)
          else if Ascii.eqb c BACKSLASH then
            match unescape r with
            | Some (d, r') =>
                match string_body f r' with
                | Some (body, rest) => Some (d ++ body, rest)
                | None => None
                end
            | None => None
            end
          else if code c <? 32 then None
          else
            match string_body f r with
            | Some (body, rest) => Some (String c body, rest)
            | None => None
            end
      end
  end.

Definition nonempty (s : string) : bool :=
  match s with
  | EmptyString => false
  | String _ _ => true
  end.

(** A number literal: sign, integer part without a leading zero, fraction,
    exponent; kept as written. *)
Definition number (s : string) : option (string * string) :=
  let '(sign, s1) :=
    match s with
    | String "-" r => ("-", r)
    | _ => (EmptyString, s)
    end in
  let '(int, s2) := take_while is_digit s1 in
  if negb (nonempty int) then None
  else if starts_with "0" int && (1 <? length int)%nat then None
  else
    let frac :=
      match s2 with
      | String "." r =>
          let '(ds, r') := take_while is_digit r in
          if nonempty ds then Some ("." ++ ds, r') else None
      | _ => Some (EmptyString, s2)
      end in
    match frac with
    | None => None
    | Some (fr, s3) =>
        let expo :=
          match s3 with
          | String e r =>
              if Ascii.eqb e "e" || Ascii.eqb e "E" then
                let '(sg, r1) :=
                  match r with
                  | String "+" r' => ("+", r')
                  | String "-" r' => ("-", r')
                  | _ => (EmptyString, r)
                  end in
                let '(ds, r2) := take_while is_digit r1 in
                if nonempty ds
                then Some (String e EmptyString ++ sg ++ ds, r2) else None
              else Some (EmptyString, s3)
          | EmptyString => Some (EmptyString, s3)
          end in
        match expo with
        | None => None
        | Some (ex, s4) => Some (sign ++ int ++ fr ++ ex, s4)
        end
    end.

Definition keyword (k : string) (v : json) (s : string) : option (json * string) :=
  if starts_with k s then Some (v, substring (length k) (length s - length k) s)
  else None.

Definition first_of {A : Type} (l : list (option A)) : option A :=
  fold_right (fun o acc => match o with Some a => Some a | None => acc end) None l.

Fixpoint parse_value (fuel : nat) (s : string) : option (json * string) :=
  match fuel with
  | O => None
  | S f =>
      match skip_ws s with
      | EmptyString => None
      | String c r =>
          if Ascii.eqb c "[" then
            match skip_ws r with
            | String "]" r' => Some (JArr [], r')
            | _ => parse_items f r []
            end
          else if Ascii.eqb c "{" then
            match skip_ws r with
            | String "}" r' => Some (JObj [], r')
            | _ => parse_members f r []
            end
          else if Ascii.eqb c QUOTE then
            match string_body (S (length r)) r with
            | Some (body, rest) => Some (JStr body, rest)
            | None => None
            end
          else
            first_of [ keyword "null" JNull (String c r);
                       keyword "true" (JBool true) (String c r);
                       keyword "false" (JBool false) (String c r);
                       keyword "NaN" (JNum "NaN") (String c r);
                       keyword "Infinity" (JNum "Infinity") (String c r);
                       keyword "-Infinity" (JNum "-Infinity") (String c r);
                       match number (String c r) with
                       | Some (lexeme, rest) => Some (JNum lexeme, rest)
                       | None => None
                       end ]
      end
  end
with parse_items (fuel : nat) (s : string) (acc : list json) : option (json * string) :=
  match fuel with
  | O => None
  | S f =>
      match parse_value f s with
      | None => None
      | Some (v, r) =>
          match skip_ws r with
          | String "," r' => parse_items f r' (acc ++ [v])
          | String "]" r' => Some (JArr (acc ++ [v]), r')
          | _ => None
          end
      end
  end
with parse_members (fuel : nat) (s : string) (acc : list (string * json))
     : option (json * string) :=
  match fuel with
  | O => None
  | S f =>
      match skip_ws s with
      | String c r =>
          if Ascii.eqb c QUOTE then
            match string_body (S (length r)) r with
            | None => None
            | Some (key, r1) =>
                match skip_ws r1 with
                | String ":" r2 =>
                    match parse_value f r2 with
                    | None => None
                    | Some (v, r3) =>
                        match skip_ws r3 with
                        | String "," r4 => parse_members f r4 (acc ++ [(key, v)])
                        | String "}" r4 => Some (JObj (acc ++ [(key, v)]), r4)
                        | _ => None
                        end
                    end
                | _ => None
                end
            end
          else None
      | EmptyString => None
      end
  end.

Definition loads (s : string) : option json :=
  match parse_value (2 * length s + 2) s with
  | Some (v, rest) =>
      match skip_ws rest with
      | EmptyString => Some v
      | String _ _ => None
      end
  | None => None
  end.

End JsonDecode.

(** ** The classification read off one clock reading *)
Module Classify.
Import Py Datetime AIProcessor.

(** The date of the meeting as [_is_upcoming] parses it: present, a string,
    and accepted by [fromisoformat] once every [Z] is rewritten. *)
Definition parsed_date (meeting : dict) : option datetime :=
  match date_text meeting with
  | inr text =>
      match fromisoformat text with
      | inr d => Some d
      | inl _ => None
      end
  | inl _ => None
  end.

(** What [_is_upcoming] answers when the clock reads [c]. *)
Definition upcoming_at (c : civil) (meeting : dict) : bool :=
  match parsed_date meeting with
  | Some d =>
      match dt_gt d (naive c) with
      | inr b => b
      | inl _ => false
      end
  | None => false
  end.

(** Strictly later, field by field from the year down. *)
Definition later (a b : civil) : Prop := lex (fields a) (fields b) = Gt.

(** Not later: on or before. *)
Definition not_after (a b : civil) : bool :=
  match lex (fields a) (fields b) with
  | Gt => false
  | _ => true
  end.

End Classify.

(** ** Pages, hosts and meetings the examples run on *)
Module Examples.
Import Py PyStr Datetime Soup Host Json KernCountyScraper.

Definition at_midnight (y m d : Z) : datetime := naive (mkcivil y m d 0 0 0 0).

(** Wednesday 12 March 2025, 09:30. *)
Definition wednesday_morning : civil := mkcivil 2025 3 12 9 30 0 0.

Definition attr_text (a : string * string) : string :=
  " " ++ fst a ++ "=" ++ String JsonDecode.QUOTE (snd a ++ String JsonDecode.QUOTE EmptyString).

(** A plain serialisation of a tree, standing for [str(element)]. *)
Fixpoint render (n : node) : string :=
  match n with
  | Text s => s
  | Special s => "<!--" ++ s ++ "-->"
  | Tag nm attrs cs =>
      "<" ++ nm ++ fold_right (fun a acc => attr_text a ++ acc) EmptyString attrs ++ ">"
      ++ fold_right (fun c acc => render c ++ acc) EmptyString cs
      ++ "</" ++ nm ++ ">"
  end.

(** A row of a Granicus listing whose date cell reads [date]. *)
Definition row_dated (date : string) : node :=
  Tag "tr" [("class", "MeetingRow")]
      [ Tag "td" [] [Text date];
        Tag "td" [] [Tag "a" [("href", "/AgendaViewer.php?clip_id=7")] [Text "Agenda"]] ].

Definition supervisors_row : node := row_dated " 3/15/2025 ".


Definition council_link : node :=
  Tag "a" [("href", "/MeetingDetail.aspx?ID=123")] [Text "City Council Regular Meeting"].

Definition supervisors_page : node :=
  Tag "[document]" [] [Tag "table" [] [supervisors_row]].

Definition council_page : node :=
  Tag "[document]" [] [Tag "div" [("id", "calendar")] [council_link]].

Definition empty_page : node := Tag "[document]" [] [].

(** The example pages are served under their names. *)
Definition pages (content : string) : result node :=
  if String.eqb content "supervisors" then ok supervisors_page
  else if String.eqb content "council" then ok council_page
  else ok empty_page.

Definition no_network (t : nat) (url : string) : result response :=
  raise ConnectionError.

(** Both Granicus pages answer; the Legistar site refuses the connection. *)
Definition legistar_down (t : nat) (url : string) : result response :=
  if contains "granicus" url then ok (mkresponse 200 "supervisors")
  else raise ConnectionError.

Definition all_up (t : nat) (url : string) : result response :=
  if contains "granicus" url then ok (mkresponse 200 "supervisors")
  else ok (mkresponse 200 "council").

Definition no_endpoint (t : nat) (r : request) : result (list (option string)) :=
  raise APIError.

Definition replies (body : string) (t : nat) (r : request)
  : result (list (option string)) := ok [Some body].

(** A host whose clock stands at [c]. *)
Definition host_at (c : civil)
           (net : nat -> string -> result response)
           (endpoint : nat -> request -> result (list (option string))) : host :=
  mkhost (fun _ => c) net endpoint pages render JsonDecode.loads.

(** A clock that reads 09:30:00 at its first tick and one second more at
    each later tick. *)
Definition ticking (t : nat) : civil :=
  mkcivil 2025 3 12 9 30 (Z.of_nat t) 0.

Definition ticking_host : host :=
  mkhost ticking no_network no_endpoint pages render JsonDecode.loads.

(** Every page of this host lists one meeting, dated Monday 10 March 2025;
    the run takes place on the Wednesday of that week at 09:30. *)
Definition monday_listing (content : string) : result node :=
  ok (Tag "[document]" [] [Tag "table" [] [row_dated "3/10/2025"]]).

Definition monday_host : host :=
  mkhost (fun _ => wednesday_morning) all_up no_endpoint monday_listing render
         JsonDecode.loads.

(** The same pages, the run taking place on the Wednesday at midnight. *)
Definition monday_host_at_midnight : host :=
  mkhost (fun _ => mkcivil 2025 3 12 0 0 0 0) all_up no_endpoint monday_listing render
         JsonDecode.loads.

Definition meeting_on (date : string) : dict :=
  [ ("agency", VStr "Kern County Board of Supervisors");
    ("date", VStr date);
    ("type", VStr "Regular Meeting");
    ("agenda_url", VNone);
    ("raw_content", VStr "Budget hearing");
    ("source", VStr "granicus") ].

Definition supervisors : source_config :=
  mkconfig "https://kernco.granicus.com" "/ViewPublished.php?view_id=2"
           "Kern County Board of Supervisors".

Definition council : source_config :=
  mkconfig "https://bakersfield.legistar.com" "/Calendar.aspx"
           "Bakersfield City Council".

End Examples.

(** ** Further pages and hosts for the examples *)
Module Fixtures.
Import Py PyStr Datetime Soup Host Json KernCountyScraper.

(** Every request is answered, with the status [status] and the page of
    the supervisors. *)
Definition answering (status : Z) (t : nat) (url : string) : result response :=
  ok (mkresponse status "supervisors").

(** A listing with a row of this week, a row of another week, a row
    without a date and a row whose date is not one. *)
Definition mixed_listing (content : string) : result node :=
  ok (Tag "[document]" []
        [ Tag "table" []
            [ Examples.row_dated "3/15/2025";
              Examples.row_dated "4/2/2025";
              Tag "tr" [("class", "agenda-header")] [Text "Upcoming agendas"];
              Examples.row_dated "13/45/2025" ] ]).

Definition mixed_host : host :=
  mkhost (fun _ => Examples.wednesday_morning) Examples.all_up Examples.no_endpoint
         mixed_listing Examples.render JsonDecode.loads.

End Fixtures.

(** ** The month and day of a day of the year

    The last step of [ord2ymd], on its own: from the number of days since
    the first of January and the leap flag to the month and the day. *)
Module Calendar.
Import Datetime.

Definition month_and_day (leapyear : bool) (n : Z) : Z * Z :=
  let m := Z.shiftr (n + 50) 5 in
  let preceding :=
    nth (Z.to_nat m) DAYS_BEFORE_MONTH 0
    + (if (2 <? m) && leapyear then 1 else 0) in
  if n <? preceding then
    let m' := m - 1 in
    let preceding' :=
      preceding - (nth (Z.to_nat m') DAYS_IN_MONTH 0
                   + (if (m' =? 2) && leapyear then 1 else 0)) in
    (m', n - preceding' + 1)
  else (m, n - preceding + 1).

Definition day_of_year_ok (leapyear : bool) (n : Z) : bool :=
  let '(m, d) := month_and_day leapyear n in
  (1 <=? m) && (m <=? 12) && (1 <=? d)
  && (nth (Z.to_nat m) DAYS_BEFORE_MONTH 0
      + (if (2 <? m) && leapyear then 1 else 0) + d =? n + 1).

Definition days_of_year : list Z := map Z.of_nat (seq 0 365).

End Calendar.

(** ** [strftime], for the directives the program uses *)
Module Strftime.
Import PyStr Py Datetime.

Definition MONTHS : list string :=
  [ "January"; "February"; "March"; "April"; "May"; "June"; "July";
    "August"; "September"; "October"; "November"; "December" ].

(** Indexed by [weekday()]: Monday first. *)
Definition DAYS : list string :=
  [ "Monday"; "Tuesday"; "Wednesday"; "Thursday"; "Friday"; "Saturday"; "Sunday" ].

(** What one directive prints, in the C locale; the year as the C library
    of Linux prints it, without padding (every platform agrees from the
    year 1000 on). *)
Definition directive (c : ascii) (d : datetime) : option string :=
  let w := wall d in
  if Ascii.eqb c "B" then Some (nth (Z.to_nat (month w - 1)) MONTHS EmptyString)
  else if Ascii.eqb c "A" then Some (nth (Z.to_nat (weekday d)) DAYS EmptyString)
  else if Ascii.eqb c "d" then Some (zpad 2 (day w))
  else if Ascii.eqb c "m" then Some (zpad 2 (month w))
  else if Ascii.eqb c "Y" then Some (str_of (VInt (year w)))
  else if Ascii.eqb c "I" then
    Some (zpad 2 (if hour w mod 12 =? 0 then 12 else hour w mod 12))
  else if Ascii.eqb c "M" then Some (zpad 2 (minute w))
  else if Ascii.eqb c "p" then Some (if hour w <? 12 then "AM" else "PM")
  else None.

(** [d.strftime(fmt)] *)
Fixpoint strftime (fmt : string) (d : datetime) : string :=
  match fmt with
  | EmptyString => EmptyString
  | String a rest =>
      match rest with
      | String c rest' =>
          if Ascii.eqb a "%" then
            match directive c d with
            | Some s => s ++ strftime rest' d
            | None => String a (strftime rest d)
            end
          else String a (strftime rest d)
      | EmptyString => String a EmptyString
      end
  end.

End Strftime.

(** ** Computations that also write files

    The state is the tick of the host and the files written so far, oldest
    first. The directories are there (the program creates them before it
    writes) and the disk takes every write: a computation raises only where
    the program's own expressions raise. *)
Module Disk.
Import Py Host.

Record state : Type := mkstate {
  tick : nat;
  files : list (string * string)
}.

Definition IO (A : Type) : Type := state -> result A * state.

Definition ret {A : Type} (a : A) : IO A := fun st => (ok a, st).

Definition bind {A B : Type} (m : IO A) (k : A -> IO B) : IO B :=
  fun st =>
    match m st with
    | (inl e, st') => (inl e, st')
    | (inr a, st') => k a st'
    end.

Definition lift {A : Type} (r : result A) : IO A := fun st => (r, st).

(** A computation of the host, run from the current tick. *)
Definition run {A : Type} (m : M A) : IO A :=
  fun st =>
    match m (tick st) with
    | (r, t') => (r, mkstate t' (files st))
    end.

(** [with open(path, "w") as f: f.write(content)] *)
Definition write_file (path content : string) : IO unit :=
  fun st => (ok tt, mkstate (tick st) (files st ++ [(path, content)])).

End Disk.

Declare Scope io_scope.
Delimit Scope io_scope with io.
Notation "x <- m ;; k" := (Disk.bind m (fun x => k))
  (at level 61, m at next level, right associativity) : io_scope.
Notation "' p <- m ;; k" := (Disk.bind m (fun p => k))
  (at level 61, p pattern, m at next level, right associativity) : io_scope.

(** ** Library functions on decoded JSON that the program's output goes
    through *)
Module PyLib.
Import Py Json.

Record pylib : Type := mkpylib {
  (** [openai.OpenAI(api_key=key)]: the client is built, or the
      constructor raises *)
  new_client : option string -> result unit;
  (** [json.dumps(value, indent=n)] *)
  json_dumps : json -> Z -> string;
  (** [str(value)] for a decoded value that is not text *)
  str_other : json -> string
}.

(** [str(value)], what an f-string puts for a decoded value. *)
Definition str_json (L : pylib) (v : json) : string :=
  match v with
  | JStr s => s
  | _ => str_other L v
  end.

End PyLib.

(** ** [notebooklm_generator.py] *)
Module NotebookLMGenerator.
Import PyStr Py Datetime Host Json Strftime Disk PyLib.
Local Open Scope io_scope.

Definition DQ : string := String "034"%char EmptyString.

(** The dictionary handed to [generate_files], as its [get] calls see it:
    each of the three keys present with its value, or absent. *)
Record processed : Type := mkprocessed {
  get_upcoming_meetings : option (list dict);
  get_recent_minutes : option (list dict);
  get_themes : option json
}.

(** What [process_meetings] returns, handed over as it is. *)
Definition of_bundle (b : AIProcessor.bundle) : processed :=
  mkprocessed (Some (AIProcessor.upcoming_meetings b))
              (Some (AIProcessor.recent_minutes b))
              (Some (AIProcessor.themes b)).

(** [data.get(key, [])] *)
Definition or_empty {A : Type} (o : option (list A)) : list A :=
  match o with
  | Some l => l
  | None => []
  end.

Definition OUTPUT_DIR : string := "../data/notebooklm-files".

(** Truth value of [if x] for a value of a meeting. *)
Definition truthy (v : value) : bool :=
  match v with
  | VNone => false
  | VStr EmptyString => false
  | VStr (String _ _) => true
  | VInt n => negb (n =? 0)
  end.

(** [datetime.fromisoformat(v)]: only text is accepted. *)
Definition fromisoformat_value (v : value) : result datetime :=
  match v with
  | VStr s => fromisoformat s
  | _ => raise TypeError
  end.

Definition upper_char (c : ascii) : ascii :=
  if (97 <=? code c) && (code c <=? 122)
  then ascii_of_nat (nat_of_ascii c - 32) else c.

(** [s.upper()], on the ASCII letters; the other bytes stay. *)
Fixpoint upper (s : string) : string :=
  match s with
  | EmptyString => EmptyString
  | String c s' => String (upper_char c) (upper s')
  end.

(** The text added for one upcoming meeting. *)
Definition upcoming_block (meeting : dict) : result string :=
  rbind (getitem meeting "agency") (fun agency =>
  rbind (getitem meeting "date") (fun date =>
  rbind (fromisoformat_value date) (fun day =>
  rbind (getitem meeting "type") (fun type =>
  rbind (getitem meeting "summary") (fun summary =>
  ok (EmptyString ++ str_of agency ++ " - "
      ++ strftime "%A, %B %d" day ++ "

Meeting Type: "
      ++ str_of type ++ "

What to Expect:
"
      ++ str_of summary ++ "

Why This Matters:
These decisions directly impact Kern County residents through changes to local services, infrastructure, and regulations.

Public Participation:
Residents can attend in person or watch online. Public comment periods are available.
"
      ++ (if truthy (get meeting "agenda_url" VNone)
          then "Agenda: "
               ++ str_of (get meeting "agenda_url" (VStr "Check agency website"))
          else EmptyString)
      ++ "

---

")%string))))).

(** The text added for one recent meeting. *)
Definition recent_block (meeting : dict) : result string :=
  rbind (getitem meeting "agency") (fun agency =>
  rbind (getitem meeting "date") (fun date =>
  rbind (fromisoformat_value date) (fun day =>
  rbind (getitem meeting "summary") (fun summary =>
  ok (EmptyString ++ str_of agency ++ " - "
      ++ strftime "%A, %B %d" day ++ "

Decisions Made:
"
      ++ str_of summary ++ "

Impact on Community:
These decisions will affect residents through changes to local services, development, and governance.

---

")%string)))).

(** [for x in l: content += block(x)]: the text of all blocks, or the
    exception of the first block that raises. *)
Fixpoint blocks {A : Type} (block : A -> result string) (l : list A) : result string :=
  match l with
  | [] => ok EmptyString
  | x :: l' =>
      rbind (block x) (fun b =>
      rbind (blocks block l') (fun rest => ok (b ++ rest)%string))
  end.

Definition _generate_meeting_summaries (H : host) (data : processed) : IO unit :=
  today <- run (now H) ;;
  upcoming <- lift (blocks upcoming_block (or_empty (get_upcoming_meetings data))) ;;
  recent <- lift (blocks recent_block (or_empty (get_recent_minutes data))) ;;
  write_file (OUTPUT_DIR ++ "/meeting-summaries.txt")
             ("KERN COUNTY GOVERNMENT MEETING SUMMARIES
Week of " ++ strftime "%B %d, %Y" today ++ "

This document contains summaries of government meetings in Kern County, prepared for podcast discussion.

UPCOMING MEETINGS - What's Coming This Week:

"
              ++ upcoming ++ "
RECENT DECISIONS - What Just Happened:

" ++ recent).

(** The member a decoded object holds under a key: of several members with
    the same key, the last one. *)
Fixpoint obj_find (key : string) (members : list (string * json)) : option json :=
  match members with
  | [] => None
  | (k, v) :: rest =>
      match obj_find key rest with
      | Some later => Some later
      | None => if String.eqb key k then Some v else None
      end
  end.

(** [d.get(key, default)] on a decoded object *)
Definition obj_get (key : string) (members : list (string * json)) (default : json) : json :=
  match obj_find key members with
  | Some v => v
  | None => default
  end.

(** The keys of a decoded object, each once, in the order of their first
    occurrence. *)
Fixpoint keys (members : list (string * json)) (seen : list string) : list string :=
  match members with
  | [] => []
  | (k, _) :: rest =>
      if existsb (String.eqb k) seen then keys rest seen
      else k :: keys rest (k :: seen)
  end.

Fixpoint chars (s : string) : list json :=
  match s with
  | EmptyString => []
  | String c s' => JStr (String c EmptyString) :: chars s'
  end.

(** [for x in value]: the items of a list, the keys of an object, the
    characters of a text; the other values are not iterable. *)
Definition iterate (v : json) : result (list json) :=
  match v with
  | JArr items => ok items
  | JObj members => ok (map JStr (keys members []))
  | JStr s => ok (chars s)
  | JNull | JBool _ | JNum _ => raise TypeError
  end.

(** The text added for the [i]-th theme. *)
Definition theme_block (L : pylib) (i : Z) (theme : json) : result string :=
  match theme with
  | JObj members =>
      let theme_name :=
        obj_get "theme" members (JStr ("Theme " ++ str_of (VInt i))) in
      let description :=
        obj_get "description" members (JStr "No description available") in
      rbind (match theme_name with
             | JStr s => ok (upper s)
             | _ => raise AttributeError
             end) (fun shouted =>
      ok ("MAJOR THEME #" ++ str_of (VInt i) ++ ": " ++ shouted ++ "

What's Happening:
"
          ++ str_json L description ++ "

Why This Coordination Matters:
When multiple agencies address similar issues simultaneously, it often indicates a coordinated response to regional challenges. Understanding these connections helps residents see the bigger picture of local governance.

Resident Impact:
These coordinated efforts typically result in more comprehensive solutions but may also mean broader changes to services, regulations, or costs.

Discussion Points:
- How do these related decisions affect different parts of the community?
- What are the potential unintended consequences?
- How can residents provide input across multiple agencies?

---

")%string)
  | _ => raise AttributeError
  end.

(** [for i, theme in enumerate(themes, i0): content += block(i, theme)] *)
Fixpoint theme_blocks (L : pylib) (i : Z) (themes : list json) : result string :=
  match themes with
  | [] => ok EmptyString
  | theme :: rest =>
      rbind (theme_block L i theme) (fun b =>
      rbind (theme_blocks L (i + 1) rest) (fun more => ok (b ++ more)%string))
  end.

Definition _generate_themes_connections (L : pylib) (H : host) (data : processed)
  : IO unit :=
  today <- run (now H) ;;
  themes <- lift (match get_themes data with
                  | Some v => iterate v
                  | None => ok []
                  end) ;;
  body <- lift (theme_blocks L 1 themes) ;;
  write_file (OUTPUT_DIR ++ "/themes-connections.txt")
             ("CROSS-MEETING THEMES AND CONNECTIONS
Kern County Government Weekly Analysis

Generated: " ++ strftime "%B %d, %Y" today ++ "

This document identifies themes that span multiple government meetings, showing how different agencies are addressing related challenges.

" ++ body ++ "
CONNECTIONS BETWEEN MEETINGS:

The themes above aren't isolated issues - they represent interconnected challenges that require coordinated solutions. When analyzing local government, it's important to understand how decisions in one meeting may influence or depend on decisions in another.

Key Questions for Discussion:
- Which agencies are working together on shared challenges?
- How do timing and sequencing of decisions matter?
- What are the cumulative effects on residents?
- Where are there opportunities for greater coordination?

Understanding these connections helps residents engage more effectively with local government and see how individual decisions fit into broader community planning.
").

Definition _generate_podcast_guidelines (H : host) (data : processed) : IO unit :=
  let meeting_count :=
    Z.of_nat (List.length (or_empty (get_upcoming_meetings data))
              + List.length (or_empty (get_recent_minutes data))) in
  today <- run (now H) ;;
  write_file (OUTPUT_DIR ++ "/podcast-guidelines.txt")
             ("PODCAST GENERATION GUIDELINES
Kern County Weekly Government Roundup

EPISODE INFORMATION:
Episode Date: " ++ strftime "%B %d, %Y" today ++ "
Meetings Covered: "
              ++ str_of (VInt meeting_count) ++ ("
Target Length: 12-15 minutes

TONE AND STYLE GUIDELINES:
- Maintain a conversational, accessible tone
- Explain government processes in everyday language
- Focus on practical impacts for residents
- Make connections between different meetings and agencies
- Encourage civic engagement without being preachy

DISCUSSION FOCUS AREAS:
1. Connect related agenda items across different agencies
2. Translate government language into clear resident impacts  
3. Explain timing - why these issues are coming up now
4. Highlight opportunities for public participation
5. Put local decisions in regional/state context when relevant

STRUCTURE SUGGESTIONS:
- Open with the week's most significant theme or surprising connection
- Use transitions like " ++ DQ ++ "Speaking of [topic]..." ++ DQ ++ " to connect related items
- Spend 2-3 minutes maximum on any single topic
- End with concrete next steps for engaged citizens
- Include a brief preview of next week if major items are known

RESIDENT ENGAGEMENT REMINDERS:
- Most meetings include public comment periods
- Agendas are posted 72 hours in advance on agency websites
- Many meetings are live-streamed or recorded
- Contact information for officials is available on websites
- Local government decisions often have more direct impact than state/federal

AVOID:
- Reading agenda items verbatim or getting lost in procedural details
- Making partisan political commentary
- Overwhelming listeners with too many numbers, dates, or bureaucratic terms
- Assuming listeners know government processes or local history

DISCUSSION PROMPTS:
- " ++ DQ ++ "What's interesting about this timing is..." ++ DQ ++ "
- " ++ DQ ++ "Here's why this matters to residents..." ++ DQ ++ "
- " ++ DQ ++ "The connection between these two decisions is..." ++ DQ ++ "
- " ++ DQ ++ "If you're wondering how to get involved..." ++ DQ ++ "
- " ++ DQ ++ "Looking ahead, this could mean..." ++ DQ ++ "

TONE EXAMPLES:
✅ Good: " ++ DQ ++ "The county's water restrictions and the city's infrastructure funding aren't separate issues - they're two parts of the same strategy." ++ DQ ++ "

❌ Avoid: " ++ DQ ++ "Agenda item 47 under new business involves Resolution 2024-089 regarding amendments to the professional services agreement..." ++ DQ ++ "

MAKE IT CONVERSATIONAL:
Imagine you're explaining these decisions to a neighbor who cares about the community but doesn't follow government meetings closely. What would they want to know? How would you help them understand why it matters?
")).

Definition generate_files (L : pylib) (H : host) (data : processed) : IO unit :=
  _ <- _generate_meeting_summaries H data ;;
  _ <- _generate_themes_connections L H data ;;
  _generate_podcast_guidelines H data.

End NotebookLMGenerator.

(** ** [main.py]: the whole run *)
Module Pipeline.
Import PyStr Py Datetime Host Json Strftime Disk PyLib NotebookLMGenerator.
Local Open Scope io_scope.

(** The JSON tree of a value, a dictionary and the bundle, as [json.dump]
    walks them. *)
Definition json_of_value (v : value) : json :=
  match v with
  | VNone => JNull
  | VStr s => JStr s
  | VInt n => JNum (str_of (VInt n))
  end.

Definition json_of_dict (d : dict) : json :=
  JObj (map (fun kv => (fst kv, json_of_value (snd kv))) d).

Definition json_of_bundle (b : AIProcessor.bundle) : json :=
  JObj [ ("upcoming_meetings", JArr (map json_of_dict (AIProcessor.upcoming_meetings b)));
         ("recent_minutes", JArr (map json_of_dict (AIProcessor.recent_minutes b)));
         ("themes", AIProcessor.themes b);
         ("total_meetings", JNum (str_of (VInt (AIProcessor.total_meetings b)))) ].

Definition update_website_data (L : pylib) (H : host) (processed_data : AIProcessor.bundle)
           (week_start week_end : datetime) : IO unit :=
  stamp <- run (now H) ;;
  generated <- run (now H) ;;
  write_file "../latest-data.js"
    ("
// Auto-generated on " ++ isoformat stamp ++ "
// Week: "
     ++ strftime "%Y-%m-%d" week_start ++ " to "
     ++ strftime "%Y-%m-%d" week_end ++ ("

window.LATEST_PODCAST_DATA = {
    weekRange: " ++ DQ)
     ++ strftime "%B %d" week_start ++ " - "
     ++ strftime "%B %d, %Y" week_end ++ (DQ ++ ",
    generatedDate: " ++ DQ)
     ++ strftime "%B %d, %Y at %I:%M %p" generated ++ (DQ ++ ",
    upcomingMeetings: ")
     ++ json_dumps L (JArr (map json_of_dict (AIProcessor.upcoming_meetings processed_data))) 4
     ++ ",
    recentMinutes: "
     ++ json_dumps L (JArr (map json_of_dict (AIProcessor.recent_minutes processed_data))) 4
     ++ ",
    commonThemes: "
     ++ json_dumps L (AIProcessor.themes processed_data) 4 ++ (",
    notebookFiles: [
        {
            name: " ++ DQ ++ "meeting-summaries.txt" ++ DQ ++ ",
            description: " ++ DQ ++ "Comprehensive meeting summaries in conversational format" ++ DQ ++ ",
            downloadUrl: " ++ DQ ++ "data/notebooklm-files/meeting-summaries.txt" ++ DQ ++ "
        },
        {
            name: " ++ DQ ++ "themes-connections.txt" ++ DQ ++ ", 
            description: " ++ DQ ++ "Cross-meeting themes and their local impact" ++ DQ ++ ",
            downloadUrl: " ++ DQ ++ "data/notebooklm-files/themes-connections.txt" ++ DQ ++ "
        },
        {
            name: " ++ DQ ++ "podcast-guidelines.txt" ++ DQ ++ ",
            description: " ++ DQ ++ "Instructions for podcast tone and focus areas" ++ DQ ++ ", 
            downloadUrl: " ++ DQ ++ "data/notebooklm-files/podcast-guidelines.txt" ++ DQ ++ "
        }
    ]
};
")).

(** The body of the [try] of [main], with [os.getenv('OPENAI_API_KEY')] as
    its argument; the [except] logs the exception and raises it again, so
    that [main] ends as its body ends. *)
Definition main (L : pylib) (H : host) (api_key : option string) : IO unit :=
  _ <- lift (new_client L api_key) ;;
  ' (week_start, week_end) <- run (Main.week_window H) ;;
  meetings_data <-
    run (KernCountyScraper.scrape_weekly_meetings H KernCountyScraper.sources
           week_start week_end) ;;
  match meetings_data with
  | [] => ret tt
  | _ :: _ =>
      processed_data <- run (AIProcessor.process_meetings H meetings_data) ;;
      _ <- generate_files L H (of_bundle processed_data) ;;
      generated <- run (now H) ;;
      _ <- write_file "../data/latest-meetings.json"
             (json_dumps L
                (JObj [ ("generated_date", JStr (isoformat generated));
                        ("week_range",
                         JStr (strftime "%Y-%m-%d" week_start ++ " to "
                               ++ strftime "%Y-%m-%d" week_end));
                        ("meetings", JArr (map json_of_dict meetings_data));
                        ("processed", json_of_bundle processed_data) ]) 2) ;;
      update_website_data L H processed_data week_start week_end
  end.

End Pipeline.

(** ** What the generator needs of its input, to state when it completes *)
Module Renders.
Import Py Datetime Json Disk PyLib NotebookLMGenerator.

Definition is_ok {A : Type} (r : result A) : bool :=
  match r with
  | inr _ => true
  | inl _ => false
  end.

Definition has_key (k : string) (m : dict) : bool :=
  match lookup k m with
  | Some _ => true
  | None => false
  end.

(** The [date] of the entry is a text that [fromisoformat] reads. *)
Definition date_reads (m : dict) : bool :=
  match lookup "date" m with
  | Some (VStr s) => is_ok (fromisoformat s)
  | _ => false
  end.

Definition upcoming_renders (m : dict) : bool :=
  has_key "agency" m && date_reads m && has_key "type" m && has_key "summary" m.

Definition recent_renders (m : dict) : bool :=
  has_key "agency" m && date_reads m && has_key "summary" m.

(** The theme is an object whose [theme], if it has one, is a text. *)
Definition theme_renders (theme : json) : bool :=
  match theme with
  | JObj members =>
      match obj_find "theme" members with
      | Some (JStr _) | None => true
      | Some _ => false
      end
  | _ => false
  end.

(** The themes can be iterated and every item renders. *)
Definition themes_render (themes : option json) : bool :=
  match themes with
  | None => true
  | Some v =>
      match iterate v with
      | inr items => forallb theme_renders items
      | inl _ => false
      end
  end.

Definition meetings_render (data : processed) : bool :=
  forallb upcoming_renders (or_empty (get_upcoming_meetings data))
  && forallb recent_renders (or_empty (get_recent_minutes data)).

(** The paths of the files written so far, oldest first. *)
Definition written (st : state) : list string := map fst (files st).

Definition SUMMARIES : string := "../data/notebooklm-files/meeting-summaries.txt".
Definition THEMES : string := "../data/notebooklm-files/themes-connections.txt".
Definition GUIDELINES : string := "../data/notebooklm-files/podcast-guidelines.txt".

(** The clock of the host shows a date and a time of day that exist. *)
Definition valid_reading (c : civil) : bool :=
  valid_date (year c) (month c) (day c)
  && valid_time (hour c) (minute c) (second c) (microsecond c).

(** The meeting names its agency and carries, as its date, a timestamp
    that exists, written by [isoformat] without an offset. *)
Definition well_dated (m : dict) : Prop :=
  exists agency c,
    lookup "agency" m = Some (VStr agency)
    /\ lookup "date" m = Some (VStr (isoformat (naive c)))
    /\ valid_reading c = true.

(** Whatever the endpoint answers, an answer that is JSON decodes to
    themes that render. *)
Definition replies_render (H : Host.host) : Prop :=
  forall t r choices content parsed,
    Host.chat H t r = ok choices ->
    AIProcessor.first_content choices = ok content ->
    Host.json_loads H content = Some parsed ->
    themes_render (Some parsed) = true.

(** No listing is within reach: every request ends in a transport error
    or in an answer with an error status. *)
Definition unreachable (H : Host.host) : Prop :=
  forall t url,
    match Host.http_get H t url with
    | inl _ => True
    | inr r => (400 <= Host.status_code r < 600)%Z
    end.

End Renders.

(** ** Library doubles and inputs for the examples of the generator *)
Module Outputs.
Import Py Datetime Json Host Disk PyLib NotebookLMGenerator.

(** The client is built when a key is given; the two printers print a
    fixed mark: no example looks inside the printed JSON. *)
Definition lib : pylib :=
  mkpylib (fun key => match key with Some _ => ok tt | None => raise APIError end)
          (fun _ _ => "[]")
          (fun _ => "?").

Definition fresh : state := mkstate 0 [].

Definition entry (agency date : string) : dict :=
  [ ("agency", VStr agency); ("date", VStr date);
    ("type", VStr "Regular Meeting"); ("summary", VStr "Roads and water.");
    ("agenda_url", VNone) ].







(** The same week, with an endpoint that answers every request with a
    list of one theme. *)
Definition answering_host : host :=
  mkhost (fun _ => Examples.wednesday_morning) Examples.all_up
         (Examples.replies ("[{" ++ DQ ++ "theme" ++ DQ ++ ": " ++ DQ ++ "Water" ++ DQ
                            ++ "}]"))
         Fixtures.mixed_listing Examples.render JsonDecode.loads.

(** The same week, with no listing within reach. *)
Definition offline_host : host :=
  mkhost (fun _ => Examples.wednesday_morning) Examples.no_network
         Examples.no_endpoint Examples.pages Examples.render JsonDecode.loads.

End Outputs.

(** ** Pages and replies with white space around their text *)
Module Spaced.
Import Py PyStr Datetime Soup Host Json KernCountyScraper.

(** U+00A0, the no-break space. *)
Definition NBSP : string := String "194"%char (String "160"%char EmptyString).

Definition LF : string := String "010"%char EmptyString.

(** U+0131, the dotless small i, which a case-insensitive [i] matches. *)
Definition DOTLESS_I : string := String "196"%char (String "177"%char EmptyString).



(** A link laid out over several lines, with a comment inside; its
    [href] is written in small letters. *)
Definition spaced_link : node :=
  Tag "a" [("href", "/meetingdetail.aspx?ID=123")]
      [ Text (LF ++ "   City Council ");
        Special " draft ";
        Tag "b" [] [Text "Regular Meeting"];
        Text (NBSP ++ LF) ].

(** A calendar with that link, a link that is not a meeting and two more
    meetings, one of them under a dotless i. *)
Definition spaced_page : node :=
  Tag "[document]" []
      [ Tag "div" [("id", "calendar")]
            [ spaced_link;
              Tag "a" [("href", "/Calendar.aspx")] [Text "Calendar"];
              Tag "a" [("href", "/Meet" ++ DOTLESS_I ++ "ngDetail.aspx?ID=7")]
                  [Text "Study Session"];
              Examples.council_link ] ].

Definition spaced_host (endpoint : nat -> request -> result (list (option string)))
  : host :=
  mkhost Examples.ticking Examples.all_up endpoint (fun _ => ok spaced_page)
         Examples.render JsonDecode.loads.

(** A reply in words, and a reply that is JSON, each with white space
    around it. *)
Definition worded_reply : string := NBSP ++ " Water, then roads." ++ LF.

Definition list_reply : string := NBSP ++ "[]" ++ LF.

End Spaced.

(** * Properties *)

Import Py PyStr Datetime Soup Host Json KernCountyScraper AIProcessor Classify.
Local Open Scope host_scope.
Local Open Scope nat_scope.
Local Open Scope list_scope.

(** ** Running the host computations *)

Ltac unfold_host :=
  unfold bind, lift, ret, try_except, now, session_get, completions_create,
    ok, raise; simpl.

Lemma is_upcoming_run (H : host) (m : dict) (t : nat) :
  _is_upcoming H m t =
  (ok (upcoming_at (clock H t) m),
   match parsed_date m with Some _ => S t | None => t end).
Proof.
  unfold _is_upcoming, upcoming_at, parsed_date; unfold_host.
  destruct (date_text m) as [e | text]; [reflexivity |].
  destruct (fromisoformat text) as [e | d]; [reflexivity |].
  destruct (dt_gt d (naive (clock H t))); reflexivity.
Qed.

(** A date that carries a UTC offset does not compare with the clock. *)
Lemma aware_date_is_not_upcoming (c : civil) (m : dict) (d : datetime) (off : Z) :
  parsed_date m = Some d -> utcoffset d = Some off -> upcoming_at c m = false.
Proof.
  intros Hd Hoff. unfold upcoming_at. rewrite Hd.
  unfold dt_gt, dt_compare. rewrite Hoff. reflexivity.
Qed.

(** A date without offset is upcoming exactly when it is later than the
    reading. *)
Lemma naive_date_upcoming_iff (c : civil) (m : dict) (d : datetime) :
  parsed_date m = Some d -> utcoffset d = None ->
  (upcoming_at c m = true <-> later (wall d) c).
Proof.
  intros Hd Hoff. unfold upcoming_at, later. rewrite Hd.
  unfold dt_gt, dt_compare, rbind, ok. rewrite Hoff. cbn [utcoffset naive wall].
  destruct (lex (fields (wall d)) (fields c)); split; congruence.
Qed.

Lemma unparsed_date_is_not_upcoming (c : civil) (m : dict) :
  parsed_date m = None -> upcoming_at c m = false.
Proof. intros Hd. unfold upcoming_at. now rewrite Hd. Qed.

Lemma missing_date_is_unparsed (m : dict) :
  lookup "date" m = None -> parsed_date m = None.
Proof.
  intros Hm. unfold parsed_date, date_text, getitem. now rewrite Hm.
Qed.

(** With the clock standing at [c], the first comprehension keeps the
    meetings that are upcoming at [c]. *)
Lemma comprehension_upcoming (H : host) (c : civil) (ms : list dict) :
  (forall i, clock H i = c) ->
  forall t, exists t',
    comprehension (_is_upcoming H) ms t = (ok (filter (upcoming_at c) ms), t').
Proof.
  intros Hc. induction ms as [| m ms IH]; intros t; simpl.
  - eexists; reflexivity.
  - destruct (IH (match parsed_date m with Some _ => S t | None => t end))
      as [t' Ht'].
    unfold bind, ret in Ht' |- *. rewrite is_upcoming_run, Hc.
    unfold ok in Ht' |- *. cbn iota. rewrite Ht'.
    eexists; reflexivity.
Qed.

(** ... and the second one keeps the others. *)
Lemma comprehension_recent (H : host) (c : civil) (ms : list dict) :
  (forall i, clock H i = c) ->
  forall t, exists t',
    comprehension (fun m => b <- _is_upcoming H m ;; ret (negb b)) ms t
    = (ok (filter (fun m => negb (upcoming_at c m)) ms), t').
Proof.
  intros Hc. induction ms as [| m ms IH]; intros t; simpl.
  - eexists; reflexivity.
  - destruct (IH (match parsed_date m with Some _ => S t | None => t end))
      as [t' Ht'].
    unfold bind, ret in Ht' |- *. rewrite is_upcoming_run, Hc.
    unfold ok in Ht' |- *. cbn iota. rewrite Ht'.
    eexists; reflexivity.
Qed.

(** The processing loop never raises and adds at most one entry per
    meeting. *)
Lemma process_each_total (entry : dict -> M dict) (ms : list dict) :
  forall acc t, exists l t',
    process_each entry ms acc t = (ok (acc ++ l)%list, t')
    /\ List.length l <= List.length ms.
Proof.
  induction ms as [| m ms IH]; intros acc t; simpl.
  - exists [], t. rewrite app_nil_r. split; [reflexivity | simpl; lia].
  - destruct (entry m t) as [[e | d] t1].
    + destruct (IH acc t1) as (l & t' & Hrun & Hlen).
      exists l, t'. split; [exact Hrun | simpl; lia].
    + destruct (IH (acc ++ [d]) t1) as (l & t' & Hrun & Hlen).
      exists (d :: l), t'. rewrite Hrun, <- app_assoc. simpl.
      split; [reflexivity | simpl; lia].
Qed.

(** A meeting whose entry raises at every tick is missing from the
    output. *)
Lemma process_each_drops (entry : dict -> M dict) (m0 : dict) (ms : list dict) :
  In m0 ms ->
  (forall t, exists e t', entry m0 t = (inl e, t')) ->
  forall acc t, exists l t',
    process_each entry ms acc t = (ok (acc ++ l)%list, t')
    /\ List.length l < List.length ms.
Proof.
  intros Hin Hraise. induction ms as [| m ms IH]; [contradiction |].
  intros acc t. simpl. destruct Hin as [-> | Hin].
  - destruct (Hraise t) as (e & t1 & He). rewrite He.
    destruct (process_each_total entry ms acc t1) as (l & t' & Hrun & Hlen).
    exists l, t'. split; [exact Hrun | simpl; lia].
  - destruct (entry m t) as [[e | d] t1].
    + destruct (IH Hin acc t1) as (l & t' & Hrun & Hlen).
      exists l, t'. split; [exact Hrun | simpl; lia].
    + destruct (IH Hin (acc ++ [d]) t1) as (l & t' & Hrun & Hlen).
      exists (d :: l), t'. rewrite Hrun, <- app_assoc. simpl.
      split; [reflexivity | simpl; lia].
Qed.

Lemma minutes_prompt_needs_date (m : dict) :
  lookup "date" m = None -> exists e, minutes_prompt m = inl e.
Proof.
  intros Hd. unfold minutes_prompt, getitem. rewrite Hd.
  destruct (lookup "agency" m); simpl; eexists; reflexivity.
Qed.

Lemma recent_entry_needs_date (H : host) (m : dict) :
  lookup "date" m = None ->
  forall t, exists e t', recent_entry H m t = (inl e, t').
Proof.
  intros Hd t. destruct (minutes_prompt_needs_date m Hd) as [e He].
  exists e, t. unfold recent_entry, _summarize_minutes. rewrite He.
  reflexivity.
Qed.

Lemma content_lines_total (ms : list dict) :
  Forall (fun m => lookup "agency" m <> None) ms ->
  exists lines, content_lines ms = ok lines.
Proof.
  induction 1 as [| m ms Hm _ IH]; simpl.
  - eexists; reflexivity.
  - unfold getitem. destruct (lookup "agency" m) as [a |]; [| congruence].
    destruct IH as [lines ->]. simpl. eexists; reflexivity.
Qed.

Lemma themes_prompt_total (ms : list dict) :
  Forall (fun m => lookup "agency" m <> None) ms ->
  exists p, themes_prompt ms = ok p.
Proof.
  intros Hms. destruct (content_lines_total ms Hms) as [lines Hl].
  unfold themes_prompt. rewrite Hl. simpl. eexists; reflexivity.
Qed.

(** Once the prompt is built, theme extraction returns, one call later. *)
Lemma find_common_themes_total (H : host) (ms : list dict) (p : string) (t : nat) :
  themes_prompt ms = ok p ->
  exists th, _find_common_themes H ms t = (ok th, S t).
Proof.
  intros Hp. unfold _find_common_themes. rewrite Hp. unfold_host.
  match goal with
  | |- context [chat H t ?r] => destruct (chat H t r) as [e | choices]
  end; [eexists; reflexivity |].
  destruct (first_content choices); eexists; reflexivity.
Qed.

Lemma comprehension_total (p : dict -> M bool) (ms : list dict) :
  (forall m t, exists b t', p m t = (ok b, t')) ->
  forall t, exists l t', comprehension p ms t = (ok l, t').
Proof.
  intros Hp. induction ms as [| m ms IH]; intros t; simpl.
  - eexists _, _; reflexivity.
  - destruct (Hp m t) as (b & t1 & Hb). destruct (IH t1) as (l & t2 & Hl).
    unfold bind, ret, ok in *. rewrite Hb, Hl. eexists _, _; reflexivity.
Qed.

Lemma is_upcoming_total (H : host) (m : dict) (t : nat) :
  exists b t', _is_upcoming H m t = (ok b, t').
Proof. rewrite is_upcoming_run. eexists _, _; reflexivity. Qed.

Lemma is_not_upcoming_total (H : host) (m : dict) (t : nat) :
  exists b t', (b <- _is_upcoming H m ;; ret (negb b)) t = (ok b, t').
Proof.
  unfold bind, ret. rewrite is_upcoming_run. eexists _, _; reflexivity.
Qed.

(** The shape of every run of [process_meetings] whose theme prompt can
    be built. *)
Lemma process_meetings_run (H : host) (ms : list dict) (t : nat) :
  Forall (fun m => lookup "agency" m <> None) ms ->
  exists up rc t1 t2 lu t3 lr t4 th,
    comprehension (_is_upcoming H) ms t = (ok up, t1)
    /\ comprehension (fun m => b <- _is_upcoming H m ;; ret (negb b)) ms t1 = (ok rc, t2)
    /\ process_each (upcoming_entry H) up [] t2 = (ok lu, t3)
    /\ List.length lu <= List.length up
    /\ process_each (recent_entry H) rc [] t3 = (ok lr, t4)
    /\ List.length lr <= List.length rc
    /\ process_meetings H ms t
       = (ok (mkbundle lu lr th (Z.of_nat (List.length ms))), S t4).
Proof.
  intros Hms.
  destruct (comprehension_total _ ms (is_upcoming_total H) t) as (up & t1 & Hup).
  destruct (comprehension_total (fun m => b <- _is_upcoming H m ;; ret (negb b))
              ms (is_not_upcoming_total H) t1) as (rc & t2 & Hrc).
  destruct (process_each_total (upcoming_entry H) up [] t2) as (lu & t3 & Hlu & Hlenu).
  destruct (process_each_total (recent_entry H) rc [] t3) as (lr & t4 & Hlr & Hlenr).
  destruct (themes_prompt_total ms Hms) as [p Hp].
  destruct (find_common_themes_total H ms p t4 Hp) as [th Hth].
  simpl in Hlu, Hlr.
  exists up, rc, t1, t2, lu, t3, lr, t4, th.
  repeat split; try assumption.
  unfold process_meetings, _process_upcoming_meetings, _process_recent_meetings.
  unfold bind at 1. rewrite Hup. unfold ok at 1.
  unfold bind at 1. rewrite Hrc. unfold ok at 1.
  unfold bind at 1. rewrite Hlu. unfold ok at 1.
  unfold bind at 1. rewrite Hlr. unfold ok at 1.
  unfold bind at 1. rewrite Hth. reflexivity.
Qed.

(** ** White space and the strings of an element *)

Lemma lstrip_eq (s : string) :
  lstrip s = match space_at s with Some r => lstrip r | None => s end.
Proof.
  destruct s as [| a r1]; [reflexivity |]. cbn [lstrip space_at].
  destruct (is_space a); [reflexivity |].
  destruct r1 as [| b r2]; [reflexivity |].
  destruct (is_space2 a b); [reflexivity |].
  destruct r2 as [| c r3]; [reflexivity |].
  destruct (is_space3 a b c); reflexivity.
Qed.

Lemma space_at_shorter (s r : string) :
  space_at s = Some r -> String.length r < String.length s.
Proof.
  destruct s as [| a [| b [| c r3]]]; cbn [space_at];
    repeat match goal with
           | |- context [if ?b then _ else _] => destruct b
           end; intros Hr; try discriminate; injection Hr as <-; simpl; lia.
Qed.

Lemma lstrip_spec (s : string) : lstripped s (lstrip s).
Proof.
  remember (String.length s) as n eqn:Hn. revert s Hn.
  induction n as [n IH] using lt_wf_ind. intros s Hn.
  rewrite lstrip_eq. destruct (space_at s) as [r |] eqn:Hs.
  - apply (lstripped_step s r _ Hs). apply (IH (String.length r)); [| reflexivity].
    subst n. exact (space_at_shorter s r Hs).
  - apply lstripped_done. exact Hs.
Qed.

Lemma lstripped_lstrip (s d : string) : lstripped s d -> lstrip s = d.
Proof.
  induction 1 as [s Hs | s r d Hs _ IH]; rewrite lstrip_eq, Hs; [reflexivity | exact IH].
Qed.

Lemma space_at_app (w r : string) :
  space_at w = Some EmptyString -> space_at (w ++ r)%string = Some r.
Proof.
  destruct w as [| a [| b [| c [| d w]]]]; cbn [space_at append];
    repeat match goal with
           | |- context [if ?b then _ else _] => destruct b
           end; intros Hr; try discriminate; try reflexivity.
Qed.

Lemma blank_lstripped (s : string) : blank s = true <-> lstripped s EmptyString.
Proof.
  unfold blank. split.
  - intros Hb. pose proof (lstrip_spec s) as Hs.
    destruct (lstrip s); [exact Hs | discriminate].
  - intros Hs. now rewrite (lstripped_lstrip _ _ Hs).
Qed.

Lemma rstrip_spec (s : string) :
  exists r,
    s = (rstrip s ++ r)%string /\ lstripped r EmptyString
    /\ ends_with_space (rstrip s) = false.
Proof.
  induction s as [| c s IH].
  - exists EmptyString. repeat split. apply lstripped_done. reflexivity.
  - cbn [rstrip]. destruct (blank (String c s)) eqn:Hb.
    + exists (String c s). repeat split. now apply blank_lstripped.
    + destruct IH as (r & Hs & Hr & He). exists r. split; [| split; [exact Hr |]].
      * cbn [append]. now rewrite <- Hs.
      * cbn [ends_with_space]. rewrite He.
        destruct (space_at (String c (rstrip s))) as [[| x y] |] eqn:Hw; try reflexivity.
        assert (Hall : lstripped (String c s) EmptyString).
        { apply (lstripped_step _ r); [| exact Hr].
          rewrite Hs at 1.
          change (String c (rstrip s ++ r)) with (String c (rstrip s) ++ r)%string.
          exact (space_at_app _ r Hw). }
        apply blank_lstripped in Hall. congruence.
Qed.

(** [strip] removes the white space at both ends and nothing else. *)
Lemma strip_trimmed (s : string) : trimmed s (strip s).
Proof.
  destruct (rstrip_spec (lstrip s)) as (r & Hm & Hr & He).
  exists (lstrip s), r. split; [apply lstrip_spec |]. split; [exact Hm |].
  split; [exact Hr | exact He].
Qed.



(** ** Timestamps written by [isoformat] are read back by [fromisoformat] *)

Local Open Scope string_scope.

Lemma code_digit_char (d : Z) : code (digit_char d) = (48 + d mod 10)%Z.
Proof.
  unfold code, digit_char. rewrite nat_ascii_embedding.
  - apply Z2Nat.id. Z.to_euclidean_division_equations. lia.
  - apply Nat2Z.inj_lt. rewrite Z2Nat.id;
      Z.to_euclidean_division_equations; lia.
Qed.

Lemma is_digit_digit_char (d : Z) : is_digit (digit_char d) = true.
Proof.
  unfold is_digit. rewrite code_digit_char.
  apply andb_true_iff. split; apply Z.leb_le;
    Z.to_euclidean_division_equations; lia.
Qed.

Lemma digit_val_digit_char (d : Z) : digit_val (digit_char d) = (d mod 10)%Z.
Proof. unfold digit_val. rewrite code_digit_char. lia. Qed.

Lemma digit_char_is_not (d : Z) (c : ascii) :
  is_digit c = false -> Ascii.eqb (digit_char d) c = false.
Proof.
  intros Hc. destruct (Ascii.eqb_spec (digit_char d) c) as [E |]; [| reflexivity].
  rewrite <- E, is_digit_digit_char in Hc. discriminate.
Qed.

Lemma take_digits_digit (n : nat) (acc d : Z) (s : string) :
  take_digits (S n) acc (String (digit_char d) s)
  = take_digits n (10 * acc + d mod 10)%Z s.
Proof.
  cbn [take_digits]. now rewrite is_digit_digit_char, digit_val_digit_char.
Qed.

Lemma take_digits_done (acc : Z) (s : string) : take_digits 0 acc s = Some (acc, s).
Proof. reflexivity. Qed.

Lemma split_at_digit (c : ascii) (d : Z) (s : string) :
  is_digit c = false ->
  split_at c (String (digit_char d) s)
  = obind (split_at c s) (fun '(l, r) => Some (String (digit_char d) l, r)).
Proof. intros Hc. cbn [split_at]. now rewrite digit_char_is_not. Qed.

Lemma split_at_other (c a : ascii) (s : string) :
  Ascii.eqb a c = false ->
  split_at c (String a s)
  = obind (split_at c s) (fun '(l, r) => Some (String a l, r)).
Proof. intros Hc. cbn [split_at]. now rewrite Hc. Qed.

Lemma split_at_here (c : ascii) (s : string) :
  split_at c (String c s) = Some (EmptyString, s).
Proof. cbn [split_at]. now rewrite Ascii.eqb_refl. Qed.

Lemma split_at_end (c : ascii) : split_at c EmptyString = None.
Proof. reflexivity. Qed.

Lemma parse_offset_utc : parse_offset 1 "00:00" = Some 0%Z.
Proof. reflexivity. Qed.

Lemma replace_digit (c : ascii) (by_ : string) (d : Z) (s : string) :
  is_digit c = false ->
  replace_char c by_ (String (digit_char d) s)
  = String (digit_char d) (replace_char c by_ s).
Proof. intros Hc. cbn [replace_char]. now rewrite digit_char_is_not. Qed.

Lemma replace_other (c a : ascii) (by_ s : string) :
  Ascii.eqb a c = false ->
  replace_char c by_ (String a s) = String a (replace_char c by_ s).
Proof. intros Hc. cbn [replace_char]. now rewrite Hc. Qed.

Ltac walk :=
  repeat first
    [ rewrite split_at_digit by reflexivity
    | rewrite split_at_here
    | rewrite split_at_other by reflexivity
    | rewrite split_at_end
    | progress cbn [obind] ].

Ltac digits :=
  repeat first
    [ rewrite take_digits_digit
    | rewrite take_digits_done
    | progress cbn [obind expect Ascii.eqb Bool.eqb andb fst snd] ].

Lemma valid_time_bounds (h mi s us : Z) :
  valid_time h mi s us = true ->
  (0 <= h <= 23 /\ 0 <= mi <= 59 /\ 0 <= s <= 59 /\ 0 <= us <= 999999)%Z.
Proof.
  unfold valid_time. intros Hv.
  repeat (apply andb_true_iff in Hv; destruct Hv as [Hv ?]).
  repeat match goal with
         | Hb : (_ <=? _)%Z = true |- _ => apply Z.leb_le in Hb
         end.
  lia.
Qed.

Lemma parse_time_of_isoformat (h mi s us : Z) (tail : string)
      (off : option Z) :
  valid_time h mi s us = true ->
  (tail = EmptyString /\ off = None
   \/ tail = "+00:00"%string /\ off = Some 0%Z) ->
  parse_isoformat_time
    (zpad 2 h ++ ":" ++ zpad 2 mi ++ ":" ++ zpad 2 s
     ++ (if (us =? 0)%Z then EmptyString else "." ++ zpad 6 us) ++ tail)%string
  = Some (h, mi, s, us, off).
Proof.
  intros Hv Htail. apply valid_time_bounds in Hv.
  assert (Eh : (10 * (10 * 0 + (h / 10) mod 10) + h mod 10 = h)%Z)
    by (Z.to_euclidean_division_equations; lia).
  assert (Em : (10 * (10 * 0 + (mi / 10) mod 10) + mi mod 10 = mi)%Z)
    by (Z.to_euclidean_division_equations; lia).
  assert (Es : (10 * (10 * 0 + (s / 10) mod 10) + s mod 10 = s)%Z)
    by (Z.to_euclidean_division_equations; lia).
  assert (Eu : (10 * (10 * (10 * (10 * (10 * (10 * 0
                   + (us / 10 / 10 / 10 / 10 / 10) mod 10)
                   + (us / 10 / 10 / 10 / 10) mod 10)
                   + (us / 10 / 10 / 10) mod 10)
                   + (us / 10 / 10) mod 10) + (us / 10) mod 10) + us mod 10 = us)%Z)
    by (Z.to_euclidean_division_equations; lia).
  unfold parse_isoformat_time.
  cbn [zpad append].
  destruct (Z.eqb_spec us 0) as [Hz | Hnz];
    destruct Htail as [[-> ->] | [-> ->]];
    cbn [append String.length Nat.ltb Nat.leb]; unfold split_offset; walk.
  all: unfold parse_hh_mm_ss_ff, parse_fraction; digits.
  all: cbn [String.length]; digits; rewrite ?parse_offset_utc; cbn [obind].
  all: rewrite ?Eh, ?Em, ?Es, ?Eu, ?Hz; reflexivity.
Qed.

Lemma string_app_assoc (a b c : string) : (a ++ b) ++ c = a ++ (b ++ c).
Proof. induction a as [| x a IH]; simpl; [reflexivity | now rewrite IH]. Qed.

Lemma valid_date_bounds (y m d : Z) :
  valid_date y m d = true ->
  (1 <= y <= 9999 /\ 1 <= m <= 12 /\ 1 <= d <= 31)%Z.
Proof.
  unfold valid_date. intros Hv.
  repeat (apply andb_true_iff in Hv; destruct Hv as [Hv ?]).
  repeat match goal with
         | Hb : (_ <=? _)%Z = true |- _ => apply Z.leb_le in Hb
         end.
  assert (days_in_month y m <= 31)%Z.
  { unfold days_in_month.
    destruct (m =? 2)%Z; [destruct (is_leap y); lia |].
    destruct (_ || _); lia. }
  lia.
Qed.

Lemma parse_isoformat_of_isoformat (c : civil) (tail : string) (off : option Z) :
  valid_date (year c) (month c) (day c) = true ->
  valid_time (hour c) (minute c) (second c) (microsecond c) = true ->
  (tail = EmptyString /\ off = None
   \/ tail = "+00:00"%string /\ off = Some 0%Z) ->
  parse_isoformat (isoformat (naive c) ++ tail) = Some (mkdt c off).
Proof.
  intros Hd Ht Htail.
  pose proof (valid_date_bounds _ _ _ Hd) as Hb.
  pose proof (parse_time_of_isoformat _ _ _ _ tail off Ht Htail) as Htime.
  destruct c as [y m d h mi s us]. cbn [year month day hour minute second microsecond] in *.
  assert (Ey : (10 * (10 * (10 * (10 * 0 + (y / 10 / 10 / 10) mod 10)
                   + (y / 10 / 10) mod 10) + (y / 10) mod 10) + y mod 10 = y)%Z)
    by (Z.to_euclidean_division_equations; lia).
  assert (Em : (10 * (10 * 0 + (m / 10) mod 10) + m mod 10 = m)%Z)
    by (Z.to_euclidean_division_equations; lia).
  assert (Ed : (10 * (10 * 0 + (d / 10) mod 10) + d mod 10 = d)%Z)
    by (Z.to_euclidean_division_equations; lia).
  remember (zpad 2 h ++ ":" ++ zpad 2 mi ++ ":" ++ zpad 2 s
            ++ (if (us =? 0)%Z then EmptyString else "." ++ zpad 6 us) ++ tail)
    as T eqn:ET.
  assert (Eiso : isoformat (naive (mkcivil y m d h mi s us)) ++ tail
                 = zpad 4 y ++ "-" ++ zpad 2 m ++ "-" ++ zpad 2 d ++ "T" ++ T).
  { unfold isoformat.
    cbn [wall naive utcoffset year month day hour minute second microsecond].
    rewrite ET, !string_app_assoc. reflexivity. }
  assert (Hne : exists a b r, T = String a (String b r)).
  { rewrite ET. cbn [zpad append]. eexists _, _, _; reflexivity. }
  destruct Hne as (a & b & r & Ea).
  rewrite Eiso. unfold parse_isoformat. cbn [zpad append]. digits.
  replace (after_char (String "T" T)) with T by reflexivity.
  rewrite Htime. cbn [obind].
  rewrite Ey, Em, Ed, Hd, Ht. reflexivity.
Qed.

Lemma replace_Z_of_isoformat (c : civil) :
  replace_char "Z" "+00:00" (isoformat (naive c) ++ "Z")
  = isoformat (naive c) ++ "+00:00".
Proof.
  unfold isoformat.
  cbn [wall naive utcoffset year month day hour minute second microsecond].
  destruct (microsecond c =? 0)%Z; cbn [zpad append];
    repeat first
      [ rewrite replace_digit by reflexivity
      | rewrite replace_other by reflexivity ];
    reflexivity.
Qed.

Lemma string_app_nil_r (a : string) : (a ++ EmptyString)%string = a.
Proof. induction a as [| x a IH]; simpl; [reflexivity | now rewrite IH]. Qed.

(** A valid naive timestamp written by [isoformat] is read back unchanged:
    the text is an ISO-8601 timestamp for [fromisoformat]. *)
Lemma fromisoformat_isoformat (c : civil) :
  valid_date (year c) (month c) (day c) = true ->
  valid_time (hour c) (minute c) (second c) (microsecond c) = true ->
  fromisoformat (isoformat (naive c)) = ok (naive c).
Proof.
  intros Hd Ht. unfold fromisoformat.
  rewrite <- (string_app_nil_r (isoformat (naive c))).
  rewrite (parse_isoformat_of_isoformat c EmptyString None Hd Ht); [reflexivity |].
  left. split; reflexivity.
Qed.

(** What [strptime] returns is a valid date at midnight. *)
Lemma strptime_is_valid (s : string) (d : datetime) :
  strptime_mdY s = ok d ->
  utcoffset d = None
  /\ valid_date (year (wall d)) (month (wall d)) (day (wall d)) = true
  /\ valid_time (hour (wall d)) (minute (wall d)) (second (wall d))
                (microsecond (wall d)) = true.
Proof.
  unfold strptime_mdY.
  destruct (mdY_matches s) as [| [[[m dd] y] rest] ?]; [discriminate |].
  destruct rest; [| discriminate].
  destruct (valid_date y m dd) eqn:Hv; [| discriminate].
  intros Hd. injection Hd as <-. repeat split. exact Hv.
Qed.

Lemma strptime_date_reads_back (s : string) (d : datetime) :
  strptime_mdY s = ok d -> fromisoformat (isoformat d) = ok d.
Proof.
  intros Hs. destruct (strptime_is_valid s d Hs) as (Hn & Hd & Ht).
  destruct d as [c o]. simpl in Hn. subst o.
  exact (fromisoformat_isoformat c Hd Ht).
Qed.

(** A valid timestamp followed by the UTC marker [Z] parses, as the same
    wall-clock fields at offset zero, and is never upcoming, whatever the
    clock reads. *)
Lemma utc_marked_timestamp_is_never_upcoming (c reading : civil) (m : dict) :
  valid_date (year c) (month c) (day c) = true ->
  valid_time (hour c) (minute c) (second c) (microsecond c) = true ->
  lookup "date" m = Some (VStr (isoformat (naive c) ++ "Z")%string) ->
  parsed_date m = Some (mkdt c (Some 0%Z))
  /\ upcoming_at reading m = false.
Proof.
  intros Hd Ht Hm.
  assert (Hp : parsed_date m = Some (mkdt c (Some 0%Z))).
  { unfold parsed_date, date_text, getitem, fromisoformat. rewrite Hm.
    unfold rbind, ok. rewrite replace_Z_of_isoformat.
    rewrite (parse_isoformat_of_isoformat c "+00:00"%string (Some 0%Z) Hd Ht);
      [reflexivity |].
    right. split; reflexivity. }
  split; [exact Hp |].
  exact (aware_date_is_not_upcoming reading m _ 0%Z Hp eq_refl).
Qed.

Local Open Scope list_scope.

(** ** The classifier and the bundle *)

(** C1, at the input where the code departs from the claim: a meeting
    dated 2099-01-01T00:00:00Z, classified on 12 March 2025. Its date
    parses, with the UTC offset the rewritten marker gives it, and lies in
    the future; the meeting is nevertheless absent from [upcoming_meetings]
    and present in [recent_minutes]. *)
Theorem C1_utc_marked_future_meeting_lands_in_recent :
  parsed_date (Examples.meeting_on "2099-01-01T00:00:00Z")
  = Some (mkdt (mkcivil 2099 1 1 0 0 0 0) (Some 0%Z))
  /\ lex (fields (mkcivil 2099 1 1 0 0 0 0)) (fields Examples.wednesday_morning) = Gt
  /\ exists b t',
       process_meetings
         (Examples.host_at Examples.wednesday_morning Examples.no_network Examples.no_endpoint)
         [Examples.meeting_on "2099-01-01T00:00:00Z"] 0 = (ok b, t')
       /\ upcoming_meetings b = []
       /\ map (lookup "date") (recent_minutes b)
          = [Some (VStr "2099-01-01T00:00:00Z")].
Proof.
  split; [vm_compute; reflexivity |].
  split; [vm_compute; reflexivity |].
  eexists _, _. split; [vm_compute; reflexivity |].
  split; reflexivity.
Qed.

(** At one clock reading the two lists split the input: a meeting is in
    the first exactly when it is upcoming at that reading, in the second
    exactly when it is not. *)
Lemma classification_splits_at_one_reading (H : host) (c : civil)
      (ms : list dict) (t : nat) :
  (forall i, clock H i = c) ->
  exists t1 t2,
    comprehension (_is_upcoming H) ms t = (ok (filter (upcoming_at c) ms), t1)
    /\ comprehension (fun m => b <- _is_upcoming H m ;; ret (negb b)) ms t1
       = (ok (filter (fun m => negb (upcoming_at c m)) ms), t2)
    /\ forall m, In m ms ->
         (In m (filter (upcoming_at c) ms) <-> upcoming_at c m = true)
         /\ (In m (filter (fun m => negb (upcoming_at c m)) ms)
             <-> upcoming_at c m = false).
Proof.
  intros Hc.
  destruct (comprehension_upcoming H c ms Hc t) as [t1 H1].
  destruct (comprehension_recent H c ms Hc t1) as [t2 H2].
  exists t1, t2. repeat split; try assumption.
  - intros Hin. now apply filter_In in Hin.
  - intros Hb. apply filter_In. now split.
  - intros Hin. apply filter_In in Hin. destruct Hin as [_ Hb].
    now apply negb_true_iff in Hb.
  - intros Hb. apply filter_In. split; [assumption |]. now rewrite Hb.
Qed.

(** When the clock moves between the two comprehensions, a meeting dated
    between the two readings is kept by both. *)
Lemma classification_reads_the_clock_twice :
  exists b t',
    process_meetings Examples.ticking_host
                     [Examples.meeting_on "2025-03-12T09:30:01"] 0 = (ok b, t')
    /\ map (lookup "date") (upcoming_meetings b) = [Some (VStr "2025-03-12T09:30:01")]
    /\ map (lookup "date") (recent_minutes b) = [Some (VStr "2025-03-12T09:30:01")]
    /\ total_meetings b = 1%Z.
Proof.
  eexists _, _. split; [vm_compute; reflexivity |]. repeat split.
Qed.

(** C10 as stated fails: a record without the [agency] key makes
    [process_meetings] raise. *)
Lemma C10_missing_agency_raises :
  fst (process_meetings
         (Examples.host_at Examples.wednesday_morning Examples.no_network Examples.no_endpoint)
         [[("date", VStr "2025-03-15T00:00:00")]] 0)
  = raise KeyError.
Proof. vm_compute. reflexivity. Qed.

(** C10, amended: when every record has an [agency] key, [process_meetings]
    returns and [total_meetings] is the length of the input; at one clock
    reading the two output lists together are no longer than the input, and
    strictly shorter as soon as a record lacks the [date] key, which is then
    dropped from the lists and still counted. *)
Theorem C10_total_counts_the_raw_input (H : host) (ms : list dict) (t : nat) :
  Forall (fun m => lookup "agency" m <> None) ms ->
  exists b t',
    process_meetings H ms t = (ok b, t')
    /\ total_meetings b = Z.of_nat (List.length ms)
    /\ forall c, (forall i, clock H i = c) ->
         List.length (upcoming_meetings b) + List.length (recent_minutes b)
         <= List.length ms
         /\ ((exists m, In m ms /\ lookup "date" m = None) ->
             List.length (upcoming_meetings b) + List.length (recent_minutes b)
             < List.length ms).
Proof.
  intros Hms.
  destruct (process_meetings_run H ms t Hms)
    as (up & rc & t1 & t2 & lu & t3 & lr & t4 & th
        & Hup & Hrc & Hlu & Hlenu & Hlr & Hlenr & Hrun).
  eexists _, _. split; [exact Hrun |]. split; [reflexivity |].
  intros c Hc. simpl.
  destruct (comprehension_upcoming H c ms Hc t) as [t1' Hup'].
  rewrite Hup in Hup'. injection Hup' as Eup Et1. subst t1'.
  destruct (comprehension_recent H c ms Hc t1) as [t2' Hrc'].
  rewrite Hrc in Hrc'. injection Hrc' as Erc Et2. subst t2'.
  pose proof (filter_length (upcoming_at c) ms) as Hsplit.
  rewrite <- Eup, <- Erc in Hsplit.
  split; [lia |].
  intros (m & Hin & Hdate).
  assert (Hm : In m rc).
  { rewrite Erc. apply filter_In. split; [assumption |].
    rewrite unparsed_date_is_not_upcoming; [reflexivity |].
    now apply missing_date_is_unparsed. }
  destruct (process_each_drops (recent_entry H) m rc Hm
              (recent_entry_needs_date H m Hdate) [] t3)
    as (lr' & t4' & Hlr' & Hlt).
  simpl in Hlr'. rewrite Hlr in Hlr'. injection Hlr' as Elr _. subst lr'.
  lia.
Qed.

(** C9 as stated fails: the themes of the empty input are whatever the
    endpoint's reply gives, here one theme wrapping a reply that is not
    JSON. *)
Lemma C9_empty_input_with_a_talkative_endpoint :
  fst (process_meetings
         (Examples.host_at Examples.wednesday_morning Examples.no_network
                           (Examples.replies "No common themes."))
         [] 0)
  = ok (mkbundle [] []
          (JArr [ JObj [ ("theme", JStr "Multi-Agency Coordination");
                         ("description", JStr "No common themes.") ] ])
          0%Z).
Proof. vm_compute. reflexivity. Qed.

(** C9, amended: on the empty input [process_meetings] returns, with
    [total_meetings = 0] and empty [upcoming_meetings] and [recent_minutes];
    it makes exactly one call, the theme request over no content, and
    [themes] is what theme extraction makes of the reply: the empty list
    when that call raises, the decoded value when the reply without the
    white space at its two ends is JSON, and otherwise one theme wrapping
    the reply without that white space. *)
Theorem C9_empty_input (H : host) (t : nat) :
  exists th p,
    process_meetings H [] t = (ok (mkbundle [] [] th 0%Z), S t)
    /\ themes_prompt [] = ok p
    /\ _find_common_themes H [] t = (ok th, S t)
    /\ (forall e, chat H t (mkrequest "gpt-4o-mini" p 500%Z "0.7") = inl e ->
                  th = JArr [])
    /\ (forall body rest,
           chat H t (mkrequest "gpt-4o-mini" p 500%Z "0.7") = ok (Some body :: rest) ->
           exists content,
             trimmed body content
             /\ th = match json_loads H content with
                     | Some parsed => parsed
                     | None =>
                         JArr [ JObj [ ("theme", JStr "Multi-Agency Coordination");
                                       ("description", JStr content) ] ]
                     end).
Proof.
  destruct (themes_prompt_total [] (Forall_nil _)) as [p Hp].
  destruct (find_common_themes_total H [] p t Hp) as [th Hth].
  exists th, p. split; [| split; [exact Hp | split; [exact Hth | split]]].
  - unfold process_meetings, _process_upcoming_meetings, _process_recent_meetings.
    cbn [comprehension process_each ret ok bind].
    unfold bind. rewrite Hth. reflexivity.
  - intros e He. revert Hth.
    unfold _find_common_themes. rewrite Hp. unfold_host. rewrite He.
    intros Hth. now injection Hth as <-.
  - intros body rest Hchat. exists (strip body). split; [apply strip_trimmed |].
    revert Hth.
    unfold _find_common_themes. rewrite Hp. unfold_host.
    unfold ok in Hchat. rewrite Hchat. simpl.
    intros Hth. injection Hth as <-. reflexivity.
Qed.

Lemma C9_witness :
  chat (Examples.host_at Examples.wednesday_morning Examples.no_network Examples.no_endpoint)
       0 (mkrequest "gpt-4o-mini" EmptyString 500%Z "0.7") = inl APIError
  /\ process_meetings
       (Examples.host_at Examples.wednesday_morning Examples.no_network Examples.no_endpoint)
       [] 0
     = (ok (mkbundle [] [] (JArr []) 0%Z), 1)
  /\ process_meetings (Spaced.spaced_host (Examples.replies Spaced.list_reply)) [] 0
     = (ok (mkbundle [] [] (JArr []) 0%Z), 1)
  /\ process_meetings (Spaced.spaced_host (Examples.replies Spaced.worded_reply)) [] 0
     = (ok (mkbundle [] []
              (JArr [ JObj [ ("theme", JStr "Multi-Agency Coordination");
                             ("description", JStr "Water, then roads.") ] ])
              0%Z), 1).
Proof.
  split; [reflexivity |]. split; [| split].
  - destruct (C9_empty_input
                (Examples.host_at Examples.wednesday_morning Examples.no_network
                                  Examples.no_endpoint) 0)
      as (th & p & Hrun & _ & _ & Hfail & _).
    rewrite Hrun. now rewrite (Hfail APIError eq_refl).
  - destruct (C9_empty_input (Spaced.spaced_host (Examples.replies Spaced.list_reply)) 0)
      as (th & p & Hrun & Hp & Hth & _ & _).
    rewrite Hrun. vm_compute in Hth. injection Hth as <-. reflexivity.
  - destruct (C9_empty_input (Spaced.spaced_host (Examples.replies Spaced.worded_reply)) 0)
      as (th & p & Hrun & Hp & Hth & _ & _).
    rewrite Hrun. vm_compute in Hth. injection Hth as <-. reflexivity.
Defined.

Lemma C10_witness :
  Forall (fun m => lookup "agency" m <> None)
         [Examples.meeting_on "2025-03-15T00:00:00"; [("agency", VStr "Planning")]]
  /\ exists b t',
       process_meetings
         (Examples.host_at Examples.wednesday_morning Examples.no_network Examples.no_endpoint)
         [Examples.meeting_on "2025-03-15T00:00:00"; [("agency", VStr "Planning")]] 0
       = (ok b, t')
       /\ total_meetings b = 2%Z
       /\ forall c,
            (forall i,
                clock (Examples.host_at Examples.wednesday_morning Examples.no_network
                                        Examples.no_endpoint) i = c) ->
            List.length (upcoming_meetings b) + List.length (recent_minutes b) <= 2
            /\ ((exists m,
                    In m [Examples.meeting_on "2025-03-15T00:00:00";
                          [("agency", VStr "Planning")]]
                    /\ lookup "date" m = None) ->
                List.length (upcoming_meetings b) + List.length (recent_minutes b) < 2).
Proof.
  assert (Hms : Forall (fun m => lookup "agency" m <> None)
                  [Examples.meeting_on "2025-03-15T00:00:00"; [("agency", VStr "Planning")]]).
  { repeat constructor; discriminate. }
  split; [exact Hms |].
  exact (C10_total_counts_the_raw_input
           (Examples.host_at Examples.wednesday_morning Examples.no_network Examples.no_endpoint)
           [Examples.meeting_on "2025-03-15T00:00:00"; [("agency", VStr "Planning")]]
           0 Hms).
Defined.

(** ** The summarizers *)

(** C6 as stated fails: on a meeting without the [agency] key the agenda
    summarizer raises before any call is made, and so does the minutes
    summarizer. *)
Lemma C6_summarizers_raise_without_agency :
  _summarize_agenda
    (Examples.host_at Examples.wednesday_morning Examples.no_network Examples.no_endpoint)
    [("date", VStr "2025-03-15T00:00:00")] 0 = (raise KeyError, 0)
  /\ _summarize_minutes
       (Examples.host_at Examples.wednesday_morning Examples.no_network Examples.no_endpoint)
       [("date", VStr "2025-03-15T00:00:00")] 0 = (raise KeyError, 0).
Proof. split; reflexivity. Qed.

(** C6, amended: for every meeting that has the [agency] and [date] keys,
    each summarizer returns a string whatever the endpoint does; when the
    completion call raises, the agenda summarizer returns "Summary
    unavailable - please check the agenda directly." and the minutes
    summarizer returns "Summary unavailable.". *)
Theorem C6_summaries_fall_back (H : host) (m : dict) (t : nat) (agency date : value) :
  lookup "agency" m = Some agency ->
  lookup "date" m = Some date ->
  exists pa pm,
    agenda_prompt m = ok pa
    /\ minutes_prompt m = ok pm
    /\ (exists s, _summarize_agenda H m t = (ok s, S t))
    /\ (exists s, _summarize_minutes H m t = (ok s, S t))
    /\ (forall e, chat H t (mkrequest "gpt-4o-mini" pa 200%Z "0.7") = inl e ->
          _summarize_agenda H m t
          = (ok "Summary unavailable - please check the agenda directly."%string, S t))
    /\ (forall e, chat H t (mkrequest "gpt-4o-mini" pm 200%Z "0.7") = inl e ->
          _summarize_minutes H m t = (ok "Summary unavailable."%string, S t)).
Proof.
  intros Ha Hd.
  assert (Hpa : exists pa, agenda_prompt m = ok pa).
  { unfold agenda_prompt, getitem. rewrite Ha, Hd. simpl. eexists; reflexivity. }
  assert (Hpm : exists pm, minutes_prompt m = ok pm).
  { unfold minutes_prompt, getitem. rewrite Ha, Hd. simpl. eexists; reflexivity. }
  destruct Hpa as [pa Hpa]. destruct Hpm as [pm Hpm].
  exists pa, pm. split; [exact Hpa |]. split; [exact Hpm |].
  unfold _summarize_agenda, _summarize_minutes. rewrite Hpa, Hpm. unfold_host.
  repeat split.
  - destruct (chat H t (mkrequest "gpt-4o-mini" pa 200%Z "0.7")) as [e | choices];
      [eexists; reflexivity |].
    destruct (first_content choices); eexists; reflexivity.
  - destruct (chat H t (mkrequest "gpt-4o-mini" pm 200%Z "0.7")) as [e | choices];
      [eexists; reflexivity |].
    destruct (first_content choices); eexists; reflexivity.
  - intros e He. rewrite He. reflexivity.
  - intros e He. rewrite He. reflexivity.
Qed.

Lemma C6_witness :
  lookup "agency" (Examples.meeting_on "2025-03-15T00:00:00")
  = Some (VStr "Kern County Board of Supervisors")
  /\ lookup "date" (Examples.meeting_on "2025-03-15T00:00:00")
     = Some (VStr "2025-03-15T00:00:00")
  /\ _summarize_agenda
       (Examples.host_at Examples.wednesday_morning Examples.no_network Examples.no_endpoint)
       (Examples.meeting_on "2025-03-15T00:00:00") 0
     = (ok "Summary unavailable - please check the agenda directly."%string, 1)
  /\ _summarize_minutes
       (Examples.host_at Examples.wednesday_morning Examples.no_network Examples.no_endpoint)
       (Examples.meeting_on "2025-03-15T00:00:00") 0
     = (ok "Summary unavailable."%string, 1).
Proof.
  split; [reflexivity |]. split; [reflexivity |].
  destruct (C6_summaries_fall_back
              (Examples.host_at Examples.wednesday_morning Examples.no_network
                                Examples.no_endpoint)
              (Examples.meeting_on "2025-03-15T00:00:00") 0 _ _ eq_refl eq_refl)
    as (pa & pm & _ & _ & _ & _ & Hagenda & Hminutes).
  split; [apply (Hagenda APIError) | apply (Hminutes APIError)]; reflexivity.
Defined.

(** C7 as stated fails: the description is the reply with the white space
    around it removed, not the reply as received. *)
Lemma C7_description_is_trimmed :
  JsonDecode.loads "  Water and roads.  " = None
  /\ _find_common_themes
       (Examples.host_at Examples.wednesday_morning Examples.no_network
                         (Examples.replies "  Water and roads.  "))
       [] 0
     = (ok (JArr [ JObj [ ("theme", JStr "Multi-Agency Coordination");
                          ("description", JStr "Water and roads.") ] ]), 1)
  /\ "Water and roads."%string <> "  Water and roads.  "%string.
Proof.
  split; [vm_compute; reflexivity |].
  split; [vm_compute; reflexivity | discriminate].
Qed.

(** C7, amended: when the reply without the white space at its two ends
    is not valid JSON, theme extraction returns one theme whose
    [description] is the reply without that white space; when the
    completion call raises, it returns the empty list. *)
Theorem C7_theme_fallbacks (H : host) (ms : list dict) (t : nat) (p : string) :
  themes_prompt ms = ok p ->
  (forall body rest,
      chat H t (mkrequest "gpt-4o-mini" p 500%Z "0.7") = ok (Some body :: rest) ->
      json_loads H (strip body) = None ->
      exists content,
        trimmed body content
        /\ _find_common_themes H ms t
           = (ok (JArr [ JObj [ ("theme", JStr "Multi-Agency Coordination");
                                ("description", JStr content) ] ]), S t))
  /\ (forall e,
         chat H t (mkrequest "gpt-4o-mini" p 500%Z "0.7") = inl e ->
         _find_common_themes H ms t = (ok (JArr []), S t)).
Proof.
  intros Hp. unfold _find_common_themes. rewrite Hp. unfold_host. split.
  - intros body rest Hchat Hjson. exists (strip body). split; [apply strip_trimmed |].
    unfold ok in Hchat. rewrite Hchat. simpl.
    rewrite Hjson. reflexivity.
  - intros e He. rewrite He. reflexivity.
Qed.

Lemma C7_witness :
  (exists p, themes_prompt [Examples.meeting_on "2025-03-15T00:00:00"] = ok p)
  /\ JsonDecode.loads (strip Spaced.worded_reply) = None
  /\ _find_common_themes
       (Examples.host_at Examples.wednesday_morning Examples.no_network
                         (Examples.replies Spaced.worded_reply))
       [Examples.meeting_on "2025-03-15T00:00:00"] 0
     = (ok (JArr [ JObj [ ("theme", JStr "Multi-Agency Coordination");
                          ("description", JStr "Water, then roads.") ] ]), 1).
Proof.
  split; [eexists; reflexivity |].
  assert (Hjson : JsonDecode.loads (strip Spaced.worded_reply) = None)
    by (vm_compute; reflexivity).
  split; [exact Hjson |].
  destruct (proj1 (C7_theme_fallbacks
                     (Examples.host_at Examples.wednesday_morning Examples.no_network
                                       (Examples.replies Spaced.worded_reply))
                     [Examples.meeting_on "2025-03-15T00:00:00"] 0 _ eq_refl)
                  Spaced.worded_reply [] eq_refl Hjson)
    as (content & _ & Hrun).
  rewrite Hrun. vm_compute in Hrun. injection Hrun as <-. reflexivity.
Defined.

(** ** The Granicus parser *)

Lemma strptime_is_naive_midnight (s : string) (d : datetime) :
  strptime_mdY s = ok d ->
  utcoffset d = None
  /\ hour (wall d) = 0%Z /\ minute (wall d) = 0%Z
  /\ second (wall d) = 0%Z /\ microsecond (wall d) = 0%Z.
Proof.
  unfold strptime_mdY.
  destruct (mdY_matches s) as [| [[[m dd] y] rest] ?]; [discriminate |].
  destruct rest; [| discriminate].
  destruct (valid_date y m dd); [| discriminate].
  intros Hd. injection Hd as <-. repeat split.
Qed.

Lemma in_week_of_naive (ws we : civil) (d : datetime) :
  utcoffset d = None ->
  in_week (naive ws) d (naive we)
  = ok (not_after ws (wall d) && not_after (wall d) we).
Proof.
  intros Hd. unfold in_week, dt_le, dt_compare, not_after, rbind, ok.
  cbn [utcoffset naive wall]. rewrite Hd.
  destruct (lex (fields ws) (fields (wall d))); try reflexivity;
    destruct (lex (fields (wall d)) (fields we)); reflexivity.
Qed.



Lemma granicus_body_outside (H : host) (el : node) (cfg : source_config)
      (ws we : civil) (txt : string) (d : datetime) :
  find_text Re.date_pattern_search el = Some txt ->
  strptime_mdY (strip txt) = ok d ->
  not_after ws (wall d) && not_after (wall d) we = false ->
  parse_granicus_body H el cfg (naive ws) (naive we) = ok None.
Proof.
  intros Hfind Hparse Hout. unfold parse_granicus_body.
  rewrite Hfind, Hparse. unfold rbind at 1. unfold ok at 1.
  destruct (strptime_is_naive_midnight _ _ Hparse) as [Hnaive _].
  rewrite (in_week_of_naive ws we d Hnaive), Hout. reflexivity.
Qed.

(** The Granicus parser absorbs every exception of its body. *)
Lemma parse_granicus_total (H : host) (el : node) (cfg : source_config)
      (ws we : datetime) (t : nat) :
  exists r, _parse_granicus_meeting H el cfg ws we t = (ok r, t).
Proof.
  unfold _parse_granicus_meeting; unfold_host.
  destruct (parse_granicus_body H el cfg ws we); eexists; reflexivity.
Qed.

Lemma parse_granicus_of_body (H : host) (el : node) (cfg : source_config)
      (ws we : datetime) (t : nat) (r : option dict) :
  parse_granicus_body H el cfg ws we = ok r ->
  _parse_granicus_meeting H el cfg ws we t = (ok r, t).
Proof.
  intros Hb. unfold _parse_granicus_meeting; unfold_host. now rewrite Hb.
Qed.

Lemma not_after_false_iff (a b : civil) : not_after a b = false <-> later a b.
Proof.
  unfold not_after, later. destruct (lex (fields a) (fields b)); split; congruence.
Qed.

Lemma not_after_true_iff (a b : civil) : not_after a b = true <-> ~ later a b.
Proof.
  unfold not_after, later. destruct (lex (fields a) (fields b)); split; congruence.
Qed.




(** ** The week of the run *)

(** The window keeps the time of day at which the run reads the clock. *)
Lemma week_window_keeps_time_of_day (H : host) (t t' : nat) (ws we : datetime) :
  Main.week_window H t = (ok (ws, we), t') ->
  let c := clock H t in
  (hour (wall ws), minute (wall ws), second (wall ws), microsecond (wall ws))
  = (hour c, minute c, second c, microsecond c)
  /\ (hour (wall we), minute (wall we), second (wall we), microsecond (wall we))
     = (hour c, minute c, second c, microsecond c)
  /\ utcoffset ws = None /\ utcoffset we = None.
Proof.
  unfold Main.week_window, add_days; unfold_host.
  destruct (_ && _); [| discriminate].
  destruct (ord2ymd _) as [[y m] d]. simpl.
  destruct (_ && _); [| discriminate].
  destruct (ord2ymd _) as [[y' m'] d']. simpl.
  intros Hw. injection Hw as <- <- _. simpl. repeat split.
Qed.

(** A day at midnight is before the same day at any later time. *)
Lemma midnight_is_before_the_day (a b : civil) :
  (year a, month a, day a) = (year b, month b, day b) ->
  hour b = 0%Z -> minute b = 0%Z -> second b = 0%Z -> microsecond b = 0%Z ->
  (0 <= hour a)%Z -> (0 <= minute a)%Z -> (0 <= second a)%Z -> (0 <= microsecond a)%Z ->
  (0 < hour a + minute a + second a + microsecond a)%Z ->
  later a b.
Proof.
  intros Hd Hh Hm Hs Hu H1 H2 H3 H4 Hpos. injection Hd as Ey Em Ed.
  unfold later, fields, lex. rewrite Ey, Em, Ed, Hh, Hm, Hs, Hu.
  rewrite !Z.compare_refl.
  destruct (Z.compare_spec (hour a) 0); [| lia | reflexivity].
  destruct (Z.compare_spec (minute a) 0); [| lia | reflexivity].
  destruct (Z.compare_spec (second a) 0); [| lia | reflexivity].
  destruct (Z.compare_spec (microsecond a) 0); [lia | lia | reflexivity].
Qed.

(** Whenever the run does not start at midnight sharp, a listing dated the
    first day of its window is filtered out. *)
Lemma first_day_is_dropped_unless_midnight (H : host) (t t' u : nat)
      (ws we : datetime) (el : node) (cfg : source_config) (txt : string)
      (d : datetime) :
  Main.week_window H t = (ok (ws, we), t') ->
  valid_time (hour (clock H t)) (minute (clock H t)) (second (clock H t))
             (microsecond (clock H t)) = true ->
  (hour (clock H t), minute (clock H t), second (clock H t), microsecond (clock H t))
  <> (0, 0, 0, 0)%Z ->
  find_text Re.date_pattern_search el = Some txt ->
  strptime_mdY (strip txt) = ok d ->
  (year (wall d), month (wall d), day (wall d))
  = (year (wall ws), month (wall ws), day (wall ws)) ->
  _parse_granicus_meeting H el cfg ws we u = (ok None, u).
Proof.
  intros Hw Hvalid Hnz Hfind Hparse Hday.
  destruct (week_window_keeps_time_of_day H t t' ws we Hw) as (Hs & _ & Hns & Hne).
  destruct (strptime_is_naive_midnight _ _ Hparse) as (_ & Hh & Hm & Hsec & Hus).
  destruct ws as [cs os], we as [ce oe]. simpl in *. subst os oe.
  injection Hs as Eh Em Es Eu.
  apply parse_granicus_of_body.
  apply (granicus_body_outside H el cfg cs ce txt d Hfind Hparse).
  apply andb_false_iff. left. apply not_after_false_iff.
  unfold valid_time in Hvalid.
  repeat (apply andb_true_iff in Hvalid; destruct Hvalid as [Hvalid ?]).
  apply midnight_is_before_the_day; try assumption; try (symmetry; assumption);
    rewrite ?Eh, ?Em, ?Es, ?Eu; try (apply Z.leb_le; assumption).
  apply Z.leb_le in Hvalid, H1, H3, H5.
  destruct (Z.eq_dec (hour (clock H t)) 0) as [E1 |]; [| lia].
  destruct (Z.eq_dec (minute (clock H t)) 0) as [E2 |]; [| lia].
  destruct (Z.eq_dec (second (clock H t)) 0) as [E3 |]; [| lia].
  destruct (Z.eq_dec (microsecond (clock H t)) 0) as [E4 |]; [| lia].
  exfalso. apply Hnz. now rewrite E1, E2, E3, E4.
Qed.

(** C3, at the input where the code departs from the claim: a run on
    Wednesday 12 March 2025 at 09:30. The window runs from Monday 09:30 to
    Sunday 09:30, not from Monday 00:00 to Sunday 23:59, and a Granicus
    listing dated Monday 10 March, a day of that week, is filtered out: the
    run returns no record, where the same run at midnight returns the two
    Granicus records. *)
Theorem C3_window_starts_at_the_time_of_the_run :
  Main.week_window Examples.monday_host 0
  = (ok (naive (mkcivil 2025 3 10 9 30 0 0), naive (mkcivil 2025 3 16 9 30 0 0)), 1)
  /\ strptime_mdY (strip "3/10/2025") = ok (naive (mkcivil 2025 3 10 0 0 0 0))
  /\ weekday (naive (mkcivil 2025 3 10 0 0 0 0)) = 0%Z
  /\ _parse_granicus_meeting Examples.monday_host (Examples.row_dated "3/10/2025")
       Examples.supervisors
       (naive (mkcivil 2025 3 10 9 30 0 0)) (naive (mkcivil 2025 3 16 9 30 0 0)) 1
     = (ok None, 1)
  /\ Main.main_scrape Examples.monday_host 0 = (ok [], 4)
  /\ exists l,
       Main.main_scrape Examples.monday_host_at_midnight 0 = (ok l, 4)
       /\ map (lookup "date") l
          = [Some (VStr "2025-03-10T00:00:00"); Some (VStr "2025-03-10T00:00:00")].
Proof.
  repeat split; try (vm_compute; reflexivity).
  eexists. split; vm_compute; reflexivity.
Qed.

(** ** The Legistar parser *)

Lemma parse_legistar_run (H : host) (el : node) (cfg : source_config)
      (ws we : datetime) (t : nat) (href : string) :
  attr "href" el = Some href ->
  _parse_legistar_meeting H el cfg ws we t
  = (ok (Some [ ("agency", VStr (name cfg));
                ("date", VStr (isoformat (naive (clock H t))));
                ("type", VStr "Regular Meeting");
                ("agenda_url", VStr (base_url cfg ++ href)%string);
                ("title", VStr (strip (get_text el)));
                ("source", VStr "legistar") ]), S t).
Proof.
  intros Hh. unfold _parse_legistar_meeting, getattr. rewrite Hh. reflexivity.
Qed.

Lemma tag_matches_has_attr (names : list string) (k : string)
      (p : string -> bool) (n : node) :
  tag_matches names k p n = true -> exists v, attr k n = Some v.
Proof.
  unfold tag_matches. destruct n as [s | s | nm attrs cs]; try discriminate.
  intros Hm. apply andb_true_iff in Hm. destruct Hm as [_ Hm].
  destruct (attr k (Tag nm attrs cs)) as [v |]; [eexists; reflexivity | discriminate].
Qed.

(** The loop over the links returns, for each link in turn, the record
    the parser emits for it at the tick the loop reaches it. *)
Lemma collect_legistar_records (H : host) (cfg : source_config) (ws we : datetime)
      (links : list node) :
  Forall (fun l => exists h, attr "href" l = Some h) links ->
  forall acc t, exists l,
    collect (fun link => _parse_legistar_meeting H link cfg ws we) links acc t
    = (ok (acc ++ l), t + List.length links)
    /\ Forall2 (fun link rec =>
                  exists u,
                    t <= u < t + List.length links
                    /\ _parse_legistar_meeting H link cfg ws we u = (ok (Some rec), S u))
               links l.
Proof.
  induction 1 as [| link links [h Hh] _ IH]; intros acc t;
    cbn [collect List.length].
  - exists []. rewrite app_nil_r, Nat.add_0_r. split; [reflexivity | constructor].
  - pose proof (parse_legistar_run H link cfg ws we t h Hh) as Hrec. rewrite Hrec.
    unfold ok at 1. cbn [truthy_dict].
    match goal with
    | |- context [collect _ links (acc ++ [?r]) ?u] =>
        destruct (IH (acc ++ [r]) u) as (l & Hrun & Hall); exists (r :: l)
    end.
    split.
    + etransitivity; [exact Hrun |].
      rewrite <- app_assoc. simpl. f_equal. lia.
    + constructor.
      * exists t. split; [lia | exact Hrec].
      * revert Hall. apply Forall2_impl. intros link' rec' (u & Hu & Hrun').
        exists u. split; [lia | exact Hrun'].
Qed.

(** C4: an anchor whose [href] matches [MeetingDetail], whatever the
    case, yields a record whose title is the text of the link without the
    white space at its two ends, whose [agenda_url] is the base URL
    followed by the [href] and whose date is the clock reading of the
    moment; the week given to the parser does not change the record, and
    the scrape of a fetched page returns, in the order of the page, the
    record of every matching anchor, none left out. *)
Theorem C4_legistar_record_is_dated_now (H : host) (el : node) (cfg : source_config)
        (ws we : datetime) (t : nat) :
  tag_matches ["a"] "href" (Re.search_ci ["MeetingDetail"]) el = true ->
  exists href title,
    attr "href" el = Some href
    /\ trimmed (get_text el) title
    /\ _parse_legistar_meeting H el cfg ws we t
       = (ok (Some [ ("agency", VStr (name cfg));
                     ("date", VStr (isoformat (naive (clock H t))));
                     ("type", VStr "Regular Meeting");
                     ("agenda_url", VStr (base_url cfg ++ href)%string);
                     ("title", VStr title);
                     ("source", VStr "legistar") ]), S t)
    /\ (forall ws' we',
           _parse_legistar_meeting H el cfg ws' we' t
           = _parse_legistar_meeting H el cfg ws we t)
    /\ (forall soup t0 t1,
           fetch_soup H cfg t0 = (ok soup, t1) ->
           exists l,
             _scrape_legistar H cfg ws we t0 = (ok l, t1 + List.length l)
             /\ List.length l
                = List.length (find_all ["a"] "href" (Re.search_ci ["MeetingDetail"]) soup)
             /\ Forall2 (fun link rec =>
                           exists u,
                             t1 <= u < t1 + List.length l
                             /\ _parse_legistar_meeting H link cfg ws we u
                                = (ok (Some rec), S u))
                        (find_all ["a"] "href" (Re.search_ci ["MeetingDetail"]) soup) l).
Proof.
  intros Hm. destruct (tag_matches_has_attr _ _ _ _ Hm) as [href Hh].
  exists href, (strip (get_text el)). split; [exact Hh |].
  split; [apply strip_trimmed |].
  split; [apply parse_legistar_run; exact Hh |].
  split.
  - intros ws' we'. now rewrite !(parse_legistar_run H el cfg _ _ t href Hh).
  - intros soup t0 t1 Hfetch. unfold _scrape_legistar. rewrite Hfetch. unfold ok.
    destruct (collect_legistar_records H cfg ws we
                (find_all ["a"] "href" (Re.search_ci ["MeetingDetail"]) soup))
      with (acc := @nil dict) (t := t1) as (l & Hrun & Hall).
    + apply Forall_forall. intros link Hin. unfold find_all in Hin.
      apply filter_In in Hin. destruct Hin as [_ Hl].
      exact (tag_matches_has_attr _ _ _ _ Hl).
    + pose proof (Forall2_length Hall) as Hlen.
      exists l. rewrite <- Hlen. split; [exact Hrun |]. split; [reflexivity |].
      exact Hall.
Qed.

Lemma C4_witness :
  tag_matches ["a"] "href" (Re.search_ci ["MeetingDetail"]) Spaced.spaced_link = true
  /\ _parse_legistar_meeting
       (Spaced.spaced_host Examples.no_endpoint)
       Spaced.spaced_link Examples.council
       (naive (mkcivil 2025 3 10 0 0 0 0)) (naive (mkcivil 2025 3 16 0 0 0 0)) 0
     = (ok (Some [ ("agency", VStr "Bakersfield City Council");
                   ("date", VStr "2025-03-12T09:30:00");
                   ("type", VStr "Regular Meeting");
                   ("agenda_url",
                    VStr "https://bakersfield.legistar.com/meetingdetail.aspx?ID=123");
                   ("title", VStr "City Council Regular Meeting");
                   ("source", VStr "legistar") ]), 1)
  /\ exists l,
       _scrape_legistar (Spaced.spaced_host Examples.no_endpoint) Examples.council
         (naive (mkcivil 2025 3 10 0 0 0 0)) (naive (mkcivil 2025 3 16 0 0 0 0)) 0
       = (ok l, 4)
       /\ map (lookup "title") l
          = [ Some (VStr "City Council Regular Meeting");
              Some (VStr "Study Session");
              Some (VStr "City Council Regular Meeting") ]
       /\ map (lookup "date") l
          = [ Some (VStr "2025-03-12T09:30:01"); Some (VStr "2025-03-12T09:30:02");
              Some (VStr "2025-03-12T09:30:03") ].
Proof.
  assert (Hm : tag_matches ["a"] "href" (Re.search_ci ["MeetingDetail"])
                           Spaced.spaced_link = true) by reflexivity.
  split; [exact Hm |].
  destruct (C4_legistar_record_is_dated_now
              (Spaced.spaced_host Examples.no_endpoint)
              Spaced.spaced_link Examples.council
              (naive (mkcivil 2025 3 10 0 0 0 0)) (naive (mkcivil 2025 3 16 0 0 0 0)) 0 Hm)
    as (href & title & Hh & _ & Hrun & _ & Hscrape).
  split.
  - rewrite Hrun. vm_compute in Hrun. injection Hrun as <- <-. reflexivity.
  - destruct (Hscrape Spaced.spaced_page 0 1 eq_refl) as (l & Hl & _ & _).
    exists l. vm_compute in Hl. injection Hl as <-. repeat split.
Defined.

(** ** The records of the two parsers *)

(** C8 as stated fails: the record of the Legistar parser has a [title]
    and no [raw_content]. *)
Lemma C8_legistar_record_has_no_raw_content :
  _parse_legistar_meeting
    (Examples.host_at Examples.wednesday_morning Examples.all_up Examples.no_endpoint)
    Examples.council_link Examples.council
    (naive (mkcivil 2025 3 10 0 0 0 0)) (naive (mkcivil 2025 3 16 0 0 0 0)) 0
  = (ok (Some [ ("agency", VStr "Bakersfield City Council");
                ("date", VStr "2025-03-12T09:30:00");
                ("type", VStr "Regular Meeting");
                ("agenda_url",
                 VStr "https://bakersfield.legistar.com/MeetingDetail.aspx?ID=123");
                ("title", VStr "City Council Regular Meeting");
                ("source", VStr "legistar") ]), 1)
  /\ lookup "raw_content"
            [ ("agency", VStr "Bakersfield City Council");
              ("date", VStr "2025-03-12T09:30:00");
              ("type", VStr "Regular Meeting");
              ("agenda_url",
               VStr "https://bakersfield.legistar.com/MeetingDetail.aspx?ID=123");
              ("title", VStr "City Council Regular Meeting");
              ("source", VStr "legistar") ] = None.
Proof. split; vm_compute; reflexivity. Qed.

(** C8, amended: a record of the Granicus parser holds the agency, the
    parsed date as an ISO-8601 text (one that [fromisoformat] reads back),
    the type "Regular Meeting", an agenda URL that is a string or [None],
    the markup of the element as [raw_content] and the source tag
    "granicus"; a record of the Legistar parser holds the agency, the clock
    reading as an ISO-8601 text, the type "Regular Meeting", an agenda URL,
    a title and the source tag "legistar", and has no [raw_content]. *)
Theorem C8_fields_of_a_record (H : host) (el : node) (cfg : source_config)
        (ws we : datetime) (t t' : nat) (rec : dict) :
  (_parse_granicus_meeting H el cfg ws we t = (ok (Some rec), t') ->
   lookup "agency" rec = Some (VStr (name cfg))
   /\ (exists txt d,
          find_text Re.date_pattern_search el = Some txt
          /\ strptime_mdY (strip txt) = ok d
          /\ lookup "date" rec = Some (VStr (isoformat d))
          /\ fromisoformat (isoformat d) = ok d)
   /\ lookup "type" rec = Some (VStr "Regular Meeting")
   /\ (lookup "agenda_url" rec = Some VNone
       \/ exists h, lookup "agenda_url" rec = Some (VStr h))
   /\ lookup "raw_content" rec = Some (VStr (markup H el))
   /\ lookup "source" rec = Some (VStr "granicus"))
  /\ (_parse_legistar_meeting H el cfg ws we t = (ok (Some rec), t') ->
      lookup "agency" rec = Some (VStr (name cfg))
      /\ lookup "date" rec = Some (VStr (isoformat (naive (clock H t))))
      /\ (valid_date (year (clock H t)) (month (clock H t)) (day (clock H t)) = true ->
          valid_time (hour (clock H t)) (minute (clock H t)) (second (clock H t))
                     (microsecond (clock H t)) = true ->
          fromisoformat (isoformat (naive (clock H t))) = ok (naive (clock H t)))
      /\ lookup "type" rec = Some (VStr "Regular Meeting")
      /\ (exists h, attr "href" el = Some h
                    /\ lookup "agenda_url" rec = Some (VStr (base_url cfg ++ h)%string))
      /\ lookup "title" rec = Some (VStr (strip (get_text el)))
      /\ lookup "raw_content" rec = None
      /\ lookup "source" rec = Some (VStr "legistar")).
Proof.
  split.
  - unfold _parse_granicus_meeting, parse_granicus_body, rbind; unfold_host.
    destruct (find_text Re.date_pattern_search el) as [txt |];
      simpl; [| discriminate].
    destruct (strptime_mdY (strip txt)) as [e | d] eqn:Hparse; simpl; [discriminate |].
    pose proof (strptime_date_reads_back _ _ Hparse) as Hback.
    destruct (in_week ws d we) as [e | [|]]; simpl; try discriminate.
    destruct (find ["a"] "href" (Re.search_ci ["agenda"; "pdf"]) el) as [l |]; simpl.
    + unfold getattr, ok, raise.
      destruct (attr "href" l) as [h |]; simpl; [| discriminate].
      intros Hr. injection Hr as <- _.
      repeat split; try reflexivity.
      * exists txt, d. repeat split; assumption.
      * right. eexists; reflexivity.
    + intros Hr. injection Hr as <- _.
      repeat split; try reflexivity.
      * exists txt, d. repeat split; assumption.
      * now left.
  - unfold _parse_legistar_meeting, getattr; unfold_host.
    destruct (attr "href" el) as [h |]; simpl; [| discriminate].
    intros Hr. injection Hr as <- _.
    split; [reflexivity |]. split; [reflexivity |].
    split; [apply fromisoformat_isoformat |].
    repeat split; try reflexivity.
    exists h. split; reflexivity.
Qed.

Lemma C8_witness :
  (exists t',
      _parse_granicus_meeting
        (Examples.host_at Examples.wednesday_morning Examples.all_up Examples.no_endpoint)
        Examples.supervisors_row Examples.supervisors
        (naive (mkcivil 2025 3 10 0 0 0 0)) (naive (mkcivil 2025 3 16 0 0 0 0)) 0
      = (ok (Some [ ("agency", VStr "Kern County Board of Supervisors");
                    ("date", VStr "2025-03-15T00:00:00");
                    ("type", VStr "Regular Meeting");
                    ("agenda_url", VStr "/AgendaViewer.php?clip_id=7");
                    ("raw_content", VStr (Examples.render Examples.supervisors_row));
                    ("source", VStr "granicus") ]), t'))
  /\ lookup "raw_content"
            [ ("agency", VStr "Kern County Board of Supervisors");
              ("date", VStr "2025-03-15T00:00:00");
              ("type", VStr "Regular Meeting");
              ("agenda_url", VStr "/AgendaViewer.php?clip_id=7");
              ("raw_content", VStr (Examples.render Examples.supervisors_row));
              ("source", VStr "granicus") ]
     = Some (VStr (Examples.render Examples.supervisors_row)).
Proof.
  assert (Hrun :
            _parse_granicus_meeting
              (Examples.host_at Examples.wednesday_morning Examples.all_up
                                Examples.no_endpoint)
              Examples.supervisors_row Examples.supervisors
              (naive (mkcivil 2025 3 10 0 0 0 0)) (naive (mkcivil 2025 3 16 0 0 0 0)) 0
            = (ok (Some [ ("agency", VStr "Kern County Board of Supervisors");
                          ("date", VStr "2025-03-15T00:00:00");
                          ("type", VStr "Regular Meeting");
                          ("agenda_url", VStr "/AgendaViewer.php?clip_id=7");
                          ("raw_content", VStr (Examples.render Examples.supervisors_row));
                          ("source", VStr "granicus") ]), 0))
    by reflexivity.
  split; [exists 0; exact Hrun |].
  exact (proj1 (proj2 (proj2 (proj2 (proj2
           (proj1 (C8_fields_of_a_record _ _ _ _ _ _ _ _) Hrun)))))).
Defined.

(** ** The aggregator *)

Lemma collect_total (parse : node -> M (option dict)) (rows : list node) :
  forall acc t, exists l t', collect parse rows acc t = (ok l, t').
Proof.
  induction rows as [| row rows IH]; intros acc t; cbn [collect].
  - eexists _, _; reflexivity.
  - destruct (parse row t) as [[e | m] t1]; [eexists _, _; reflexivity |].
    apply IH.
Qed.

(** Scraping one source never raises. *)
Lemma scrape_source_total (H : host) (key : string) (cfg : source_config)
      (ws we : datetime) (t : nat) :
  exists l t', _scrape_source H key cfg ws we t = (ok l, t').
Proof.
  unfold _scrape_source, _scrape_granicus, _scrape_legistar.
  destruct (contains "granicus" (base_url cfg)).
  - destruct (fetch_soup H cfg t) as [[e | soup] t1];
      [eexists _, _; reflexivity | apply collect_total].
  - destruct (contains "legistar" (base_url cfg)).
    + destruct (fetch_soup H cfg t) as [[e | soup] t1];
        [eexists _, _; reflexivity | apply collect_total].
    + eexists _, _; reflexivity.
Qed.

(** A source whose page cannot be fetched yields nothing. *)
Lemma scrape_source_failed_fetch (H : host) (key : string) (cfg : source_config)
      (ws we : datetime) (t t1 : nat) (e : exn) :
  contains "granicus" (base_url cfg) || contains "legistar" (base_url cfg) = true ->
  fetch_soup H cfg t = (inl e, t1) ->
  _scrape_source H key cfg ws we t = (ok [], t1).
Proof.
  intros Hkind Hfetch. unfold _scrape_source, _scrape_granicus, _scrape_legistar.
  destruct (contains "granicus" (base_url cfg)); [now rewrite Hfetch |].
  destruct (contains "legistar" (base_url cfg)); [now rewrite Hfetch | discriminate].
Qed.

(** The loop over the sources appends what each source yields. *)
Lemma scrape_each_run (H : host) (ws we : datetime)
      (srcs : list (string * source_config)) :
  forall t, exists t', forall acc,
    scrape_each H srcs ws we acc t
    = (ok (acc ++ List.concat (source_yields H srcs ws we t)), t').
Proof.
  induction srcs as [| [key cfg] rest IH]; intros t; cbn [scrape_each source_yields].
  - exists t. intros acc. simpl. now rewrite app_nil_r.
  - destruct (scrape_source_total H key cfg ws we t) as (ms & t1 & Hs).
    rewrite Hs. unfold ok. destruct (IH t1) as [t' Hrest].
    exists t'. intros acc. rewrite Hrest. simpl. now rewrite app_assoc.
Qed.

Lemma scrape_each_app (H : host) (ws we : datetime)
      (s1 s2 : list (string * source_config)) :
  forall acc t l1 t1,
    scrape_each H s1 ws we acc t = (ok l1, t1) ->
    scrape_each H (s1 ++ s2) ws we acc t = scrape_each H s2 ws we l1 t1.
Proof.
  induction s1 as [| [key cfg] rest IH]; intros acc t l1 t1; simpl.
  - intros Hr. injection Hr as <- <-. reflexivity.
  - destruct (_scrape_source H key cfg ws we t) as [[e | ms] t0]; apply IH.
Qed.

(** C5: the aggregator never raises and returns, in order, what each
    source yields, so that the length of its result is the sum of the
    yields; a source whose fetch or page parse raises yields nothing, and
    the sources before and after it contribute what they contribute on
    their own. *)
Theorem C5_failed_source_contributes_nothing (H : host) (ws we : datetime)
        (before after : list (string * source_config))
        (key : string) (cfg : source_config) (t t1 t2 : nat)
        (l1 : list dict) (e : exn) :
  contains "granicus" (base_url cfg) || contains "legistar" (base_url cfg) = true ->
  scrape_weekly_meetings H before ws we t = (ok l1, t1) ->
  fetch_soup H cfg t1 = (inl e, t2) ->
  (forall srcs u, exists l u',
      scrape_weekly_meetings H srcs ws we u = (ok l, u')
      /\ l = List.concat (source_yields H srcs ws we u)
      /\ List.length l
         = list_sum (map (@List.length dict) (source_yields H srcs ws we u)))
  /\ _scrape_source H key cfg ws we t1 = (ok [], t2)
  /\ exists l3 t3,
       scrape_weekly_meetings H after ws we t2 = (ok l3, t3)
       /\ scrape_weekly_meetings H (before ++ (key, cfg) :: after) ws we t
          = (ok (l1 ++ l3), t3)
       /\ List.length (l1 ++ l3) = List.length l1 + List.length l3.
Proof.
  intros Hkind Hbefore Hfetch. unfold scrape_weekly_meetings in *.
  split; [| split].
  - intros srcs u. destruct (scrape_each_run H ws we srcs u) as [u' Hrun].
    exists (List.concat (source_yields H srcs ws we u)), u'.
    split; [apply (Hrun []) |]. split; [reflexivity | apply length_concat].
  - exact (scrape_source_failed_fetch H key cfg ws we t1 t2 e Hkind Hfetch).
  - destruct (scrape_each_run H ws we after t2) as [t3 Hafter].
    exists (List.concat (source_yields H after ws we t2)), t3.
    split; [apply (Hafter []) |]. split; [| apply length_app].
    rewrite (scrape_each_app H ws we before _ [] t l1 t1 Hbefore).
    cbn [scrape_each].
    rewrite (scrape_source_failed_fetch H key cfg ws we t1 t2 e Hkind Hfetch).
    unfold ok. rewrite app_nil_r. apply Hafter.
Qed.

Lemma C5_witness :
  contains "granicus" (base_url Examples.council)
  || contains "legistar" (base_url Examples.council) = true
  /\ fetch_soup
       (Examples.host_at Examples.wednesday_morning Examples.legistar_down
                         Examples.no_endpoint)
       Examples.council 1 = (inl ConnectionError, 2)
  /\ exists l1 l3 t3,
       scrape_weekly_meetings
         (Examples.host_at Examples.wednesday_morning Examples.legistar_down
                           Examples.no_endpoint)
         [("county_supervisors", Examples.supervisors)]
         (naive (mkcivil 2025 3 10 0 0 0 0)) (naive (mkcivil 2025 3 16 0 0 0 0)) 0
       = (ok l1, 1)
       /\ scrape_weekly_meetings
            (Examples.host_at Examples.wednesday_morning Examples.legistar_down
                              Examples.no_endpoint)
            sources
            (naive (mkcivil 2025 3 10 0 0 0 0)) (naive (mkcivil 2025 3 16 0 0 0 0)) 0
          = (ok (l1 ++ l3), t3)
       /\ List.length l1 = 1
       /\ List.length (l1 ++ l3) = List.length l1 + List.length l3.
Proof.
  split; [reflexivity |]. split; [reflexivity |].
  destruct (C5_failed_source_contributes_nothing
              (Examples.host_at Examples.wednesday_morning Examples.legistar_down
                                Examples.no_endpoint)
              (naive (mkcivil 2025 3 10 0 0 0 0)) (naive (mkcivil 2025 3 16 0 0 0 0))
              [("county_supervisors", Examples.supervisors)]
              [("planning_commission",
                mkconfig "https://kernco.granicus.com" "/ViewPublished.php?view_id=3"
                         "Kern County Planning Commission")]
              "bakersfield_council" Examples.council 0 1 2 _ ConnectionError
              eq_refl eq_refl eq_refl)
    as (_ & _ & l3 & t3 & Hafter & Hwhole & Hlen).
  eexists _, l3, t3. split; [reflexivity |]. split; [exact Hwhole |].
  split; [reflexivity | exact Hlen].
Defined.

(** * Further properties of the scraper and the processor *)

(** ** What a scrape returns *)

(** The collecting loop keeps an invariant of the records it appends and
    appends at most one record per row. *)
Lemma collect_invariant (P : dict -> Prop) (parse : node -> M (option dict))
      (rows : list node) :
  (forall row t r t', In row rows -> parse row t = (ok (Some r), t') -> P r) ->
  forall acc t l t',
    Forall P acc ->
    collect parse rows acc t = (ok l, t') ->
    Forall P l /\ List.length l <= List.length acc + List.length rows.
Proof.
  induction rows as [| row rows IH]; intros Hparse acc t l t' Hacc; cbn [collect].
  - unfold ret. intros Hr. injection Hr as <- _. split; [assumption | simpl; lia].
  - destruct (parse row t) as [[e | m] t1] eqn:Hrow.
    + intros Hr. injection Hr as <- _. split; [assumption | simpl; lia].
    + intros Hrun. apply IH in Hrun.
      * destruct Hrun as [Hall Hlen]. split; [exact Hall |].
        destruct m as [[| kv d] |]; cbn [truthy_dict] in Hlen;
          rewrite ?length_app in Hlen; simpl in *; lia.
      * intros row' u r u' Hin. apply Hparse. now right.
      * destruct m as [[| kv d] |]; cbn [truthy_dict]; try assumption.
        apply Forall_app. split; [assumption |].
        constructor; [| constructor].
        apply (Hparse row t _ t1); [now left | exact Hrow].
Qed.

(** A record of the Granicus parser, made for a window without offsets,
    carries a date at midnight that lies within the window. *)
Lemma granicus_record_inside (H : host) (el : node) (cfg : source_config)
      (ws we : civil) (t t' : nat) (rec : dict) :
  _parse_granicus_meeting H el cfg (naive ws) (naive we) t = (ok (Some rec), t') ->
  exists d,
    lookup "date" rec = Some (VStr (isoformat (naive d)))
    /\ valid_date (year d) (month d) (day d) = true
    /\ (hour d, minute d, second d, microsecond d) = (0, 0, 0, 0)%Z
    /\ ~ later ws d /\ ~ later d we
    /\ lookup "agency" rec = Some (VStr (name cfg))
    /\ lookup "source" rec = Some (VStr "granicus").
Proof.
  unfold _parse_granicus_meeting, parse_granicus_body, rbind; unfold_host.
  destruct (find_text Re.date_pattern_search el) as [txt |];
    simpl; [| discriminate].
  destruct (strptime_mdY (strip txt)) as [e | d] eqn:Hparse; simpl; [discriminate |].
  destruct (strptime_is_valid _ _ Hparse) as (Hn & Hvd & _).
  destruct (strptime_is_naive_midnight _ _ Hparse) as (_ & Hh & Hm & Hs & Hu).
  rewrite (in_week_of_naive ws we d Hn). unfold ok.
  destruct (not_after ws (wall d)) eqn:Hws; simpl; [| discriminate].
  destruct (not_after (wall d) we) eqn:Hwe; simpl; [| discriminate].
  apply not_after_true_iff in Hws. apply not_after_true_iff in Hwe.
  destruct d as [c o]. simpl in *. subst o.
  assert (Hrec : forall url,
             let rec0 := [ ("agency", VStr (name cfg));
                           ("date", VStr (isoformat (naive c)));
                           ("type", VStr "Regular Meeting");
                           ("agenda_url", url);
                           ("raw_content", VStr (markup H el));
                           ("source", VStr "granicus") ] in
             exists d,
               lookup "date" rec0 = Some (VStr (isoformat (naive d)))
               /\ valid_date (year d) (month d) (day d) = true
               /\ (hour d, minute d, second d, microsecond d) = (0, 0, 0, 0)%Z
               /\ ~ later ws d /\ ~ later d we
               /\ lookup "agency" rec0 = Some (VStr (name cfg))
               /\ lookup "source" rec0 = Some (VStr "granicus")).
  { intros url. exists c. rewrite Hh, Hm, Hs, Hu. repeat split; assumption. }
  destruct (find ["a"] "href" (Re.search_ci ["agenda"; "pdf"]) el) as [l |]; simpl.
  - unfold getattr, ok, raise.
    destruct (attr "href" l) as [h |]; simpl; [| discriminate].
    intros Hr. injection Hr as <- _. apply Hrec.
  - intros Hr. injection Hr as <- _. apply Hrec.
Qed.

(** X1: every record a Granicus scrape returns names the scraped agency,
    is tagged "granicus" and is dated, at midnight, on a valid day within
    the window; there are no more records than rows that match the row
    selector. *)
Theorem granicus_scrape_stays_in_window (H : host) (cfg : source_config)
        (ws we : civil) (t t' : nat) (l : list dict) :
  _scrape_granicus H cfg (naive ws) (naive we) t = (ok l, t') ->
  Forall (fun rec =>
            exists d,
              lookup "date" rec = Some (VStr (isoformat (naive d)))
              /\ valid_date (year d) (month d) (day d) = true
              /\ (hour d, minute d, second d, microsecond d) = (0, 0, 0, 0)%Z
              /\ ~ later ws d /\ ~ later d we
              /\ lookup "agency" rec = Some (VStr (name cfg))
              /\ lookup "source" rec = Some (VStr "granicus")) l
  /\ forall soup t1,
       fetch_soup H cfg t = (ok soup, t1) ->
       List.length l
       <= List.length (find_all ["tr"; "div"] "class"
                                (Re.search_ci ["meeting"; "agenda"]) soup).
Proof.
  unfold _scrape_granicus. intros Hrun.
  destruct (fetch_soup H cfg t) as [[e | soup] t1] eqn:Hfetch.
  - injection Hrun as <- _. split; [constructor | discriminate].
  - apply collect_invariant
      with (P := fun rec =>
                   exists d,
                     lookup "date" rec = Some (VStr (isoformat (naive d)))
                     /\ valid_date (year d) (month d) (day d) = true
                     /\ (hour d, minute d, second d, microsecond d) = (0, 0, 0, 0)%Z
                     /\ ~ later ws d /\ ~ later d we
                     /\ lookup "agency" rec = Some (VStr (name cfg))
                     /\ lookup "source" rec = Some (VStr "granicus")) in Hrun.
    + destruct Hrun as [Hall Hlen]. split; [exact Hall |].
      intros soup' t1' Heq. injection Heq as <- _. simpl in Hlen. exact Hlen.
    + intros row u r u' _ Hrow. exact (granicus_record_inside _ _ _ _ _ _ _ _ Hrow).
    + constructor.
Qed.

Lemma granicus_scrape_stays_in_window_witness :
  exists l,
    _scrape_granicus Fixtures.mixed_host Examples.supervisors
      (naive (mkcivil 2025 3 10 0 0 0 0)) (naive (mkcivil 2025 3 16 0 0 0 0)) 0
    = (ok l, 1)
    /\ map (lookup "date") l = [Some (VStr "2025-03-15T00:00:00")]
    /\ Forall (fun rec =>
                 exists d,
                   lookup "date" rec = Some (VStr (isoformat (naive d)))
                   /\ valid_date (year d) (month d) (day d) = true
                   /\ (hour d, minute d, second d, microsecond d) = (0, 0, 0, 0)%Z
                   /\ ~ later (mkcivil 2025 3 10 0 0 0 0) d
                   /\ ~ later d (mkcivil 2025 3 16 0 0 0 0)
                   /\ lookup "agency" rec = Some (VStr (name Examples.supervisors))
                   /\ lookup "source" rec = Some (VStr "granicus")) l.
Proof.
  eexists. split; [vm_compute; reflexivity |]. split; [reflexivity |].
  refine (proj1 (granicus_scrape_stays_in_window Fixtures.mixed_host Examples.supervisors
                   (mkcivil 2025 3 10 0 0 0 0) (mkcivil 2025 3 16 0 0 0 0) 0 1 _ _)).
  vm_compute. reflexivity.
Defined.

(** X2: a page answered with an error status, from 400 to 599, yields no
    record for either kind of site, after exactly one request: nothing is
    tried again. *)
Theorem error_status_yields_nothing (H : host) (cfg : source_config)
        (ws we : datetime) (t : nat) (r : response) :
  http_get H t (base_url cfg ++ meetings_path cfg)%string = ok r ->
  (400 <= status_code r < 600)%Z ->
  fetch_soup H cfg t = (raise HTTPError, S t)
  /\ _scrape_granicus H cfg ws we t = (ok [], S t)
  /\ _scrape_legistar H cfg ws we t = (ok [], S t).
Proof.
  intros Hget Hstatus.
  assert (Hfetch : fetch_soup H cfg t = (raise HTTPError, S t)).
  { unfold fetch_soup, raise_for_status; unfold_host. unfold ok in Hget.
    rewrite Hget.
    replace ((400 <=? status_code r)%Z && (status_code r <? 600)%Z) with true;
      [reflexivity |].
    symmetry. apply andb_true_iff. split; [apply Z.leb_le | apply Z.ltb_lt]; lia. }
  split; [exact Hfetch |].
  unfold _scrape_granicus, _scrape_legistar. rewrite Hfetch. split; reflexivity.
Qed.

Lemma error_status_yields_nothing_witness :
  http_get (Examples.host_at Examples.wednesday_morning (Fixtures.answering 503)
                             Examples.no_endpoint)
           0 (base_url Examples.supervisors ++ meetings_path Examples.supervisors)%string
  = ok (mkresponse 503 "supervisors")
  /\ (400 <= 503 < 600)%Z
  /\ _scrape_granicus
       (Examples.host_at Examples.wednesday_morning (Fixtures.answering 503)
                         Examples.no_endpoint)
       Examples.supervisors
       (naive (mkcivil 2025 3 10 0 0 0 0)) (naive (mkcivil 2025 3 16 0 0 0 0)) 0
     = (ok [], 1).
Proof.
  split; [reflexivity |]. split; [lia |].
  refine (proj1 (proj2 (error_status_yields_nothing
                          (Examples.host_at Examples.wednesday_morning
                                            (Fixtures.answering 503) Examples.no_endpoint)
                          Examples.supervisors _ _ 0 (mkresponse 503 "supervisors")
                          eq_refl _))).
  simpl. lia.
Defined.

(** ** From the parsers to the classifier *)

(** A timestamp written by [isoformat] has no [Z] to rewrite. *)
Lemma isoformat_has_no_marker (c : civil) :
  replace_char "Z" "+00:00" (isoformat (naive c)) = isoformat (naive c).
Proof.
  unfold isoformat.
  cbn [wall naive utcoffset year month day hour minute second microsecond].
  destruct (microsecond c =? 0)%Z; cbn [zpad append];
    repeat first
      [ rewrite replace_digit by reflexivity
      | rewrite replace_other by reflexivity ];
    reflexivity.
Qed.

(** A meeting whose date is a valid timestamp written by [isoformat] is
    upcoming exactly when that timestamp is later than the reading. *)
Lemma written_date_upcoming_iff (c reading : civil) (m : dict) :
  valid_date (year c) (month c) (day c) = true ->
  valid_time (hour c) (minute c) (second c) (microsecond c) = true ->
  lookup "date" m = Some (VStr (isoformat (naive c))) ->
  parsed_date m = Some (naive c)
  /\ (upcoming_at reading m = true <-> later c reading).
Proof.
  intros Hd Ht Hm.
  assert (Hp : parsed_date m = Some (naive c)).
  { unfold parsed_date, date_text, getitem. rewrite Hm. unfold rbind, ok.
    now rewrite isoformat_has_no_marker, (fromisoformat_isoformat c Hd Ht). }
  split; [exact Hp |].
  exact (naive_date_upcoming_iff reading m (naive c) Hp eq_refl).
Qed.

Lemma midnight_is_a_valid_time : valid_time 0 0 0 0 = true.
Proof. reflexivity. Qed.

(** X3: the classifier reads back the date the Granicus parser wrote: a
    Granicus record is upcoming exactly when its day, at midnight, is later
    than the clock reading, so that a meeting of the day of the run is
    already classified as past. *)
Theorem granicus_record_is_classified_by_its_day (H : host) (el : node)
        (cfg : source_config) (ws we : civil) (t t' u : nat) (rec : dict) :
  _parse_granicus_meeting H el cfg (naive ws) (naive we) t = (ok (Some rec), t') ->
  exists d,
    lookup "date" rec = Some (VStr (isoformat (naive d)))
    /\ (hour d, minute d, second d, microsecond d) = (0, 0, 0, 0)%Z
    /\ _is_upcoming H rec u = (ok (upcoming_at (clock H u) rec), S u)
    /\ (upcoming_at (clock H u) rec = true <-> later d (clock H u))
    /\ ((year d, month d, day d)
        = (year (clock H u), month (clock H u), day (clock H u)) ->
        valid_time (hour (clock H u)) (minute (clock H u)) (second (clock H u))
                   (microsecond (clock H u)) = true ->
        upcoming_at (clock H u) rec = false).
Proof.
  intros Hrec.
  destruct (granicus_record_inside _ _ _ _ _ _ _ _ Hrec)
    as (d & Hdate & Hvd & Hmid & _).
  injection Hmid as Hh Hm Hs Hu.
  assert (Hvt : valid_time (hour d) (minute d) (second d) (microsecond d) = true)
    by (rewrite Hh, Hm, Hs, Hu; reflexivity).
  destruct (written_date_upcoming_iff d (clock H u) rec Hvd Hvt Hdate) as [Hp Hiff].
  exists d. split; [exact Hdate |]. split; [now rewrite Hh, Hm, Hs, Hu |].
  split; [rewrite is_upcoming_run, Hp; reflexivity |].
  split; [exact Hiff |].
  intros Hday Hvalid.
  destruct (upcoming_at (clock H u) rec) eqn:Hup; [| reflexivity].
  exfalso. pose proof (proj1 Hiff eq_refl) as Hlater. revert Hlater.
  injection Hday as Ey Em Ed. apply valid_time_bounds in Hvalid.
  unfold later, fields, lex. rewrite Ey, Em, Ed, Hh, Hm, Hs, Hu, !Z.compare_refl.
  destruct (Z.compare_spec 0 (hour (clock H u))); try discriminate; try lia.
  destruct (Z.compare_spec 0 (minute (clock H u))); try discriminate; try lia.
  destruct (Z.compare_spec 0 (second (clock H u))); try discriminate; try lia.
  destruct (Z.compare_spec 0 (microsecond (clock H u))); try discriminate; lia.
Qed.

Lemma granicus_record_is_classified_by_its_day_witness :
  exists rec,
    _parse_granicus_meeting
      (Examples.host_at (mkcivil 2025 3 15 9 30 0 0) Examples.all_up Examples.no_endpoint)
      Examples.supervisors_row Examples.supervisors
      (naive (mkcivil 2025 3 10 0 0 0 0)) (naive (mkcivil 2025 3 16 0 0 0 0)) 0
    = (ok (Some rec), 0)
    /\ lookup "date" rec = Some (VStr "2025-03-15T00:00:00")
    /\ _is_upcoming
         (Examples.host_at (mkcivil 2025 3 15 9 30 0 0) Examples.all_up Examples.no_endpoint)
         rec 0 = (ok false, 1).
Proof.
  eexists. split; [reflexivity |]. split; [reflexivity |].
  destruct (granicus_record_is_classified_by_its_day
              (Examples.host_at (mkcivil 2025 3 15 9 30 0 0) Examples.all_up
                                Examples.no_endpoint)
              Examples.supervisors_row Examples.supervisors
              (mkcivil 2025 3 10 0 0 0 0) (mkcivil 2025 3 16 0 0 0 0) 0 0 0 _ eq_refl)
    as (d & _ & _ & Hrun & _ & _).
  rewrite Hrun. reflexivity.
Defined.

(** X4: a Legistar record is dated with the clock reading of its parse,
    so that it is never upcoming at a reading that is not earlier: every
    Legistar meeting is classified among the recent ones. *)
Theorem legistar_record_is_never_upcoming (H : host) (el : node)
        (cfg : source_config) (ws we : datetime) (t t' u : nat) (rec : dict) :
  _parse_legistar_meeting H el cfg ws we t = (ok (Some rec), t') ->
  valid_date (year (clock H t)) (month (clock H t)) (day (clock H t)) = true ->
  valid_time (hour (clock H t)) (minute (clock H t)) (second (clock H t))
             (microsecond (clock H t)) = true ->
  ~ later (clock H t) (clock H u) ->
  _is_upcoming H rec u = (ok false, S u).
Proof.
  intros Hrec Hvd Hvt Hclock.
  assert (Hdate : lookup "date" rec = Some (VStr (isoformat (naive (clock H t))))).
  { revert Hrec. unfold _parse_legistar_meeting, getattr; unfold_host.
    destruct (attr "href" el) as [h |]; simpl; [| discriminate].
    intros Hr. injection Hr as <- _. reflexivity. }
  destruct (written_date_upcoming_iff (clock H t) (clock H u) rec Hvd Hvt Hdate)
    as [Hp Hiff].
  rewrite is_upcoming_run, Hp.
  destruct (upcoming_at (clock H u) rec) eqn:Hup; [| reflexivity].
  exfalso. apply Hclock. exact (proj1 Hiff eq_refl).
Qed.

Lemma legistar_record_is_never_upcoming_witness :
  exists rec,
    _parse_legistar_meeting Examples.ticking_host Examples.council_link Examples.council
      (naive (mkcivil 2025 3 10 0 0 0 0)) (naive (mkcivil 2025 3 16 0 0 0 0)) 0
    = (ok (Some rec), 1)
    /\ ~ later (clock Examples.ticking_host 0) (clock Examples.ticking_host 5)
    /\ _is_upcoming Examples.ticking_host rec 5 = (ok false, 6).
Proof.
  assert (Hclock : ~ later (clock Examples.ticking_host 0) (clock Examples.ticking_host 5))
    by (unfold later; vm_compute; discriminate).
  eexists. split; [reflexivity |]. split; [exact Hclock |].
  exact (legistar_record_is_never_upcoming Examples.ticking_host Examples.council_link
           Examples.council
           (naive (mkcivil 2025 3 10 0 0 0 0)) (naive (mkcivil 2025 3 16 0 0 0 0))
           0 1 5 _ eq_refl eq_refl eq_refl Hclock).
Defined.

(** ** The entries of the bundle *)

Lemma agenda_prompt_total (m : dict) (a d : value) :
  lookup "agency" m = Some a -> lookup "date" m = Some d ->
  exists p, agenda_prompt m = ok p.
Proof.
  intros Ha Hd. unfold agenda_prompt, getitem. rewrite Ha, Hd. simpl.
  eexists; reflexivity.
Qed.

Lemma minutes_prompt_total (m : dict) (a d : value) :
  lookup "agency" m = Some a -> lookup "date" m = Some d ->
  exists p, minutes_prompt m = ok p.
Proof.
  intros Ha Hd. unfold minutes_prompt, getitem. rewrite Ha, Hd. simpl.
  eexists; reflexivity.
Qed.

(** With both keys present, an entry is built in one call and carries
    what the meeting carries. *)
Lemma upcoming_entry_run (H : host) (m : dict) (a d : value) (t : nat) :
  lookup "agency" m = Some a -> lookup "date" m = Some d ->
  exists s,
    upcoming_entry H m t
    = (ok [ ("agency", a); ("date", d);
            ("type", get m "type" (VStr "Regular Meeting"));
            ("summary", VStr s);
            ("agenda_url", get m "agenda_url" VNone) ], S t).
Proof.
  intros Ha Hd. destruct (agenda_prompt_total m a d Ha Hd) as [p Hp].
  unfold upcoming_entry, _summarize_agenda, getitem. rewrite Hp, Ha, Hd.
  unfold_host.
  match goal with
  | |- context [chat H t ?r] => destruct (chat H t r) as [e | choices]
  end; [eexists; reflexivity |].
  destruct (first_content choices); eexists; reflexivity.
Qed.

Lemma recent_entry_run (H : host) (m : dict) (a d : value) (t : nat) :
  lookup "agency" m = Some a -> lookup "date" m = Some d ->
  exists s,
    recent_entry H m t
    = (ok [ ("agency", a); ("date", d);
            ("type", get m "type" (VStr "Regular Meeting"));
            ("summary", VStr s) ], S t).
Proof.
  intros Ha Hd. destruct (minutes_prompt_total m a d Ha Hd) as [p Hp].
  unfold recent_entry, _summarize_minutes, getitem. rewrite Hp, Ha, Hd.
  unfold_host.
  match goal with
  | |- context [chat H t ?r] => destruct (chat H t r) as [e | choices]
  end; [eexists; reflexivity |].
  destruct (first_content choices); eexists; reflexivity.
Qed.

(** When every entry is built in one call, the loop returns one entry per
    meeting, in the order of the meetings. *)
Lemma process_each_in_step (Q : dict -> dict -> Prop) (entry : dict -> M dict)
      (ms : list dict) :
  (forall m, In m ms -> forall t, exists e, entry m t = (ok e, S t) /\ Q m e) ->
  forall acc t, exists l,
    process_each entry ms acc t = (ok (acc ++ l), t + List.length ms)
    /\ Forall2 Q ms l.
Proof.
  induction ms as [| m ms IH]; intros Hentry acc t; cbn [process_each List.length].
  - exists []. rewrite app_nil_r, Nat.add_0_r. split; [reflexivity | constructor].
  - destruct (Hentry m (or_introl eq_refl) t) as (e & He & Hq). rewrite He.
    unfold ok at 1.
    destruct (IH (fun m' Hin => Hentry m' (or_intror Hin)) (acc ++ [e]) (S t))
      as (l & Hrun & Hall).
    exists (e :: l). split; [| now constructor].
    etransitivity; [exact Hrun |]. rewrite <- app_assoc. simpl. f_equal. lia.
Qed.

(** X5: when every meeting has the [agency] and [date] keys, the entries
    of the upcoming meetings follow the meetings one for one and in order,
    after one call each; an entry has exactly the keys agency, date, type,
    summary and agenda_url: it repeats the agency and the date, takes
    "Regular Meeting" for a missing type and [None] for a missing agenda
    URL, and leaves the raw content and the source tag behind. *)
Theorem upcoming_entries_follow_the_meetings (H : host) (ms : list dict) (t : nat) :
  Forall (fun m => lookup "agency" m <> None /\ lookup "date" m <> None) ms ->
  exists l,
    _process_upcoming_meetings H ms t = (ok l, t + List.length ms)
    /\ Forall2 (fun m e =>
                  map fst e = ["agency"; "date"; "type"; "summary"; "agenda_url"]%string
                  /\ lookup "agency" e = lookup "agency" m
                  /\ lookup "date" e = lookup "date" m
                  /\ lookup "type" e = Some (get m "type" (VStr "Regular Meeting"))
                  /\ lookup "agenda_url" e = Some (get m "agenda_url" VNone)
                  /\ exists s, lookup "summary" e = Some (VStr s)) ms l.
Proof.
  intros Hms. unfold _process_upcoming_meetings.
  destruct (process_each_in_step
              (fun m e =>
                 map fst e = ["agency"; "date"; "type"; "summary"; "agenda_url"]%string
                 /\ lookup "agency" e = lookup "agency" m
                 /\ lookup "date" e = lookup "date" m
                 /\ lookup "type" e = Some (get m "type" (VStr "Regular Meeting"))
                 /\ lookup "agenda_url" e = Some (get m "agenda_url" VNone)
                 /\ exists s, lookup "summary" e = Some (VStr s))
              (upcoming_entry H) ms) with (acc := @nil dict) (t := t)
    as (l & Hrun & Hall).
  - intros m Hin u. rewrite Forall_forall in Hms. destruct (Hms m Hin) as [Ha Hd].
    destruct (lookup "agency" m) as [a |] eqn:Ea; [| congruence].
    destruct (lookup "date" m) as [d |] eqn:Ed; [| congruence].
    destruct (upcoming_entry_run H m a d u Ea Ed) as [s Hs].
    eexists. split; [exact Hs |].
    repeat split. eexists; reflexivity.
  - exists l. split; [exact Hrun | exact Hall].
Qed.

Lemma upcoming_entries_follow_the_meetings_witness :
  Forall (fun m => lookup "agency" m <> None /\ lookup "date" m <> None)
         [ Examples.meeting_on "2099-01-01T00:00:00";
           [("date", VStr "2099-02-01T00:00:00"); ("agency", VStr "Planning")] ]
  /\ exists l,
       _process_upcoming_meetings
         (Examples.host_at Examples.wednesday_morning Examples.no_network
                           (Examples.replies " Budget vote on Tuesday. "))
         [ Examples.meeting_on "2099-01-01T00:00:00";
           [("date", VStr "2099-02-01T00:00:00"); ("agency", VStr "Planning")] ] 0
       = (ok l, 2)
       /\ map (lookup "type") l
          = [Some (VStr "Regular Meeting"); Some (VStr "Regular Meeting")]
       /\ map (lookup "summary") l
          = [Some (VStr "Budget vote on Tuesday."); Some (VStr "Budget vote on Tuesday.")].
Proof.
  assert (Hms : Forall (fun m => lookup "agency" m <> None /\ lookup "date" m <> None)
                  [ Examples.meeting_on "2099-01-01T00:00:00";
                    [("date", VStr "2099-02-01T00:00:00"); ("agency", VStr "Planning")] ]).
  { repeat constructor; discriminate. }
  split; [exact Hms |].
  destruct (upcoming_entries_follow_the_meetings
              (Examples.host_at Examples.wednesday_morning Examples.no_network
                                (Examples.replies " Budget vote on Tuesday. "))
              _ 0 Hms) as (l & Hrun & _).
  exists l. split; [exact Hrun |].
  revert Hrun. vm_compute. intros Hrun. injection Hrun as <-. split; reflexivity.
Defined.

(** X6: the entries of the recent meetings likewise follow the meetings
    one for one and in order; an entry has exactly the keys agency, date,
    type and summary, so that the agenda URL of the meeting is never
    carried over. *)
Theorem recent_entries_carry_no_agenda_url (H : host) (ms : list dict) (t : nat) :
  Forall (fun m => lookup "agency" m <> None /\ lookup "date" m <> None) ms ->
  exists l,
    _process_recent_meetings H ms t = (ok l, t + List.length ms)
    /\ Forall2 (fun m e =>
                  map fst e = ["agency"; "date"; "type"; "summary"]%string
                  /\ lookup "agency" e = lookup "agency" m
                  /\ lookup "date" e = lookup "date" m
                  /\ lookup "type" e = Some (get m "type" (VStr "Regular Meeting"))
                  /\ lookup "agenda_url" e = None
                  /\ exists s, lookup "summary" e = Some (VStr s)) ms l.
Proof.
  intros Hms. unfold _process_recent_meetings.
  destruct (process_each_in_step
              (fun m e =>
                 map fst e = ["agency"; "date"; "type"; "summary"]%string
                 /\ lookup "agency" e = lookup "agency" m
                 /\ lookup "date" e = lookup "date" m
                 /\ lookup "type" e = Some (get m "type" (VStr "Regular Meeting"))
                 /\ lookup "agenda_url" e = None
                 /\ exists s, lookup "summary" e = Some (VStr s))
              (recent_entry H) ms) with (acc := @nil dict) (t := t)
    as (l & Hrun & Hall).
  - intros m Hin u. rewrite Forall_forall in Hms. destruct (Hms m Hin) as [Ha Hd].
    destruct (lookup "agency" m) as [a |] eqn:Ea; [| congruence].
    destruct (lookup "date" m) as [d |] eqn:Ed; [| congruence].
    destruct (recent_entry_run H m a d u Ea Ed) as [s Hs].
    eexists. split; [exact Hs |].
    repeat split. eexists; reflexivity.
  - exists l. split; [exact Hrun | exact Hall].
Qed.

Lemma recent_entries_carry_no_agenda_url_witness :
  Forall (fun m => lookup "agency" m <> None /\ lookup "date" m <> None)
         [ [ ("agency", VStr "Planning"); ("date", VStr "2020-02-01T00:00:00");
             ("agenda_url", VStr "/agenda.pdf") ] ]
  /\ exists l,
       _process_recent_meetings
         (Examples.host_at Examples.wednesday_morning Examples.no_network
                           Examples.no_endpoint)
         [ [ ("agency", VStr "Planning"); ("date", VStr "2020-02-01T00:00:00");
             ("agenda_url", VStr "/agenda.pdf") ] ] 0
       = (ok l, 1)
       /\ map (lookup "agenda_url") l = [None].
Proof.
  assert (Hms : Forall (fun m => lookup "agency" m <> None /\ lookup "date" m <> None)
                  [ [ ("agency", VStr "Planning"); ("date", VStr "2020-02-01T00:00:00");
                      ("agenda_url", VStr "/agenda.pdf") ] ]).
  { repeat constructor; discriminate. }
  split; [exact Hms |].
  destruct (recent_entries_carry_no_agenda_url
              (Examples.host_at Examples.wednesday_morning Examples.no_network
                                Examples.no_endpoint)
              _ 0 Hms) as (l & Hrun & _).
  exists l. split; [exact Hrun |].
  revert Hrun. vm_compute. intros Hrun. injection Hrun as <-. reflexivity.
Defined.

(** X7: a reply that has no choice, or whose first choice has no
    content, gives the fallback sentence like a call that raises; a reply
    with content gives the content of its first choice without the white
    space at its two ends, whatever the other choices hold. *)
Theorem summary_of_a_reply (H : host) (m : dict) (t : nat) (a d : value) :
  lookup "agency" m = Some a ->
  lookup "date" m = Some d ->
  exists pa pm,
    agenda_prompt m = ok pa
    /\ minutes_prompt m = ok pm
    /\ (forall choices,
           chat H t (mkrequest "gpt-4o-mini" pa 200%Z "0.7") = ok choices ->
           exists summary,
             _summarize_agenda H m t = (ok summary, S t)
             /\ match choices with
                | Some body :: _ => trimmed body summary /\ summary = strip body
                | _ =>
                    summary
                    = "Summary unavailable - please check the agenda directly."%string
                end)
    /\ (forall choices,
           chat H t (mkrequest "gpt-4o-mini" pm 200%Z "0.7") = ok choices ->
           exists summary,
             _summarize_minutes H m t = (ok summary, S t)
             /\ match choices with
                | Some body :: _ => trimmed body summary /\ summary = strip body
                | _ => summary = "Summary unavailable."%string
                end).
Proof.
  intros Ha Hd.
  destruct (agenda_prompt_total m a d Ha Hd) as [pa Hpa].
  destruct (minutes_prompt_total m a d Ha Hd) as [pm Hpm].
  exists pa, pm. split; [exact Hpa |]. split; [exact Hpm |].
  unfold _summarize_agenda, _summarize_minutes. rewrite Hpa, Hpm. unfold_host.
  split; intros choices Hchat; unfold ok in Hchat; rewrite Hchat;
    destruct choices as [| [body |] rest]; eexists; split; try reflexivity.
  all: split; [apply strip_trimmed | reflexivity].
Qed.

Lemma summary_of_a_reply_witness :
  lookup "agency" (Examples.meeting_on "2025-03-15T00:00:00")
  = Some (VStr "Kern County Board of Supervisors")
  /\ lookup "date" (Examples.meeting_on "2025-03-15T00:00:00")
     = Some (VStr "2025-03-15T00:00:00")
  /\ _summarize_agenda
       (Examples.host_at Examples.wednesday_morning Examples.no_network
                         (fun _ _ => ok [None; Some "Second choice"%string]))
       (Examples.meeting_on "2025-03-15T00:00:00") 0
     = (ok "Summary unavailable - please check the agenda directly."%string, 1)
  /\ _summarize_minutes
       (Examples.host_at Examples.wednesday_morning Examples.no_network
                         (fun _ _ => ok [Some Spaced.worded_reply; None]))
       (Examples.meeting_on "2025-03-15T00:00:00") 0
     = (ok "Water, then roads."%string, 1).
Proof.
  split; [reflexivity |]. split; [reflexivity |]. split.
  - destruct (summary_of_a_reply
                (Examples.host_at Examples.wednesday_morning Examples.no_network
                                  (fun _ _ => ok [None; Some "Second choice"%string]))
                (Examples.meeting_on "2025-03-15T00:00:00") 0 _ _ eq_refl eq_refl)
      as (pa & pm & _ & _ & Hagenda & _).
    destruct (Hagenda _ eq_refl) as (summary & Hrun & ->). exact Hrun.
  - destruct (summary_of_a_reply
                (Examples.host_at Examples.wednesday_morning Examples.no_network
                                  (fun _ _ => ok [Some Spaced.worded_reply; None]))
                (Examples.meeting_on "2025-03-15T00:00:00") 0 _ _ eq_refl eq_refl)
      as (pa & pm & _ & _ & _ & Hminutes).
    destruct (Hminutes _ eq_refl) as (summary & Hrun & _ & ->). exact Hrun.
Defined.

(** ** The calendar: ordinals and dates *)

Import Calendar.
Local Open Scope Z_scope.

Lemma every_day_of_year_ok :
  forallb (fun n => day_of_year_ok true n && day_of_year_ok false n) days_of_year = true.
Proof. vm_compute. reflexivity. Qed.

Lemma day_of_year_is_ok (leapyear : bool) (n : Z) :
  0 <= n < 365 -> day_of_year_ok leapyear n = true.
Proof.
  intros Hn. pose proof every_day_of_year_ok as Hall.
  rewrite forallb_forall in Hall.
  assert (Hin : In n days_of_year).
  { unfold days_of_year. rewrite <- (Z2Nat.id n) by lia.
    apply in_map, in_seq. lia. }
  apply Hall in Hin. apply andb_true_iff in Hin.
  destruct leapyear; tauto.
Qed.

Lemma ord2ymd_shape (n0 : Z) :
  let n := n0 - 1 in
  let n400 := n / 146097 in
  let r400 := n mod 146097 in
  let n100 := r400 / 36524 in
  let r100 := r400 mod 36524 in
  let n4 := r100 / 1461 in
  let r4 := r100 mod 1461 in
  let n1 := r4 / 365 in
  let r1 := r4 mod 365 in
  let y := n400 * 400 + 1 + n100 * 100 + n4 * 4 + n1 in
  ord2ymd n0 =
  if (n1 =? 4) || (n100 =? 4) then (y - 1, 12, 31)
  else
    let '(m, d) := month_and_day ((n1 =? 3) && (negb (n4 =? 24) || (n100 =? 3))) r1 in
    (y, m, d).
Proof.
  cbv zeta. unfold ord2ymd, month_and_day. cbv zeta.
  destruct (_ || _); [reflexivity |].
  match goal with |- context [if ?c then _ else _] => destruct c end; reflexivity.
Qed.

Lemma days_before_year_formula (a b c e : Z) :
  0 <= a -> 0 <= b <= 3 -> 0 <= c <= 24 -> 0 <= e <= 3 ->
  days_before_year (400 * a + 100 * b + 4 * c + e + 1)
  = 146097 * a + 36524 * b + 1461 * c + 365 * e.
Proof.
  intros. unfold days_before_year. cbv zeta.
  Z.to_euclidean_division_equations. lia.
Qed.

Lemma is_leap_formula (a b c e : Z) :
  0 <= a -> 0 <= b <= 3 -> 0 <= c <= 24 -> 0 <= e <= 3 ->
  is_leap (400 * a + 100 * b + 4 * c + e + 1)
  = (e =? 3) && (negb (c =? 24) || (b =? 3)).
Proof.
  intros. unfold is_leap.
  destruct (Z.eqb_spec ((400 * a + 100 * b + 4 * c + e + 1) mod 4) 0);
    destruct (Z.eqb_spec ((400 * a + 100 * b + 4 * c + e + 1) mod 100) 0);
    destruct (Z.eqb_spec ((400 * a + 100 * b + 4 * c + e + 1) mod 400) 0);
    destruct (Z.eqb_spec e 3); destruct (Z.eqb_spec c 24); destruct (Z.eqb_spec b 3);
    cbn [andb orb negb]; try reflexivity; exfalso;
    Z.to_euclidean_division_equations; lia.
Qed.

(** The 31st of December is the last day before the next year. *)
Lemma dec31_is_before_next_year (y : Z) :
  ymd2ord y 12 31 = days_before_year (y + 1).
Proof.
  unfold ymd2ord, days_before_month, days_before_year, is_leap. cbv zeta.
  change (nth (Z.to_nat 12) DAYS_BEFORE_MONTH 0) with 334.
  change (2 <? 12) with true. cbn [andb].
  destruct (Z.eqb_spec (y mod 4) 0); destruct (Z.eqb_spec (y mod 100) 0);
    destruct (Z.eqb_spec (y mod 400) 0); cbn [andb orb negb];
    Z.to_euclidean_division_equations; lia.
Qed.

Lemma ymd2ord_ord2ymd (n0 : Z) :
  1 <= n0 -> let '(y, m, d) := ord2ymd n0 in ymd2ord y m d = n0.
Proof.
  intros Hn. rewrite ord2ymd_shape. cbv zeta.
  set (n := n0 - 1).
  set (n400 := n / 146097). set (r400 := n mod 146097).
  set (n100 := r400 / 36524). set (r100 := r400 mod 36524).
  set (n4 := r100 / 1461). set (r4 := r100 mod 1461).
  set (n1 := r4 / 365). set (r1 := r4 mod 365).
  assert (H400 : 0 <= r400 < 146097) by (apply Z.mod_pos_bound; lia).
  assert (H100 : 0 <= r100 < 36524) by (apply Z.mod_pos_bound; lia).
  assert (H4 : 0 <= r4 < 1461) by (apply Z.mod_pos_bound; lia).
  assert (H1 : 0 <= r1 < 365) by (apply Z.mod_pos_bound; lia).
  assert (E400 : n = 146097 * n400 + r400) by (apply Z.div_mod; lia).
  assert (E100 : r400 = 36524 * n100 + r100) by (apply Z.div_mod; lia).
  assert (E4 : r100 = 1461 * n4 + r4) by (apply Z.div_mod; lia).
  assert (E1 : r4 = 365 * n1 + r1) by (apply Z.div_mod; lia).
  assert (B400 : 0 <= n400) by (apply Z.div_pos; lia).
  assert (B100 : 0 <= n100 <= 4) by (clear - H400 H100 E100; lia).
  assert (B4 : 0 <= n4 <= 24) by (clear - H100 H4 E4; lia).
  assert (B1 : 0 <= n1 <= 4) by (clear - H4 H1 E1; lia).
  clearbody n400 r400 n100 r100 n4 r4 n1 r1.
  destruct (Z.eqb_spec n1 4) as [E14 | N14]; cbn [orb].
  - (* the last day of a leap year *)
    assert (r1 = 0 /\ n4 <= 23 /\ n100 <= 3) as (Z1 & L4 & L100)
      by (clear - H400 H100 H4 H1 E100 E4 E1 E14 B100 B4; lia).
    rewrite dec31_is_before_next_year.
    replace (n400 * 400 + 1 + n100 * 100 + n4 * 4 + n1 - 1 + 1)
      with (400 * n400 + 100 * n100 + 4 * (n4 + 1) + 0 + 1) by lia.
    rewrite days_before_year_formula by lia. lia.
  - destruct (Z.eqb_spec n100 4) as [E104 | N104].
    + (* the last day of a 400-year cycle *)
      assert (r100 = 0 /\ n4 = 0 /\ r4 = 0 /\ n1 = 0) as (Z100 & Z4 & Zr4 & Z1)
        by (clear - H400 H100 H4 H1 E100 E4 E1 E104 B4 B1; lia).
      rewrite dec31_is_before_next_year.
      replace (n400 * 400 + 1 + n100 * 100 + n4 * 4 + n1 - 1 + 1)
        with (400 * (n400 + 1) + 100 * 0 + 4 * 0 + 0 + 1) by lia.
      rewrite days_before_year_formula by lia. lia.
    + pose proof (day_of_year_is_ok
                    ((n1 =? 3) && (negb (n4 =? 24) || (n100 =? 3))) r1 H1) as Hok.
      unfold day_of_year_ok in Hok.
      destruct (month_and_day _ r1) as [m d].
      repeat (apply andb_true_iff in Hok; destruct Hok as [Hok ?]).
      replace (n400 * 400 + 1 + n100 * 100 + n4 * 4 + n1)
        with (400 * n400 + 100 * n100 + 4 * n4 + n1 + 1) by lia.
      unfold ymd2ord, days_before_month.
      rewrite days_before_year_formula, is_leap_formula by lia.
      repeat match goal with
             | Hb : (_ =? _) = true |- _ => apply Z.eqb_eq in Hb
             | Hb : (_ <=? _) = true |- _ => apply Z.leb_le in Hb
             end.
      lia.
Qed.

Lemma days_before_month_bounds (y m : Z) :
  1 <= m <= 12 -> 0 <= days_before_month y m <= 335.
Proof.
  intros Hm. unfold days_before_month.
  assert (Hc : m = 1 \/ m = 2 \/ m = 3 \/ m = 4 \/ m = 5 \/ m = 6 \/ m = 7
               \/ m = 8 \/ m = 9 \/ m = 10 \/ m = 11 \/ m = 12) by lia.
  repeat (destruct Hc as [-> | Hc]); try subst m;
    destruct (is_leap y); vm_compute; split; discriminate.
Qed.

(** The ordinal of a valid date after year 1 and before year 9999 is at
    least a week away from both ends of the calendar. *)
Lemma toordinal_of_valid_date (c : civil) :
  valid_date (year c) (month c) (day c) = true ->
  2 <= year c <= 9998 ->
  7 <= toordinal c <= MAXORDINAL - 6.
Proof.
  intros Hv Hy. unfold valid_date in Hv.
  repeat (apply andb_true_iff in Hv; destruct Hv as [Hv ?]).
  repeat match goal with
         | Hb : (_ <=? _) = true |- _ => apply Z.leb_le in Hb
         end.
  assert (Hdim : days_in_month (year c) (month c) <= 31).
  { unfold days_in_month. destruct (month c =? 2); [destruct (is_leap _); lia |].
    destruct (_ || _); lia. }
  pose proof (days_before_month_bounds (year c) (month c) ltac:(lia)) as Hm.
  unfold toordinal, ymd2ord, MAXORDINAL.
  assert (Hby : 365 <= days_before_year (year c) <= 3651329).
  { unfold days_before_year. cbv zeta. Z.to_euclidean_division_equations. lia. }
  lia.
Qed.

Lemma toordinal_fromordinal (o : Z) (h mi s us : Z) :
  1 <= o ->
  let '(y, m, d) := ord2ymd o in
  toordinal (mkcivil y m d h mi s us) = o.
Proof.
  intros Ho. pose proof (ymd2ord_ord2ymd o Ho) as Hr.
  destruct (ord2ymd o) as [[y m] d]. exact Hr.
Qed.

(** Adding days moves the ordinal by as many days and keeps the time. *)
Lemma add_days_moves_the_ordinal (c : civil) (k : Z) :
  1 <= toordinal c + k <= MAXORDINAL ->
  exists c',
    add_days (naive c) k = ok (naive c')
    /\ toordinal c' = toordinal c + k
    /\ (hour c', minute c', second c', microsecond c')
       = (hour c, minute c, second c, microsecond c).
Proof.
  intros Ho. unfold add_days. cbn [wall naive utcoffset].
  replace ((1 <=? toordinal c + k) && (toordinal c + k <=? MAXORDINAL)) with true
    by (symmetry; apply andb_true_iff; split; apply Z.leb_le; lia).
  pose proof (toordinal_fromordinal (toordinal c + k) (hour c) (minute c) (second c)
                (microsecond c) ltac:(lia)) as Hback.
  destruct (ord2ymd (toordinal c + k)) as [[y m] d].
  eexists. split; [reflexivity |]. split; [exact Hback | reflexivity].
Qed.

(** X8: for a run on any valid date from year 2 to year 9998, the window
    starts on the Monday of the week of the run (weekday 0) and ends on its
    Sunday (weekday 6), six days later; the day of the run lies between the
    two, and both bounds keep the time of day of the run. *)
Theorem week_window_runs_monday_to_sunday (H : host) (t : nat) :
  valid_date (year (clock H t)) (month (clock H t)) (day (clock H t)) = true ->
  2 <= year (clock H t) <= 9998 ->
  exists ws we,
    Main.week_window H t = (ok (naive ws, naive we), S t)
    /\ weekday (naive ws) = 0
    /\ weekday (naive we) = 6
    /\ toordinal we = toordinal ws + 6
    /\ toordinal ws <= toordinal (clock H t) <= toordinal we
    /\ (hour ws, minute ws, second ws, microsecond ws)
       = (hour (clock H t), minute (clock H t), second (clock H t),
          microsecond (clock H t))
    /\ (hour we, minute we, second we, microsecond we)
       = (hour (clock H t), minute (clock H t), second (clock H t),
          microsecond (clock H t)).
Proof.
  intros Hv Hy. pose proof (toordinal_of_valid_date _ Hv Hy) as Ho.
  assert (Hwd : 0 <= (toordinal (clock H t) + 6) mod 7 < 7)
    by (apply Z.mod_pos_bound; lia).
  destruct (add_days_moves_the_ordinal (clock H t)
              (- weekday (naive (clock H t)))) as (ws & Hws & Ows & Tws).
  { unfold weekday. cbn [wall naive]. unfold MAXORDINAL in *. lia. }
  destruct (add_days_moves_the_ordinal ws 6) as (we & Hwe & Owe & Twe).
  { rewrite Ows. unfold weekday. cbn [wall naive]. unfold MAXORDINAL in *. lia. }
  exists ws, we. split.
  - unfold Main.week_window, bind, lift, now, ret. unfold ok at 1.
    rewrite Hws. unfold ok at 1. rewrite Hwe. reflexivity.
  - unfold weekday in *. cbn [wall naive] in *. rewrite Twe, Tws, Owe, Ows.
    repeat split; try (Z.to_euclidean_division_equations; lia).
Qed.

Lemma week_window_runs_monday_to_sunday_witness :
  valid_date (year (clock Examples.monday_host 0%nat)) (month (clock Examples.monday_host 0%nat))
             (day (clock Examples.monday_host 0%nat)) = true
  /\ 2 <= year (clock Examples.monday_host 0%nat) <= 9998
  /\ exists ws we,
       Main.week_window Examples.monday_host 0%nat = (ok (naive ws, naive we), 1%nat)
       /\ weekday (naive ws) = 0
       /\ weekday (naive we) = 6
       /\ toordinal we = toordinal ws + 6.
Proof.
  assert (Hv : valid_date (year (clock Examples.monday_host 0%nat))
                          (month (clock Examples.monday_host 0%nat))
                          (day (clock Examples.monday_host 0%nat)) = true) by reflexivity.
  assert (Hy : 2 <= year (clock Examples.monday_host 0%nat) <= 9998) by (simpl; lia).
  split; [exact Hv |]. split; [exact Hy |].
  destruct (week_window_runs_monday_to_sunday Examples.monday_host 0%nat Hv Hy)
    as (ws & we & Hrun & Hmon & Hsun & Hsix & _).
  exists ws, we. repeat split; assumption.
Defined.

Local Open Scope nat_scope.
Local Open Scope list_scope.

(** * The files of the run *)

Import Strftime Disk PyLib NotebookLMGenerator Renders.
Local Open Scope string_scope.
Local Open Scope list_scope.

(** ** When a block is built *)

Lemma upcoming_block_ok (m : dict) :
  is_ok (upcoming_block m) = upcoming_renders m.
Proof.
  unfold upcoming_block, upcoming_renders, has_key, date_reads, getitem, rbind,
    fromisoformat_value, ok, raise.
  destruct (lookup "agency" m); [| reflexivity].
  destruct (lookup "date" m) as [[| s |] |]; try reflexivity.
  destruct (fromisoformat s); [reflexivity |].
  destruct (lookup "type" m); [| reflexivity].
  destruct (lookup "summary" m); reflexivity.
Qed.

Lemma recent_block_ok (m : dict) :
  is_ok (recent_block m) = recent_renders m.
Proof.
  unfold recent_block, recent_renders, has_key, date_reads, getitem, rbind,
    fromisoformat_value, ok, raise.
  destruct (lookup "agency" m); [| reflexivity].
  destruct (lookup "date" m) as [[| s |] |]; try reflexivity.
  destruct (fromisoformat s); [reflexivity |].
  destruct (lookup "summary" m); reflexivity.
Qed.

(** A block that is not built raises for a missing key, a date that is
    not a text or a text that is not a timestamp. *)
Lemma block_errors (m : dict) (e : exn) :
  upcoming_block m = raise e \/ recent_block m = raise e ->
  e = KeyError \/ e = TypeError \/ e = ValueError.
Proof.
  unfold upcoming_block, recent_block, getitem, rbind, fromisoformat_value,
    fromisoformat, ok, raise.
  destruct (lookup "agency" m); [| intros [Hr | Hr]; injection Hr as <-; auto].
  destruct (lookup "date" m) as [[| s |] |];
    try (intros [Hr | Hr]; injection Hr as <-; auto).
  destruct (parse_isoformat s); [| intros [Hr | Hr]; injection Hr as <-; auto].
  destruct (lookup "type" m), (lookup "summary" m);
    intros [Hr | Hr]; try discriminate; injection Hr as <-; auto.
Qed.

Lemma blocks_ok {A : Type} (block : A -> result string) (l : list A) :
  is_ok (blocks block l) = forallb (fun x => is_ok (block x)) l.
Proof.
  induction l as [| x l IH]; [reflexivity |]. cbn [blocks forallb].
  destruct (block x) as [e | b]; [reflexivity |]. cbn [rbind is_ok andb].
  rewrite <- IH. destruct (blocks block l); reflexivity.
Qed.

Lemma blocks_error {A : Type} (block : A -> result string) (l : list A) (e : exn) :
  blocks block l = raise e -> exists x, In x l /\ block x = raise e.
Proof.
  induction l as [| x l IH]; [discriminate |]. cbn [blocks].
  destruct (block x) as [e' | b] eqn:Hb.
  - intros Hr. injection Hr as <-. exists x. split; [now left | exact Hb].
  - cbn [rbind]. destruct (blocks block l) as [e' | rest]; [| discriminate].
    intros Hr. injection Hr as <-. destruct (IH eq_refl) as (y & Hin & Hy).
    exists y. split; [now right | exact Hy].
Qed.

Lemma forallb_ext_eq {A : Type} (f g : A -> bool) (l : list A) :
  (forall x, f x = g x) -> forallb f l = forallb g l.
Proof. intros Hfg. induction l as [| x l IH]; simpl; [| rewrite Hfg, IH]; reflexivity. Qed.

Lemma theme_block_ok (L : pylib) (i : Z) (theme : json) :
  is_ok (theme_block L i theme) = theme_renders theme.
Proof.
  destruct theme as [| b | n | s | items | members]; try reflexivity.
  unfold theme_block, theme_renders, obj_get.
  destruct (obj_find "theme" members) as [[| b | n | s | items | ms] |]; reflexivity.
Qed.

Lemma theme_block_error (L : pylib) (i : Z) (theme : json) (e : exn) :
  theme_block L i theme = raise e -> e = AttributeError.
Proof.
  destruct theme as [| b | n | s | items | members];
    try (intros Hr; injection Hr as <-; reflexivity).
  unfold theme_block, obj_get.
  destruct (obj_find "theme" members) as [[| b | n | s | items | ms] |];
    intros Hr; try discriminate; injection Hr as <-; reflexivity.
Qed.

Lemma theme_blocks_ok (L : pylib) (themes : list json) :
  forall i, is_ok (theme_blocks L i themes) = forallb theme_renders themes.
Proof.
  induction themes as [| th themes IH]; intros i; [reflexivity |].
  cbn [theme_blocks forallb]. rewrite <- theme_block_ok with (L := L) (i := i).
  destruct (theme_block L i th) as [e | b]; [reflexivity |]. cbn [rbind is_ok andb].
  rewrite <- (IH (i + 1)%Z). destruct (theme_blocks L (i + 1) themes); reflexivity.
Qed.

Lemma theme_blocks_error (L : pylib) (themes : list json) (e : exn) :
  forall i, theme_blocks L i themes = raise e -> e = AttributeError.
Proof.
  induction themes as [| th themes IH]; intros i; [discriminate |].
  cbn [theme_blocks]. destruct (theme_block L i th) as [e' | b] eqn:Hb.
  - intros Hr. injection Hr as <-. exact (theme_block_error L i th e' Hb).
  - cbn [rbind]. destruct (theme_blocks L (i + 1) themes) as [e' | more] eqn:Hm;
      [| discriminate].
    intros Hr. injection Hr as <-. exact (IH _ Hm).
Qed.

(** ** The three files, one after the other *)

Lemma meetings_render_blocks (data : processed) :
  meetings_render data
  = is_ok (blocks upcoming_block (or_empty (get_upcoming_meetings data)))
    && is_ok (blocks recent_block (or_empty (get_recent_minutes data))).
Proof.
  unfold meetings_render. rewrite !blocks_ok.
  rewrite (forallb_ext_eq _ _ _ upcoming_block_ok).
  rewrite (forallb_ext_eq _ _ _ recent_block_ok). reflexivity.
Qed.

(** The summaries are written after one reading of the clock, when every
    block is built; otherwise nothing is written. *)
Lemma meeting_summaries_run (H : host) (data : processed) (st : state) :
  if meetings_render data
  then exists a,
         _generate_meeting_summaries H data st
         = (ok tt, mkstate (S (tick st)) (files st ++ [(SUMMARIES, a)]))
  else exists e,
         _generate_meeting_summaries H data st
         = (raise e, mkstate (S (tick st)) (files st))
         /\ (e = KeyError \/ e = TypeError \/ e = ValueError).
Proof.
  rewrite meetings_render_blocks.
  unfold _generate_meeting_summaries, Disk.bind, run, Disk.lift, now, write_file.
  cbn [tick files].
  destruct (blocks upcoming_block _) as [e | up] eqn:Hup; cbn [is_ok andb].
  - exists e. split; [reflexivity |].
    destruct (blocks_error _ _ _ Hup) as (m & _ & Hm).
    apply (block_errors m). now left.
  - destruct (blocks recent_block _) as [e | rc] eqn:Hrc; cbn [is_ok].
    + exists e. split; [reflexivity |].
      destruct (blocks_error _ _ _ Hrc) as (m & _ & Hm).
      apply (block_errors m). now right.
    + eexists. reflexivity.
Qed.

Lemma themes_connections_run (L : pylib) (H : host) (data : processed) (st : state) :
  if themes_render (get_themes data)
  then exists b,
         _generate_themes_connections L H data st
         = (ok tt, mkstate (S (tick st)) (files st ++ [(THEMES, b)]))
  else exists e,
         _generate_themes_connections L H data st
         = (raise e, mkstate (S (tick st)) (files st))
         /\ (e = TypeError \/ e = AttributeError).
Proof.
  unfold _generate_themes_connections, themes_render, Disk.bind, run, Disk.lift,
    now, write_file.
  cbn [tick files].
  destruct (get_themes data) as [v |].
  - destruct (iterate v) as [e | items] eqn:Hit.
    + exists e. split; [reflexivity |]. left.
      destruct v; try discriminate; injection Hit as <-; reflexivity.
    + unfold ok. rewrite <- (theme_blocks_ok L items 1).
      destruct (theme_blocks L 1 items) as [e | body] eqn:Hb; cbn [is_ok].
      * exists e. split; [reflexivity |]. right.
        exact (theme_blocks_error L items e 1%Z Hb).
      * eexists. reflexivity.
  - cbn [theme_blocks]. eexists. reflexivity.
Qed.

Lemma podcast_guidelines_run (H : host) (data : processed) (st : state) :
  exists c,
    _generate_podcast_guidelines H data st
    = (ok tt, mkstate (S (tick st)) (files st ++ [(GUIDELINES, c)])).
Proof.
  unfold _generate_podcast_guidelines, Disk.bind, run, now, write_file.
  cbn [tick files]. eexists. reflexivity.
Qed.

(** Every run of [generate_files]: its exception and the files it leaves. *)
Lemma generate_files_run (L : pylib) (H : host) (data : processed) (st : state) :
  if meetings_render data
  then exists a,
         if themes_render (get_themes data)
         then exists b c,
                generate_files L H data st
                = (ok tt, mkstate (3 + tick st)
                                  (files st ++ [(SUMMARIES, a); (THEMES, b); (GUIDELINES, c)]))
         else exists e,
                generate_files L H data st
                = (raise e, mkstate (2 + tick st) (files st ++ [(SUMMARIES, a)]))
                /\ (e = TypeError \/ e = AttributeError)
  else exists e,
         generate_files L H data st = (raise e, mkstate (1 + tick st) (files st))
         /\ (e = KeyError \/ e = TypeError \/ e = ValueError).
Proof.
  pose proof (meeting_summaries_run H data st) as H1. unfold generate_files.
  destruct (meetings_render data).
  - destruct H1 as [a H1]. exists a.
    pose proof (themes_connections_run L H data
                  (mkstate (S (tick st)) (files st ++ [(SUMMARIES, a)]))) as H2.
    cbn [tick files] in H2.
    destruct (themes_render (get_themes data)).
    + destruct H2 as [b H2].
      destruct (podcast_guidelines_run H data
                  (mkstate (S (S (tick st)))
                           ((files st ++ [(SUMMARIES, a)]) ++ [(THEMES, b)])))
        as [c H3].
      exists b, c. cbn [tick files] in H3.
      unfold Disk.bind. rewrite H1. unfold ok at 1. cbn iota.
      rewrite H2. unfold ok at 1. cbn iota. rewrite H3.
      rewrite <- !app_assoc. reflexivity.
    + destruct H2 as (e & H2 & He). exists e. split; [| exact He].
      unfold Disk.bind. rewrite H1. unfold ok at 1. cbn iota. rewrite H2. reflexivity.
  - destruct H1 as (e & H1 & He). exists e. split; [| exact He].
    unfold Disk.bind. rewrite H1. reflexivity.
Qed.

(** ** What the scraper hands on *)

Lemma valid_reading_split (c : civil) :
  valid_reading c = true ->
  valid_date (year c) (month c) (day c) = true
  /\ valid_time (hour c) (minute c) (second c) (microsecond c) = true.
Proof. unfold valid_reading. intros Hv. now apply andb_true_iff in Hv. Qed.

Lemma granicus_record_dated (H : host) (el : node) (cfg : source_config)
      (ws we : datetime) (t t' : nat) (rec : dict) :
  _parse_granicus_meeting H el cfg ws we t = (ok (Some rec), t') -> well_dated rec.
Proof.
  unfold _parse_granicus_meeting, parse_granicus_body, rbind; unfold_host.
  destruct (find_text Re.date_pattern_search el) as [txt |];
    simpl; [| discriminate].
  destruct (strptime_mdY (strip txt)) as [e | d] eqn:Hparse; simpl; [discriminate |].
  destruct (strptime_is_valid _ _ Hparse) as (Hn & Hvd & Hvt).
  destruct (in_week ws d we) as [e | [|]]; simpl; try discriminate.
  destruct d as [c o]. simpl in *. subst o.
  assert (Hrec : forall url rest,
             well_dated (("agency", VStr (name cfg))
                         :: ("date", VStr (isoformat (naive c)))
                         :: ("type", VStr "Regular Meeting")
                         :: ("agenda_url", url) :: rest)).
  { intros url rest. exists (name cfg), c. split; [reflexivity |].
    split; [reflexivity |]. unfold valid_reading. now rewrite Hvd, Hvt. }
  destruct (find ["a"] "href" (Re.search_ci ["agenda"; "pdf"]) el) as [l |]; simpl.
  - unfold getattr, ok, raise.
    destruct (attr "href" l) as [h |]; simpl; [| discriminate].
    intros Hr. injection Hr as <- _. apply Hrec.
  - intros Hr. injection Hr as <- _. apply Hrec.
Qed.

Lemma legistar_record_dated (H : host) (el : node) (cfg : source_config)
      (ws we : datetime) (t t' : nat) (rec : dict) :
  valid_reading (clock H t) = true ->
  _parse_legistar_meeting H el cfg ws we t = (ok (Some rec), t') -> well_dated rec.
Proof.
  intros Hv. unfold _parse_legistar_meeting, getattr.
  destruct (attr "href" el) as [h |]; unfold_host; [| discriminate].
  intros Hr. injection Hr as <- _.
  exists (name cfg), (clock H t). repeat split. exact Hv.
Qed.

Lemma scrape_source_dated (H : host) (key : string) (cfg : source_config)
      (ws we : datetime) (t t' : nat) (l : list dict) :
  (forall i, valid_reading (clock H i) = true) ->
  _scrape_source H key cfg ws we t = (ok l, t') -> Forall well_dated l.
Proof.
  intros Hclock. unfold _scrape_source, _scrape_granicus, _scrape_legistar.
  destruct (contains "granicus" (base_url cfg)).
  - destruct (fetch_soup H cfg t) as [[e | soup] t1].
    + intros Hr. injection Hr as <- _. constructor.
    + intros Hrun. apply collect_invariant with (P := well_dated) in Hrun.
      * exact (proj1 Hrun).
      * intros row u r u' _ Hrow. exact (granicus_record_dated _ _ _ _ _ _ _ _ Hrow).
      * constructor.
  - destruct (contains "legistar" (base_url cfg)).
    + destruct (fetch_soup H cfg t) as [[e | soup] t1].
      * intros Hr. injection Hr as <- _. constructor.
      * intros Hrun. apply collect_invariant with (P := well_dated) in Hrun.
        -- exact (proj1 Hrun).
        -- intros row u r u' _ Hrow.
           exact (legistar_record_dated _ _ _ _ _ _ _ _ (Hclock u) Hrow).
        -- constructor.
    + intros Hr. injection Hr as <- _. constructor.
Qed.

Lemma scrape_each_dated (H : host) (ws we : datetime)
      (srcs : list (string * source_config)) :
  (forall i, valid_reading (clock H i) = true) ->
  forall acc t l t',
    Forall well_dated acc ->
    scrape_each H srcs ws we acc t = (ok l, t') -> Forall well_dated l.
Proof.
  intros Hclock. induction srcs as [| [key cfg] rest IH]; intros acc t l t' Hacc;
    cbn [scrape_each].
  - intros Hr. injection Hr as <- _. exact Hacc.
  - destruct (_scrape_source H key cfg ws we t) as [[e | ms] t1] eqn:Hs.
    + apply IH. exact Hacc.
    + apply IH. apply Forall_app. split; [exact Hacc |].
      exact (scrape_source_dated _ _ _ _ _ _ _ _ Hclock Hs).
Qed.

(** ** What the processor hands on *)

Lemma comprehension_keeps (P : dict -> Prop) (p : dict -> M bool) (ms : list dict) :
  forall t l t',
    comprehension p ms t = (ok l, t') -> Forall P ms -> Forall P l.
Proof.
  induction ms as [| m ms IH]; intros t l t'; cbn [comprehension]; unfold Host.bind, Host.ret.
  - intros Hr _. injection Hr as <- _. constructor.
  - destruct (p m t) as [[e | b] t1]; [discriminate |].
    destruct (comprehension p ms t1) as [[e | rest] t2] eqn:Hrest; [discriminate |].
    intros Hr Hall. injection Hr as <- _. inversion Hall as [| ? ? Hm Hms]; subst.
    specialize (IH _ _ _ Hrest Hms). destruct b; [constructor |]; assumption.
Qed.

Lemma entry_renders (a : string) (c : civil) (ty s : value) (rest : dict) :
  valid_reading c = true ->
  upcoming_renders (("agency", VStr a) :: ("date", VStr (isoformat (naive c)))
                    :: ("type", ty) :: ("summary", s) :: rest) = true
  /\ recent_renders (("agency", VStr a) :: ("date", VStr (isoformat (naive c)))
                     :: ("type", ty) :: ("summary", s) :: rest) = true.
Proof.
  intros Hv. destruct (valid_reading_split c Hv) as [Hd Ht].
  unfold upcoming_renders, recent_renders, has_key, date_reads.
  cbn [lookup String.eqb Ascii.eqb Bool.eqb].
  rewrite (fromisoformat_isoformat c Hd Ht). split; reflexivity.
Qed.

Lemma forall2_right {A B : Type} (f : B -> bool) (l : list A) (l' : list B) :
  Forall2 (fun _ e => f e = true) l l' -> forallb f l' = true.
Proof.
  induction 1 as [| x e l l' He _ IH]; [reflexivity |]. simpl. now rewrite He, IH.
Qed.

Lemma upcoming_entries_render (H : host) (ms : list dict) :
  Forall well_dated ms ->
  forall t, exists l,
    process_each (upcoming_entry H) ms [] t = (ok l, t + List.length ms)
    /\ forallb upcoming_renders l = true.
Proof.
  intros Hms t.
  destruct (process_each_in_step (fun _ e => upcoming_renders e = true)
              (upcoming_entry H) ms) with (acc := @nil dict) (t := t)
    as (l & Hrun & Hall).
  - intros m Hin u. rewrite Forall_forall in Hms.
    destruct (Hms m Hin) as (a & c & Ha & Hd & Hv).
    destruct (upcoming_entry_run H m _ _ u Ha Hd) as [s Hs].
    eexists. split; [exact Hs |]. apply (entry_renders a c _ _ _ Hv).
  - exists l. split; [exact Hrun | exact (forall2_right _ _ _ Hall)].
Qed.

Lemma recent_entries_render (H : host) (ms : list dict) :
  Forall well_dated ms ->
  forall t, exists l,
    process_each (recent_entry H) ms [] t = (ok l, t + List.length ms)
    /\ forallb recent_renders l = true.
Proof.
  intros Hms t.
  destruct (process_each_in_step (fun _ e => recent_renders e = true)
              (recent_entry H) ms) with (acc := @nil dict) (t := t)
    as (l & Hrun & Hall).
  - intros m Hin u. rewrite Forall_forall in Hms.
    destruct (Hms m Hin) as (a & c & Ha & Hd & Hv).
    destruct (recent_entry_run H m _ _ u Ha Hd) as [s Hs].
    eexists. split; [exact Hs |]. apply (entry_renders a c _ _ [] Hv).
  - exists l. split; [exact Hrun | exact (forall2_right _ _ _ Hall)].
Qed.

Lemma well_dated_has_agency (ms : list dict) :
  Forall well_dated ms -> Forall (fun m => lookup "agency" m <> None) ms.
Proof.
  apply Forall_impl. intros m (a & c & Ha & _). rewrite Ha. discriminate.
Qed.

(** The processing of dated meetings returns entries that all render; its
    themes are what the search for themes returns. *)
Lemma process_meetings_renders (H : host) (ms : list dict) (t : nat) :
  Forall well_dated ms ->
  exists b u,
    process_meetings H ms t = (ok b, S u)
    /\ meetings_render (NotebookLMGenerator.of_bundle b) = true
    /\ _find_common_themes H ms u = (ok (themes b), S u).
Proof.
  intros Hms.
  destruct (comprehension_total _ ms (is_upcoming_total H) t) as (up & t1 & Hup).
  destruct (comprehension_total (fun m => b <- _is_upcoming H m ;; Host.ret (negb b))
              ms (is_not_upcoming_total H) t1) as (rc & t2 & Hrc).
  pose proof (comprehension_keeps well_dated _ _ _ _ _ Hup Hms) as Hupd.
  pose proof (comprehension_keeps well_dated _ _ _ _ _ Hrc Hms) as Hrcd.
  destruct (upcoming_entries_render H up Hupd t2) as (lu & Hlu & Hru).
  destruct (recent_entries_render H rc Hrcd (t2 + List.length up))
    as (lr & Hlr & Hrr).
  destruct (themes_prompt_total ms (well_dated_has_agency ms Hms)) as [p Hp].
  destruct (find_common_themes_total H ms p
              (t2 + List.length up + List.length rc) Hp) as [th Hth].
  exists (mkbundle lu lr th (Z.of_nat (List.length ms))),
         (t2 + List.length up + List.length rc).
  split; [| split].
  - unfold process_meetings, _process_upcoming_meetings, _process_recent_meetings.
    unfold Host.bind at 1. rewrite Hup. unfold ok at 1.
    unfold Host.bind at 1. rewrite Hrc. unfold ok at 1.
    unfold Host.bind at 1. rewrite Hlu. unfold ok at 1.
    unfold Host.bind at 1. rewrite Hlr. unfold ok at 1.
    unfold Host.bind at 1. rewrite Hth. reflexivity.
  - unfold meetings_render, NotebookLMGenerator.of_bundle.
    cbn [get_upcoming_meetings get_recent_minutes or_empty upcoming_meetings
         recent_minutes]. now rewrite Hru, Hrr.
  - exact Hth.
Qed.

Lemma found_themes_render (H : host) (ms : list dict) (t : nat) (th : json) (t' : nat) :
  replies_render H ->
  _find_common_themes H ms t = (ok th, t') ->
  themes_render (Some th) = true.
Proof.
  intros Hr. unfold _find_common_themes.
  destruct (themes_prompt ms) as [e | p]; unfold_host; [discriminate |].
  match goal with
  | |- context [chat H t ?r] => destruct (chat H t r) as [e | choices] eqn:Hchat
  end.
  - intros Heq. injection Heq as <- _. reflexivity.
  - destruct (first_content choices) as [e | content] eqn:Hc.
    + intros Heq. injection Heq as <- _. reflexivity.
    + destruct (json_loads H content) as [parsed |] eqn:Hj.
      * intros Heq. injection Heq as <- _. exact (Hr _ _ _ _ _ Hchat Hc Hj).
      * intros Heq. injection Heq as <- _. reflexivity.
Qed.

(** ** The run *)

Lemma week_window_returns (H : host) (t : nat) :
  valid_date (year (clock H t)) (month (clock H t)) (day (clock H t)) = true ->
  (2 <= year (clock H t) <= 9998)%Z ->
  exists ws we, Main.week_window H t = (ok (naive ws, naive we), S t).
Proof.
  intros Hv Hy. pose proof (toordinal_of_valid_date _ Hv Hy) as Ho.
  assert (Hwd : (0 <= (toordinal (clock H t) + 6) mod 7 < 7)%Z)
    by (apply Z.mod_pos_bound; lia).
  destruct (add_days_moves_the_ordinal (clock H t)
              (- weekday (naive (clock H t)))) as (ws & Hws & Ows & _).
  { unfold weekday. cbn [wall naive]. unfold MAXORDINAL in *. lia. }
  destruct (add_days_moves_the_ordinal ws 6) as (we & Hwe & _).
  { rewrite Ows. unfold weekday. cbn [wall naive]. unfold MAXORDINAL in *. lia. }
  exists ws, we.
  unfold Main.week_window, Host.bind, Host.lift, now, Host.ret. unfold ok at 1.
  rewrite Hws. unfold ok at 1. rewrite Hwe. reflexivity.
Qed.

Lemma unreachable_fetch (H : host) (cfg : source_config) (t : nat) :
  unreachable H -> exists e, fetch_soup H cfg t = (inl e, S t).
Proof.
  intros Hu. unfold fetch_soup, Host.bind, Host.lift, session_get.
  specialize (Hu t (base_url cfg ++ meetings_path cfg)%string).
  destruct (http_get H t _) as [e | r]; [exists e; reflexivity |].
  unfold raise_for_status.
  replace ((400 <=? status_code r)%Z && (status_code r <? 600)%Z) with true
    by (symmetry; apply andb_true_iff; split; [apply Z.leb_le | apply Z.ltb_lt]; lia).
  exists HTTPError. reflexivity.
Qed.

Lemma unreachable_source (H : host) (key : string) (cfg : source_config)
      (ws we : datetime) (t : nat) :
  contains "granicus" (base_url cfg) || contains "legistar" (base_url cfg) = true ->
  unreachable H ->
  _scrape_source H key cfg ws we t = (ok [], S t).
Proof.
  intros Hkind Hu. destruct (unreachable_fetch H cfg t Hu) as [e He].
  exact (scrape_source_failed_fetch H key cfg ws we t (S t) e Hkind He).
Qed.

Lemma unreachable_scrape (H : host) (ws we : datetime) (t : nat) :
  unreachable H ->
  scrape_weekly_meetings H sources ws we t = (ok [], 3 + t).
Proof.
  intros Hu. unfold scrape_weekly_meetings, sources. cbn [scrape_each].
  rewrite unreachable_source by first [reflexivity | exact Hu].
  unfold ok at 1. cbn iota.
  rewrite unreachable_source by first [reflexivity | exact Hu].
  unfold ok at 1. cbn iota.
  rewrite unreachable_source by first [reflexivity | exact Hu].
  reflexivity.
Qed.

(** From the scrape on: what [main] does with the meetings it found. *)
Lemma main_from_the_scrape (L : pylib) (H : host) (key : option string) (st : state)
      (ws we : datetime) (m : dict) (ms : list dict) (t1 : nat) :
  new_client L key = ok tt ->
  Main.week_window H (tick st) = (ok (ws, we), S (tick st)) ->
  scrape_weekly_meetings H sources ws we (S (tick st)) = (ok (m :: ms), t1) ->
  Forall well_dated (m :: ms) ->
  exists b u,
    _find_common_themes H (m :: ms) u = (ok (themes b), S u)
    /\ if themes_render (Some (themes b))
       then exists st',
              Pipeline.main L H key st = (ok tt, st')
              /\ written st'
                 = written st ++ [ SUMMARIES; THEMES; GUIDELINES;
                                   "../data/latest-meetings.json";
                                   "../latest-data.js" ]
       else exists e a t',
              Pipeline.main L H key st
              = (raise e, mkstate t' (files st ++ [(SUMMARIES, a)]))
              /\ (e = TypeError \/ e = AttributeError).
Proof.
  intros Hclient Hweek Hscrape Hdated.
  destruct (process_meetings_renders H (m :: ms) t1 Hdated) as (b & u & Hproc & Hr & Hth).
  exists b, u. split; [exact Hth |].
  pose proof (generate_files_run L H (of_bundle b) (mkstate (S u) (files st))) as Hg.
  rewrite Hr in Hg. destruct Hg as [a Hg].
  change (get_themes (of_bundle b)) with (Some (themes b)) in Hg.
  cbn [tick files] in Hg.
  destruct (themes_render (Some (themes b)));
    [destruct Hg as (f2 & f3 & Hg) | destruct Hg as (e & Hg & He)];
    (unfold Pipeline.main;
     unfold Disk.bind at 1; unfold Disk.lift at 1; rewrite Hclient;
     unfold ok at 1; cbn iota;
     unfold Disk.bind at 1; unfold run at 1; rewrite Hweek;
     unfold ok at 1; cbn iota beta;
     unfold Disk.bind at 1; unfold run at 1; cbn [tick files]; rewrite Hscrape;
     unfold ok at 1; cbn iota beta;
     unfold Disk.bind at 1; unfold run at 1; cbn [tick files]; rewrite Hproc;
     unfold ok at 1; cbn iota beta;
     unfold Disk.bind at 1; cbn [tick files]; rewrite Hg).
  - unfold ok at 1. cbn iota beta.
    unfold Pipeline.update_website_data, Disk.bind, run, now, write_file.
    cbn [tick files].
    eexists. split; [reflexivity |].
    unfold written. cbn [files]. rewrite !map_app. cbn [map fst].
    rewrite <- !app_assoc. reflexivity.
  - exists e, a, (2 + S u). split; [reflexivity | exact He].
Qed.

Lemma main_without_meetings (L : pylib) (H : host) (key : option string) (st : state)
      (ws we : datetime) (t1 : nat) :
  new_client L key = ok tt ->
  Main.week_window H (tick st) = (ok (ws, we), S (tick st)) ->
  scrape_weekly_meetings H sources ws we (S (tick st)) = (ok [], t1) ->
  Pipeline.main L H key st = (ok tt, mkstate t1 (files st)).
Proof.
  intros Hclient Hweek Hscrape. unfold Pipeline.main.
  unfold Disk.bind at 1. unfold Disk.lift at 1. rewrite Hclient. unfold ok at 1. cbn iota.
  unfold Disk.bind at 1. unfold run at 1. rewrite Hweek. unfold ok at 1. cbn iota beta.
  unfold Disk.bind at 1. unfold run at 1. cbn [tick files]. rewrite Hscrape.
  reflexivity.
Qed.

Lemma main_scrape_run (H : host) (t : nat) :
  valid_reading (clock H t) = true ->
  (2 <= year (clock H t) <= 9998)%Z ->
  exists ws we ms t1,
    Main.week_window H t = (ok (naive ws, naive we), S t)
    /\ scrape_weekly_meetings H sources (naive ws) (naive we) (S t) = (ok ms, t1)
    /\ Main.main_scrape H t = (ok ms, t1).
Proof.
  intros Hv Hy. destruct (valid_reading_split _ Hv) as [Hd _].
  destruct (week_window_returns H t Hd Hy) as (ws & we & Hweek).
  destruct (scrape_each_run H (naive ws) (naive we) sources (S t)) as [t1 Hrun].
  exists ws, we, (List.concat (source_yields H sources (naive ws) (naive we) (S t))), t1.
  split; [exact Hweek |]. split; [exact (Hrun []) |].
  unfold Main.main_scrape, Host.bind. rewrite Hweek. exact (Hrun []).
Qed.


(** ** The generator *)





(** ** The whole run *)

(** X11: with the credential accepted and no listing within reach, on any
    date that exists from year 2 to year 9998, [main] returns without an
    exception after four interactions, the reading of the clock and the
    three requests: no completion is asked for and no file is written. *)
Theorem run_without_listings_writes_nothing (L : pylib) (H : host)
        (key : option string) (st : state) :
  new_client L key = ok tt ->
  valid_reading (clock H (tick st)) = true ->
  (2 <= year (clock H (tick st)) <= 9998)%Z ->
  unreachable H ->
  Pipeline.main L H key st = (ok tt, mkstate (4 + tick st) (files st)).
Proof.
  intros Hclient Hv Hy Hu. destruct (valid_reading_split _ Hv) as [Hd _].
  destruct (week_window_returns H (tick st) Hd Hy) as (ws & we & Hweek).
  apply (main_without_meetings L H key st _ _ _ Hclient Hweek).
  exact (unreachable_scrape H _ _ (S (tick st)) Hu).
Qed.

Lemma run_without_listings_writes_nothing_witness :
  Pipeline.main Outputs.lib Outputs.offline_host (Some "key") Outputs.fresh
  = (ok tt, mkstate 4 []).
Proof.
  apply (run_without_listings_writes_nothing Outputs.lib Outputs.offline_host
           (Some "key") Outputs.fresh).
  - reflexivity.
  - reflexivity.
  - simpl. lia.
  - intros t url. simpl. exact I.
Defined.

(** X12: with the credential accepted, a clock that shows dates and times
    that exist, in a week from year 2 to year 9998, and an endpoint whose
    answers, when they are JSON, decode to themes that render, [main] never
    raises, whatever the listings hold and whether or not the endpoint
    answers. When the scrape finds no meeting it writes nothing; otherwise
    it writes five files, in this order: the summaries, the themes, the
    guidelines, latest-meetings.json and latest-data.js. *)
Theorem run_completes (L : pylib) (H : host) (key : option string) (st : state) :
  new_client L key = ok tt ->
  (forall i, valid_reading (clock H i) = true) ->
  (2 <= year (clock H (tick st)) <= 9998)%Z ->
  replies_render H ->
  exists ms t1 st',
    Main.main_scrape H (tick st) = (ok ms, t1)
    /\ Pipeline.main L H key st = (ok tt, st')
    /\ written st'
       = written st
         ++ match ms with
            | [] => []
            | _ :: _ => [ SUMMARIES; THEMES; GUIDELINES;
                          "../data/latest-meetings.json"; "../latest-data.js" ]
            end.
Proof.
  intros Hclient Hclock Hy Hreplies.
  destruct (main_scrape_run H (tick st) (Hclock _) Hy)
    as (ws & we & ms & t1 & Hweek & Hscrape & Hmain).
  assert (Hdated : Forall well_dated ms).
  { apply (scrape_each_dated H _ _ sources Hclock [] _ _ _ (Forall_nil _) Hscrape). }
  exists ms, t1. destruct ms as [| m ms].
  - exists (mkstate t1 (files st)). split; [exact Hmain |].
    split; [exact (main_without_meetings L H key st _ _ _ Hclient Hweek Hscrape) |].
    unfold written. cbn [files]. now rewrite app_nil_r.
  - destruct (main_from_the_scrape L H key st _ _ m ms t1 Hclient Hweek Hscrape Hdated)
      as (b & u & Hth & Hrun).
    rewrite (found_themes_render H _ _ _ _ Hreplies Hth) in Hrun.
    destruct Hrun as (st' & Hrun & Hw). exists st'.
    split; [exact Hmain |]. split; [exact Hrun | exact Hw].
Qed.

Lemma run_completes_witness :
  exists st',
    Pipeline.main Outputs.lib Outputs.answering_host (Some "key") Outputs.fresh
    = (ok tt, st')
    /\ written st' = [ SUMMARIES; THEMES; GUIDELINES;
                       "../data/latest-meetings.json"; "../latest-data.js" ].
Proof.
  destruct (run_completes Outputs.lib Outputs.answering_host (Some "key") Outputs.fresh)
    as (ms & t1 & st' & Hscrape & Hrun & Hw).
  - reflexivity.
  - intros i. reflexivity.
  - simpl. lia.
  - intros t r choices content parsed Hc Hf Hj.
    injection Hc as <-. injection Hf as <-.
    vm_compute in Hj. injection Hj as <-. reflexivity.
  - exists st'. split; [exact Hrun |].
    vm_compute in Hscrape. injection Hscrape as <- _. exact Hw.
Defined.


